(** * EFT banking pipeline: the transformation engine

    A shallow embedding of [BankingDataProcessor] (src/data_processor.py):
    the schema validator, the null cleaner, the type and range normalizer,
    the duplicate detector, the anomaly detector, the quality reporter, the
    aggregator and the orchestrator [process_banking_data].

    Modelling choices.
    - A pandas DataFrame is a list of column names and a list of rows, a row
      being a finite map from column names to cells.  A cell is absent
      (None, NaN, NaT: what [isnull] reports), a number, a string, a
      timestamp, a calendar date or a dict of counts.
    - A float64 amount is the rational it denotes; infinities are not
      modelled.  Sums, quotients and roundings of amounts are exact, but
      for the mean and the standard deviation behind the z-scores of the
      anomaly detector: their guard [x.std() > 0] sees the rounding of the
      binary format, so the two are the library's.
    - DataFrames are objects: the processor's methods receive and return
      references into a heap, so that an in-place column assignment by a
      method is seen through every alias of the frame.
    - pandas' coercions on cells that are not already of the target type,
      whether a date it converts carries a time zone, [Series.mean] and
      [Series.std] on floats, and the square root inside the aggregated
      deviation, are library code outside the repository: they are the
      fields of the class [Pandas].  The successive readings of
      [datetime.now()] are the field [time_at] of the class [Clock]. *)

From Stdlib Require Import QArith Qround Qabs Lqa ZArith Lia Ascii.
From stdpp Require Import gmap strings list.

(** ** Cells, rows and frames *)

Inductive value : Type :=
  | VNull                              (* None / NaN / NaT *)
  | VNum (q : Q)                       (* int or float *)
  | VStr (s : string)                  (* str *)
  | VTime (t : Z)                      (* naive Timestamp, in clock ticks *)
  | VDate (d : Z)                      (* datetime.date, in days *)
  | VDict (d : list (string * nat)).   (* value_counts().to_dict() *)

Abbreviation row := (gmap string value).

Record DataFrame : Type := mkDataFrame {
  columns : list string;
  rows : list row
}.

(** [pd.DataFrame()] *)
Definition DataFrame_new : DataFrame := mkDataFrame [] [].

(** [df.empty]: some axis has length zero. *)
Definition empty (df : DataFrame) : bool :=
  match rows df, columns df with
  | [], _ | _, [] => true
  | _, _ => false
  end.

(** [len(df)] *)
Definition len (df : DataFrame) : nat := length (rows df).

(** [col in df.columns] *)
Definition has_column (col : string) (df : DataFrame) : bool :=
  bool_decide (col ∈ columns df).

(** The cell of a row under a column; a row holds a cell for every column of
    its frame, and a column that is not there reads as absent. *)
Definition cell (r : row) (col : string) : value := default VNull (r !! col).

Definition isnull (v : value) : bool :=
  match v with VNull => true | _ => false end.

Definition Qltb (x y : Q) : bool := negb (Qle_bool y x).

(** Equality of two cells as [DataFrame.duplicated] and [groupby] see it:
    equal numbers, equal strings, equal instants; absent cells are equal to
    each other. *)
Definition value_eqb (v w : value) : bool :=
  match v, w with
  | VNull, VNull => true
  | VNum p, VNum q => Qeq_bool p q
  | VStr s, VStr t => bool_decide (s = t)
  | VTime s, VTime t => (s =? t)%Z
  | VDate s, VDate t => (s =? t)%Z
  | VDict d, VDict e => bool_decide (d = e)
  | _, _ => false
  end.

(** A numeric cell read as a float; anything else reads as NaN. *)
Definition numeric (v : value) : option Q :=
  match v with VNum q => Some q | _ => None end.

(** [series > x], [series <= x], [series <= 0] and the like: a comparison
    with NaN is False. *)
Definition series_gt (v : value) (x : Q) : bool :=
  match numeric v with Some q => Qltb x q | None => false end.
Definition series_le (v : value) (x : Q) : bool :=
  match numeric v with Some q => Qle_bool q x | None => false end.

(** [series > t] and [series <= t] on timestamps: a comparison with NaT is
    False. *)
Definition after (v : value) (t : Z) : bool :=
  match v with VTime u => (t <? u)%Z | _ => false end.
Definition not_after (v : value) (t : Z) : bool :=
  match v with VTime u => (u <=? t)%Z | _ => false end.

(** [df[mask]]: the rows where the mask holds, in order. *)
Definition select (mask : row → bool) (df : DataFrame) : DataFrame :=
  mkDataFrame (columns df) (List.filter mask (rows df)).

(** [df[col] = f(df)]: assign a column, appending it when it is new. *)
Definition assign (col : string) (f : row → value) (df : DataFrame) : DataFrame :=
  mkDataFrame
    (if has_column col df then columns df else columns df ++ [col])
    (map (λ r, <[col := f r]> r) (rows df)).

(** [df.drop(col, axis=1)] *)
Definition drop (col : string) (df : DataFrame) : DataFrame :=
  mkDataFrame
    (List.filter (λ c, negb (bool_decide (c = col))) (columns df))
    (map (delete col) (rows df)).

(** [df.dropna(subset=cols)] *)
Definition dropna (subset : list string) (df : DataFrame) : DataFrame :=
  select (λ r, forallb (λ col, negb (isnull (cell r col))) subset) df.

(** [series.fillna(x)] on one cell *)
Definition fillna (x : value) (v : value) : value :=
  if isnull v then x else v.

(** [mask.sum()]: how many rows satisfy the mask. *)
Definition count (mask : row → bool) (df : DataFrame) : nat :=
  length (List.filter mask (rows df)).

(** [df[mask]] for a mask given row by row, as [duplicated] returns it. *)
Fixpoint pick {A : Type} (mask : list bool) (l : list A) : list A :=
  match mask, l with
  | b :: mask', x :: l' => if b then x :: pick mask' l' else pick mask' l'
  | _, _ => []
  end.

Definition select_mask (mask : list bool) (df : DataFrame) : DataFrame :=
  mkDataFrame (columns df) (pick mask (rows df)).

(** The identity key of a row on the given columns, and equality of keys. *)
Definition key (subset : list string) (r : row) : list value :=
  map (cell r) subset.

Fixpoint key_eqb (k k' : list value) : bool :=
  match k, k' with
  | [], [] => true
  | v :: k, v' :: k' => value_eqb v v' && key_eqb k k'
  | _, _ => false
  end.

(** [df.duplicated(subset=subset, keep='first')]: a row is marked when an
    earlier row carries an equal key; [seen] holds the earlier rows. *)
Fixpoint duplicated_after (subset : list string) (seen l : list row) : list bool :=
  match l with
  | [] => []
  | r :: l' =>
      existsb (λ r', key_eqb (key subset r') (key subset r)) seen
        :: duplicated_after subset (seen ++ [r]) l'
  end.

Definition duplicated (subset : list string) (df : DataFrame) : list bool :=
  duplicated_after subset [] (rows df).

(** [mask.sum()] for such a mask. *)
Definition count_true (mask : list bool) : nat :=
  length (List.filter id mask).

(** ** Rounding *)

(** Round half to even, to an integer. *)
Definition rint (q : Q) : Z :=
  let f := Qfloor q in
  match (q - inject_Z f ?= 1 # 2)%Q with
  | Lt => f
  | Gt => (f + 1)%Z
  | Eq => if Z.even f then f else (f + 1)%Z
  end.

(** [round(q, decimals)] and [series.round(decimals)]: half to even at the
    given number of decimal places (tens, hundreds, ... when negative). *)
Definition round (q : Q) (decimals : Z) : Q :=
  if (0 <=? decimals)%Z
  then (inject_Z (rint (q * inject_Z (10 ^ decimals))) / inject_Z (10 ^ decimals))%Q
  else (inject_Z (rint (q / inject_Z (10 ^ (- decimals)))) * inject_Z (10 ^ (- decimals)))%Q.

(** ** Configuration and report *)

Record Config : Type := mkConfig {
  max_transaction_amount : Q;
  min_transaction_amount : Q;
  required_columns : list string;
  anomaly_threshold_std : Q;
  date_format : string;
  currency_precision : Z;
  remove_duplicates : bool;
  handle_outliers : bool
}.

Definition _get_default_config : Config := {|
  max_transaction_amount := 1000000;
  min_transaction_amount := 1 # 100;
  required_columns :=
    ["transaction_id"; "bank_id"; "customer_id"; "amount"; "transaction_date"];
  anomaly_threshold_std := 3;
  date_format := "%Y-%m-%d";
  currency_precision := 2;
  remove_duplicates := true;
  handle_outliers := true
|}.

Inductive TransactionType : Type := TRANSFER | DEPOSIT | WITHDRAWAL | PAYMENT.

Definition TransactionType_value (t : TransactionType) : string :=
  match t with
  | TRANSFER => "TRANSFER"
  | DEPOSIT => "DEPOSIT"
  | WITHDRAWAL => "WITHDRAWAL"
  | PAYMENT => "PAYMENT"
  end.

Inductive DataQualityLevel : Type := EXCELLENT | GOOD | ACCEPTABLE | POOR.

(** The counts of the report: a Python [int], or the [numpy.int64] that a
    [Series.sum()] returns.  The two add and compare alike, and adding a
    [numpy.int64] to either gives a [numpy.int64]; [json.dump] serializes
    only the first. *)
Inductive integer : Type :=
  | Int (n : nat)
  | Int64 (n : nat).

Definition int_value (i : integer) : nat :=
  match i with
  | Int n | Int64 n => n
  end.

(** [i + n] for [n] a [numpy.int64]. *)
Definition add_int64 (i : integer) (n : nat) : integer :=
  Int64 (int_value i + n).

Record DataQualityReport : Type := mkDataQualityReport {
  total_records : nat;
  valid_records : nat;
  null_records : integer;
  invalid_amounts : integer;
  duplicate_records : integer;
  quality_score : Q;
  quality_level : DataQualityLevel;
  anomaly_count : nat;
  processing_timestamp : Z
}.

(** ** Library code and the clock *)

(** Clock ticks in a day ([Timestamp] has nanosecond resolution). *)
Definition ticks_per_day : Z := 86400 * 10 ^ 9.

Class Pandas : Type := {
  (** [pd.to_numeric(errors='coerce')] on a cell that is neither absent nor
      a number; [None] is NaN *)
  to_numeric_object : value → option Q;
  (** [pd.to_datetime] on a cell that is neither absent, a timestamp nor a
      date; [None] is a cell that does not parse *)
  to_datetime_object : value → option Z;
  (** the timestamp [pd.to_datetime] makes of such a cell carries a time
      zone (a string with a UTC offset) *)
  tz_aware_object : value → bool;
  (** [str(v)] of a cell that is not a string, as [astype(str)] does it *)
  astype_str_object : value → string;
  (** [Series.mean()] of one float or more, and [Series.std()] of two
      floats or more, as computed in binary64 *)
  series_mean : list Q → Q;
  series_std : list Q → Q;
  (** the square root of the aggregation function [std] *)
  sqrt : Q → Q;
  sqrt_zero : ∀ q : Q, q == 0 → sqrt q == 0
}.

Class Clock : Type := {
  (** the n-th reading of [datetime.now()] *)
  time_at : nat → Z;
  time_mono : ∀ n m : nat, (n ≤ m)%nat → (time_at n ≤ time_at m)%Z
}.

(** ** The processor and its effects *)

Inductive exn : Type :=
  | ValueError (msg : string)
  | KeyError (key : string)
  | TypeError (msg : string)
  | FileNotFoundError (path : string).

Inductive outcome (A : Type) : Type :=
  | Returned (a : A)
  | Raised (e : exn).
Arguments Returned {A} a.
Arguments Raised {A} e.

(** The methods of the processor, for the record of the ones entered. *)
Inductive method : Type :=
  | m_validate_schema
  | m_clean_null_values
  | m_validate_column_types
  | m_detect_duplicates
  | m_detect_anomalies
  | m_generate_quality_report
  | m_aggregate_daily_transactions.

Definition ref : Type := nat.

(** The state a run works on: the frames alive, the processor's
    [self.quality_report], the number of clock readings taken so far, and
    (ghost) the methods entered so far, oldest first. *)
Record processor : Type := mkProcessor {
  heap : list DataFrame;
  quality_report : option DataQualityReport;
  clock : nat;
  entered : list method
}.

Definition M (A : Type) : Type := processor → outcome A * processor.

#[global] Instance M_ret : MRet M := λ A a s, (Returned a, s).

#[global] Instance M_bind : MBind M := λ A B f m s,
  match m s with
  | (Returned a, s') => f a s'
  | (Raised e, s') => (Raised e, s')
  end.

Definition raise {A : Type} (e : exn) : M A := λ s, (Raised e, s).

Definition enter (m : method) : M unit := λ s,
  (Returned (), mkProcessor (heap s) (quality_report s) (clock s) (entered s ++ [m])).

(** The frame behind a reference. *)
Definition load (r : ref) : M DataFrame := λ s,
  match heap s !! r with
  | Some df => (Returned df, s)
  | None => (Raised (KeyError "dangling reference"), s)
  end.

(** In-place update of the frame behind a reference. *)
Definition store (r : ref) (df : DataFrame) : M unit := λ s,
  (Returned (), mkProcessor (<[r := df]> (heap s)) (quality_report s) (clock s) (entered s)).

(** A new frame object. *)
Definition alloc (df : DataFrame) : M ref := λ s,
  (Returned (length (heap s)),
   mkProcessor (heap s ++ [df]) (quality_report s) (clock s) (entered s)).

(** [self.quality_report = report] *)
Definition set_quality_report (report : DataQualityReport) : M unit := λ s,
  (Returned (), mkProcessor (heap s) (Some report) (clock s) (entered s)).

(** [self.quality_report] *)
Definition get_quality_report : M (option DataQualityReport) := λ s,
  (Returned (quality_report s), s).

(** [datetime.now()] *)
Definition now `{Clock} : M Z := λ s,
  (Returned (time_at (clock s)),
   mkProcessor (heap s) (quality_report s) (S (clock s)) (entered s)).

(** [df[col]] of a column that has to be there. *)
Definition getitem (df : DataFrame) (col : string) : M unit :=
  if has_column col df then mret () else raise (KeyError col).

(** [for x in l: body(x)] *)
Fixpoint for_each {A : Type} (l : list A) (body : A → M unit) : M unit :=
  match l with
  | [] => mret ()
  | x :: l' => body x;; for_each l' body
  end.

(** ** Strings *)

(** [str.isspace] on one ASCII character. *)
Definition isspace (c : ascii) : bool :=
  let n := nat_of_ascii c in
  (n =? 32)%nat || ((9 <=? n)%nat && (n <=? 13)%nat)
  || ((28 <=? n)%nat && (n <=? 31)%nat).

Fixpoint lstrip (s : string) : string :=
  match s with
  | String c s' => if isspace c then lstrip s' else s
  | EmptyString => EmptyString
  end.

(** [str.strip()] *)
Definition strip (s : string) : string :=
  String.rev (lstrip (String.rev (lstrip s))).

Definition squote : string := String (ascii_of_nat 39) EmptyString.
Definition dquote : string := String (ascii_of_nat 34) EmptyString.

Fixpoint contains (c : ascii) (s : string) : bool :=
  match s with
  | String c' s' => bool_decide (c = c') || contains c s'
  | EmptyString => false
  end.

(** [repr(s)] of a string of printable characters without backslashes:
    single quotes, unless it holds a single quote and no double quote. *)
Definition repr (s : string) : string :=
  if contains (ascii_of_nat 39) s && negb (contains (ascii_of_nat 34) s)
  then dquote +:+ s +:+ dquote
  else squote +:+ s +:+ squote.

Fixpoint join (sep : string) (l : list string) : string :=
  match l with
  | [] => EmptyString
  | [x] => x
  | x :: l' => x +:+ sep +:+ join sep l'
  end.

(** [repr(l)] of a list of strings, as an f-string renders it. *)
Definition repr_list (l : list string) : string :=
  "[" +:+ join ", " (map repr l) +:+ "]".

(** ** Statistics on amounts *)

Definition Qsum (xs : list Q) : Q := fold_right Qplus 0%Q xs.

(** [x.mean()]; NaN on no value. *)
Definition mean (xs : list Q) : option Q :=
  match xs with
  | [] => None
  | _ => Some (Qsum xs / inject_Z (Z.of_nat (length xs)))%Q
  end.

(** The sample variance (ddof=1); NaN below two values. *)
Definition var (xs : list Q) : option Q :=
  match xs with
  | [] | [_] => None
  | _ =>
      let m := (Qsum xs / inject_Z (Z.of_nat (length xs)))%Q in
      Some (Qsum (map (λ x, (x - m) * (x - m))%Q xs)
            / inject_Z (Z.of_nat (length xs - 1)))%Q
  end.

(** The aggregation function [std] *)
Definition std `{Pandas} (xs : list Q) : option Q := sqrt <$> var xs.

(** [x.mean()] of a [Series] of floats; NaN on no value. *)
Definition Series_mean `{Pandas} (xs : list Q) : option Q :=
  match xs with
  | [] => None
  | _ => Some (series_mean xs)
  end.

(** [x.std()] of a [Series] of floats (ddof=1); NaN below two values. *)
Definition Series_std `{Pandas} (xs : list Q) : option Q :=
  match xs with
  | [] | [_] => None
  | _ => Some (series_std xs)
  end.

Fixpoint insert_sorted {A : Type} (leb : A → A → bool) (x : A) (l : list A) : list A :=
  match l with
  | [] => [x]
  | y :: l' => if leb x y then x :: l else y :: insert_sorted leb x l'
  end.

Definition sort {A : Type} (leb : A → A → bool) (l : list A) : list A :=
  fold_right (insert_sorted leb) [] l.

(** [x.median()] *)
Definition median (xs : list Q) : option Q :=
  let sorted := sort Qle_bool xs in
  let n := length xs in
  if (n =? 0)%nat then None
  else if Nat.even n
  then Some ((nth (n / 2 - 1) sorted 0%Q + nth (n / 2) sorted 0%Q) / 2)%Q
  else Some (nth (n / 2) sorted 0%Q).

(** [x.min()] and [x.max()] *)
Definition minimum (xs : list Q) : option Q := head (sort Qle_bool xs).
Definition maximum (xs : list Q) : option Q := last (sort Qle_bool xs).

(** A float result as a cell. *)
Definition float (o : option Q) : value := from_option VNum VNull o.

(** The distinct cells of a list, first occurrences, absent cells left out
    ([nunique], [value_counts]). *)
Fixpoint unique (seen l : list value) : list value :=
  match l with
  | [] => []
  | v :: l' =>
      if isnull v || existsb (value_eqb v) seen
      then unique seen l'
      else v :: unique (seen ++ [v]) l'
  end.

Definition nunique (l : list value) : nat := length (unique [] l).

(** ** Coercions of cells *)

Section Processor.
Context {pandas : Pandas} {wall_clock : Clock}.
Variable config : Config.

(** [pd.to_numeric(series, errors='coerce')], cell by cell. *)
Definition to_numeric (v : value) : value :=
  match v with
  | VNull => VNull
  | VNum q => VNum q
  | _ => float (to_numeric_object v)
  end.

(** [pd.to_datetime(series, errors='coerce')], cell by cell. *)
Definition to_datetime (v : value) : value :=
  match v with
  | VNull => VNull
  | VTime t => VTime t
  | VDate d => VTime (d * ticks_per_day)
  | _ => from_option VTime VNull (to_datetime_object v)
  end.

(** The timestamp [pd.to_datetime] makes of a cell carries a time zone. *)
Definition tz_aware (v : value) : bool :=
  match v with
  | VNull | VTime _ | VDate _ => false
  | _ => bool_decide (is_Some (to_datetime_object v)) && tz_aware_object v
  end.

(** No date of the batch carries a time zone. *)
Definition naive_dates (d : DataFrame) : bool :=
  forallb (λ r, negb (tz_aware (cell r "transaction_date"))) (rows d).

(** [pd.to_datetime(series)]: a cell that does not parse raises. *)
Definition to_datetime_raise (v : value) : option value :=
  match v with
  | VNull => Some VNull
  | VTime t => Some (VTime t)
  | VDate d => Some (VTime (d * ticks_per_day))
  | _ => VTime <$> to_datetime_object v
  end.

(** [series.astype(str)], cell by cell. *)
Definition astype_str (v : value) : string :=
  match v with
  | VStr s => s
  | _ => astype_str_object v
  end.

(** [series.dt.date] *)
Definition dt_date (v : value) : value :=
  match v with
  | VTime t => VDate (t `div` ticks_per_day)
  | _ => VNull
  end.

(** [series.round(decimals)] *)
Definition series_round (decimals : Z) (v : value) : value :=
  match v with
  | VNum q => VNum (round q decimals)
  | _ => v
  end.

(** [series.isin(values)] for string values *)
Definition isin (v : value) (values : list string) : bool :=
  match v with
  | VStr s => bool_decide (s ∈ values)
  | _ => false
  end.

(** ** Schema validator *)

Definition validate_schema (df : ref) : M (bool * list string) :=
  enter m_validate_schema;;
  d ← load df;
  let errors := [] in
  let required_cols := required_columns config in
  let missing_cols := List.filter (λ col, negb (has_column col d)) required_cols in
  let errors :=
    if negb (length missing_cols =? 0)%nat
    then errors ++ ["Missing required columns: " +:+ repr_list missing_cols]
    else errors in
  let errors :=
    if empty d then errors ++ ["Dataframe is empty"] else errors in
  mret ((length errors =? 0)%nat, errors).

(** ** Null cleaner *)

Definition critical_fields : list string := ["bank_id"; "customer_id"; "amount"].

Definition clean_null_values (df : ref) : M ref :=
  enter m_clean_null_values;;
  d ← load df;
  (* the null counts that are logged read every critical column *)
  for_each critical_fields (getitem d);;
  let df_clean := dropna critical_fields d in
  let df_clean :=
    if has_column "transaction_type" d
    then assign "transaction_type"
           (λ r, fillna (VStr "UNKNOWN") (cell r "transaction_type")) df_clean
    else df_clean in
  let df_clean :=
    if has_column "description" d
    then assign "description"
           (λ r, fillna (VStr "No description") (cell r "description")) df_clean
    else df_clean in
  alloc df_clean.

(** ** Type and range normalizer *)

(** Amount validation and conversion. *)
Definition convert_amounts (df_typed : DataFrame) : DataFrame :=
  let df_typed := assign "amount" (λ r, to_numeric (cell r "amount")) df_typed in
  (* remove rows where amount conversion failed *)
  let invalid_amounts := count (λ r, isnull (cell r "amount")) df_typed in
  if (0 <? invalid_amounts)%nat then dropna ["amount"] df_typed else df_typed.

(** Validate amount ranges. *)
Definition validate_amount_ranges (df_typed : DataFrame) : DataFrame :=
  let min_amount := min_transaction_amount config in
  let max_amount := max_transaction_amount config in
  let invalid_range :=
    count (λ r, series_le (cell r "amount") 0
                || series_gt (cell r "amount") max_amount) df_typed in
  if (0 <? invalid_range)%nat
  then select (λ r, series_gt (cell r "amount") 0
                    && series_le (cell r "amount") max_amount) df_typed
  else df_typed.

(** Round amounts to specified precision. *)
Definition round_amounts (df_typed : DataFrame) : DataFrame :=
  let precision := currency_precision config in
  assign "amount" (λ r, series_round precision (cell r "amount")) df_typed.

(** The batch has dates, and among the records that pass the amount checks
    one has a date that carries a time zone. *)
Definition aware_dates (d : DataFrame) : bool :=
  has_column "transaction_date" d
  && negb (naive_dates
             (round_amounts (validate_amount_ranges (convert_amounts d)))).

(** Date validation and conversion. *)
Definition validate_dates (df_typed : DataFrame) : M DataFrame :=
  if has_column "transaction_date" df_typed then
    let aware := negb (naive_dates df_typed) in
    let df_typed :=
      assign "transaction_date"
        (λ r, to_datetime (cell r "transaction_date")) df_typed in
    (* remove future dates: a column that carries a time zone does not
       compare with the naive [datetime.now()] *)
    t ← now;
    (if aware
     then raise (TypeError
                   "Cannot compare tz-naive and tz-aware datetime-like objects")
     else mret ());;
    let future_dates :=
      count (λ r, after (cell r "transaction_date") t) df_typed in
    if (0 <? future_dates)%nat then
      t' ← now;
      mret (select (λ r, not_after (cell r "transaction_date") t') df_typed)
    else mret df_typed
  else mret df_typed.

(** String field validation. *)
Definition string_fields : list string := ["bank_id"; "customer_id"; "transaction_id"].

Definition validate_string_field (df_typed : DataFrame) (field : string) : DataFrame :=
  if has_column field df_typed then
    let df_typed :=
      assign field (λ r, VStr (strip (astype_str (cell r field)))) df_typed in
    (* remove empty strings *)
    select (λ r, negb (value_eqb (cell r field) (VStr EmptyString))) df_typed
  else df_typed.

Definition validate_strings (df_typed : DataFrame) : DataFrame :=
  fold_left validate_string_field string_fields df_typed.

(** Transaction type validation. *)
Definition validate_transaction_types (df_typed : DataFrame) : DataFrame :=
  if has_column "transaction_type" df_typed then
    let valid_types := map TransactionType_value [TRANSFER; DEPOSIT; WITHDRAWAL; PAYMENT] in
    let invalid_types (r : row) :=
      negb (isin (cell r "transaction_type") (valid_types ++ ["UNKNOWN"])) in
    if existsb invalid_types (rows df_typed)
    then assign "transaction_type"
           (λ r, if invalid_types r then VStr "UNKNOWN"
                 else cell r "transaction_type") df_typed
    else df_typed
  else df_typed.

Definition validate_column_types (df : ref) : M ref :=
  enter m_validate_column_types;;
  d ← load df;
  let df_typed := d in                    (* df.copy() *)
  getitem df_typed "amount";;
  let df_typed := convert_amounts df_typed in
  let df_typed := validate_amount_ranges df_typed in
  let df_typed := round_amounts df_typed in
  df_typed ← validate_dates df_typed;
  let df_typed := validate_strings df_typed in
  let df_typed := validate_transaction_types df_typed in
  alloc df_typed.

(** ** Duplicate detector *)

Definition duplicate_columns : list string :=
  ["bank_id"; "customer_id"; "amount"; "transaction_date"].

Definition detect_duplicates (df : ref) : M ref :=
  enter m_detect_duplicates;;
  if negb (remove_duplicates config) then mret df
  else
    d ← load df;
    let initial_count := len d in
    let available_columns := List.filter (λ col, has_column col d) duplicate_columns in
    let duplicates := duplicated available_columns d in
    let duplicate_count := count_true duplicates in
    if (0 <? duplicate_count)%nat then
      let df_clean := select_mask (map negb duplicates) d in
      alloc df_clean
    else mret df.

(** ** Anomaly detector *)

(** The amounts of a bank's partition, NaN left out as [mean] and [std] do. *)
Definition group_amounts (d : DataFrame) (bank : value) : list Q :=
  omap (λ r, numeric (cell r "amount"))
       (List.filter (λ r, value_eqb (cell r "bank_id") bank) (rows d)).

(** [df.groupby('bank_id')['amount'].transform(lambda x:
      np.abs((x - x.mean()) / x.std()) if x.std() > 0 else 0)]
    at one row; a row without a bank belongs to no group and gets NaN. *)
Definition amount_zscore (d : DataFrame) (r : row) : value :=
  let bank := cell r "bank_id" in
  if isnull bank then VNull
  else
    let x := group_amounts d bank in
    match Series_std x with
    | Some s =>
        if Qltb 0 s then
          match numeric (cell r "amount"), Series_mean x with
          | Some a, Some m => VNum (Qabs ((a - m) / s))
          | _, _ => VNull
          end
        else VNum 0
    | None => VNum 0                     (* NaN > 0 is False *)
    end.

Definition detect_anomalies (df : ref) : M (ref * ref) :=
  enter m_detect_anomalies;;
  if negb (handle_outliers config) then
    none ← alloc DataFrame_new;
    mret (df, none)
  else
    let threshold := anomaly_threshold_std config in
    d ← load df;
    getitem d "bank_id";;
    getitem d "amount";;
    store df (assign "amount_zscore" (amount_zscore d) d);;
    d ← load df;
    (* identify anomalies *)
    let anomalies := select (λ r, series_gt (cell r "amount_zscore") threshold) d in
    let normal_data := select (λ r, series_le (cell r "amount_zscore") threshold) d in
    (* clean up temporary column *)
    let normal_data :=
      if has_column "amount_zscore" normal_data
      then drop "amount_zscore" normal_data else normal_data in
    let anomaly_count := len anomalies in
    anomalies ←
      (if (0 <? anomaly_count)%nat then
         let anomalies :=
           assign "anomaly_type" (λ _, VStr "statistical_outlier") anomalies in
         t ← now;
         mret (assign "detected_at" (λ _, VTime t) anomalies)
       else mret anomalies);
    normal_ref ← alloc normal_data;
    anomalies_ref ← alloc anomalies;
    mret (normal_ref, anomalies_ref).

(** ** Quality reporter *)

Definition generate_quality_report (original_df cleaned_df anomalies_df : ref)
    : M DataQualityReport :=
  enter m_generate_quality_report;;
  original ← load original_df;
  cleaned ← load cleaned_df;
  anomalies ← load anomalies_df;
  let total_records := len original in
  let valid_records := len cleaned in
  (* calculate various quality metrics *)
  let null_records :=
    fold_left
      (λ null_records col,
         if has_column col original
         then add_int64 null_records (count (λ r, isnull (cell r col)) original)
         else null_records)
      (required_columns config) (Int 0) in
  let invalid_amounts :=
    if has_column "amount" original
    then Int64 (count (λ r, isnull (to_numeric (cell r "amount"))) original)
    else Int 0 in
  let available_dup_cols :=
    List.filter (λ col, has_column col original) duplicate_columns in
  let duplicate_records :=
    Int64 (count_true (duplicated available_dup_cols original)) in
  (* calculate quality score *)
  let quality_score :=
    if (0 <? total_records)%nat
    then (inject_Z (Z.of_nat valid_records)
          / inject_Z (Z.of_nat total_records) * 100)%Q
    else 0%Q in
  (* determine quality level *)
  let quality_level :=
    if Qle_bool 95 quality_score then EXCELLENT
    else if Qle_bool 85 quality_score then GOOD
    else if Qle_bool 75 quality_score then ACCEPTABLE
    else POOR in
  t ← now;
  let report :=
    mkDataQualityReport total_records valid_records null_records
      invalid_amounts duplicate_records (round quality_score 2)
      quality_level (len anomalies) t in
  set_quality_report report;;
  mret report.

(** ** Aggregator *)

(** The order in which [groupby] sorts its keys. *)
Definition value_leb (v w : value) : bool :=
  match v, w with
  | VNum p, VNum q => Qle_bool p q
  | VStr s, VStr t => String.leb s t
  | VTime s, VTime t => (s <=? t)%Z
  | VDate s, VDate t => (s <=? t)%Z
  | _, _ => true
  end.

Definition group_leb (k k' : value * value) : bool :=
  if value_eqb k.1 k'.1 then value_leb k.2 k'.2 else value_leb k.1 k'.1.

Definition same_group (k k' : value * value) : bool :=
  value_eqb k.1 k'.1 && value_eqb k.2 k'.2.

Definition group_of (r : row) : value * value :=
  (cell r "bank_id", cell r "transaction_date").

(** The keys of [df.groupby(['bank_id', 'transaction_date'])]: distinct,
    sorted, rows with an absent key left out. *)
Fixpoint distinct_groups (seen l : list (value * value)) : list (value * value) :=
  match l with
  | [] => []
  | k :: l' =>
      if isnull k.1 || isnull k.2 || existsb (same_group k) seen
      then distinct_groups seen l'
      else k :: distinct_groups (seen ++ [k]) l'
  end.

Definition groups (d : DataFrame) : list (value * value) :=
  sort group_leb (distinct_groups [] (map group_of (rows d))).

(** [x.value_counts().to_dict()] on a column of strings. *)
Definition value_counts (l : list value) : list (string * nat) :=
  omap (λ v, match v with
             | VStr s => Some (s, length (List.filter (value_eqb v) l))
             | _ => None
             end) (unique [] l).

(** The functions of [agg_funcs], column by column. *)
Definition agg_funcs (d : DataFrame) : list (string * list string) :=
  [("amount", ["sum"; "count"; "mean"; "std"; "median"; "min"; "max"]);
   ("customer_id", ["nunique"]);
   ("transaction_id", ["nunique"])]
  ++ (if has_column "transaction_type" d
      then [("transaction_type", ["<lambda>"])] else []).

(** The names given to the aggregated columns. *)
Definition flat_columns : list string :=
  ["total_volume"; "transaction_count"; "avg_transaction_value";
   "std_transaction_value"; "median_transaction_value";
   "min_transaction_value"; "max_transaction_value";
   "unique_customers"; "unique_transaction_ids"].

Definition of_nat (n : nat) : value := VNum (inject_Z (Z.of_nat n)).

(** One row of [daily_agg], after [reset_index]. *)
Definition aggregate_group (d : DataFrame) (k : value * value) : row :=
  let g := List.filter (λ r, same_group (group_of r) k) (rows d) in
  let amount := omap (λ r, numeric (cell r "amount")) g in
  list_to_map
    [("bank_id", k.1); ("transaction_date", k.2);
     ("total_volume", VNum (Qsum amount));
     ("transaction_count", of_nat (length amount));
     ("avg_transaction_value", float (mean amount));
     ("std_transaction_value", float (std amount));
     ("median_transaction_value", float (median amount));
     ("min_transaction_value", float (minimum amount));
     ("max_transaction_value", float (maximum amount));
     ("unique_customers", of_nat (nunique (map (λ r, cell r "customer_id") g)));
     ("unique_transaction_ids",
        of_nat (nunique (map (λ r, cell r "transaction_id") g)))].

(** [series / series]; the inf or NaN of a division by zero, which the
    aggregator replaces by NaN, reads as absent at once. *)
Definition divide (a b : value) : value :=
  match numeric a, numeric b with
  | Some x, Some y => if Qeq_bool y 0 then VNull else VNum (x / y)
  | _, _ => VNull
  end.

Definition aggregate_daily_transactions (df : ref) : M ref :=
  enter m_aggregate_daily_transactions;;
  d ← load df;
  (* ensure we have the required columns *)
  (if has_column "transaction_date" d then
     for_each (rows d)
       (λ r, match to_datetime_raise (cell r "transaction_date") with
             | Some _ => mret ()
             | None => raise (ValueError "Unknown datetime string format")
             end);;
     store df
       (assign "transaction_date"
          (λ r, dt_date (to_datetime (cell r "transaction_date"))) d)
   else mret ());;
  d ← load df;
  (* perform aggregation *)
  for_each ["bank_id"; "transaction_date"] (getitem d);;
  for_each (map fst (agg_funcs d)) (getitem d);;
  let daily_agg :=
    mkDataFrame (["bank_id"; "transaction_date"] ++ flat_columns)
                (map (aggregate_group d) (groups d)) in
  (* flatten multi-level columns: the aggregated frame has one column for
     each function of [agg_funcs], and the assignment of another number of
     names raises *)
  (if negb (length (concat (map snd (agg_funcs d))) =? length flat_columns)%nat
   then raise (ValueError "Length mismatch")
   else mret ());;
  let daily_agg :=
    if has_column "transaction_type" d
    then assign "transaction_type_breakdown"
           (λ a, VDict (value_counts
                          (map (λ r, cell r "transaction_type")
                               (List.filter
                                  (λ r, same_group (group_of r) (group_of a))
                                  (rows d)))))
           daily_agg
    else daily_agg in
  (* add derived metrics *)
  let daily_agg :=
    assign "avg_transactions_per_customer"
      (λ a, series_round 2 (divide (cell a "transaction_count")
                                   (cell a "unique_customers"))) daily_agg in
  let daily_agg :=
    assign "avg_value_per_customer"
      (λ a, series_round 2 (divide (cell a "total_volume")
                                   (cell a "unique_customers"))) daily_agg in
  (* add processing metadata *)
  t ← now;
  let daily_agg := assign "processed_at" (λ _, VTime t) daily_agg in
  report ← get_quality_report;
  let daily_agg :=
    assign "data_quality_score"
      (λ _, VNum (from_option quality_score 100%Q report)) daily_agg in
  (* handle infinite values *)
  let daily_agg :=
    mkDataFrame (columns daily_agg)
                (map (fmap (fillna (VNum 0))) (rows daily_agg)) in
  (* round numerical columns *)
  let daily_agg :=
    mkDataFrame (columns daily_agg)
                (map (fmap (series_round 2)) (rows daily_agg)) in
  alloc daily_agg.

(** ** Pipeline orchestrator *)

Definition process_banking_data (df : ref) : M (ref * DataQualityReport * ref) :=
  (* store original for quality reporting *)
  d ← load df;
  original_df ← alloc d;
  (* step 1: schema validation *)
  '(is_valid, errors) ← validate_schema df;
  if negb is_valid
  then raise (ValueError ("Schema validation failed: " +:+ repr_list errors))
  else
    (* step 2: clean null values *)
    df_clean ← clean_null_values df;
    (* step 3: validate and convert column types *)
    df_typed ← validate_column_types df_clean;
    (* step 4: handle duplicates *)
    df_deduped ← detect_duplicates df_typed;
    (* step 5: detect anomalies *)
    '(df_final, anomalies_df) ← detect_anomalies df_deduped;
    (* step 6: generate quality report *)
    quality_report ← generate_quality_report original_df df_final anomalies_df;
    (* step 7: aggregate data *)
    aggregated_data ← aggregate_daily_transactions df_final;
    mret (aggregated_data, quality_report, anomalies_df).

End Processor.

(** ** Reference library, clock and batches

    One instance of the library and of the clock, and a few batches, on
    which the statements below are evaluated. *)

(** A square root to six decimal places. *)
Definition sqrt_approx (q : Q) : Q :=
  (inject_Z (Z.sqrt (Qfloor (q * inject_Z (10 ^ 12)))) / inject_Z (10 ^ 6))%Q.

(** The library on cells that are already typed; every other cell fails to
    coerce, and prints as ["nan"]. *)
Definition reference_pandas : Pandas := {|
  to_numeric_object := λ _, None;
  to_datetime_object := λ _, None;
  tz_aware_object := λ _, false;
  astype_str_object := λ _, "nan";
  series_mean := λ xs, (Qsum xs / inject_Z (Z.of_nat (length xs)))%Q;
  series_std := λ xs, from_option sqrt_approx 0%Q (var xs);
  sqrt := sqrt_approx;
  sqrt_zero := λ q Hq,
    ltac:(unfold sqrt_approx; rewrite Hq; reflexivity)
|}.

(** Binary64 arithmetic on rationals: rounding to 53 binary digits, ties
    to even; the range of the exponent is not bounded. *)

(** [2 ^ e] *)
Definition pow2 (e : Z) : Q :=
  if (0 <=? e)%Z then inject_Z (2 ^ e) else (1 / inject_Z (2 ^ (- e)))%Q.

(** The [e] with [2 ^ e <= a < 2 ^ (e + 1)], for a positive [a]. *)
Definition exponent (a : Q) : Z :=
  let e := (Z.log2 (Qnum a) - Z.log2 (Zpos (Qden a)))%Z in
  if Qle_bool (pow2 e) a then e else (e - 1)%Z.

(** The float nearest to a rational. *)
Definition binary64 (q : Q) : Q :=
  if Qeq_bool q 0 then 0%Q
  else
    let a := Qabs q in
    let e := (exponent a - 52)%Z in      (* 2^52 <= a / 2^e < 2^53 *)
    let x := (inject_Z (rint (a / pow2 e)) * pow2 e)%Q in
    if Qle_bool 0 q then x else (- x)%Q.

(** The square root of a float, correctly rounded. *)
Definition float_sqrt (q : Q) : Q :=
  if Qle_bool q 0 then 0%Q
  else
    let e := ((exponent q - 104) / 2)%Z in
    let x := (q / pow2 (2 * e))%Q in     (* 2^104 <= x < 2^106 *)
    let r := Z.sqrt (Qfloor x) in        (* 2^52 <= r < 2^53 *)
    let h := ((inject_Z r + (1 # 2)) * (inject_Z r + (1 # 2)))%Q in
    let m :=
      match (x ?= h)%Q with
      | Lt => r
      | Gt => (r + 1)%Z
      | Eq => if Z.even r then r else (r + 1)%Z
      end in
    (inject_Z m * pow2 e)%Q.

(** The sum of floats, from the left. *)
Definition float_sum (xs : list Q) : Q :=
  fold_left (λ acc x, binary64 (acc + x)) xs 0%Q.

(** [sum / count] *)
Definition float_mean (xs : list Q) : Q :=
  binary64 (float_sum xs / inject_Z (Z.of_nat (length xs))).

(** The deviation in two passes: the mean, then the squared differences
    from it, their sum over [count - 1], and the square root. *)
Definition float_std (xs : list Q) : Q :=
  let avg := float_mean xs in
  let sqr := map (λ x, let d := binary64 (avg - x) in binary64 (d * d)) xs in
  float_sqrt (binary64 (float_sum sqr / inject_Z (Z.of_nat (length xs - 1)))).

(** The library with the mean and the deviation of binary64. *)
Definition binary64_pandas : Pandas := {|
  to_numeric_object := λ _, None;
  to_datetime_object := λ _, None;
  tz_aware_object := λ _, false;
  astype_str_object := λ _, "nan";
  series_mean := λ xs, float_mean (map binary64 xs);
  series_std := λ xs, float_std (map binary64 xs);
  sqrt := sqrt_approx;
  sqrt_zero := λ q Hq,
    ltac:(unfold sqrt_approx; rewrite Hq; reflexivity)
|}.

(** A clock that starts at tick 1000 and advances by one tick a reading. *)
Definition reference_clock : Clock := {|
  time_at := λ n, (1000 + Z.of_nat n)%Z;
  time_mono := λ n m Hnm,
    Zplus_le_compat_l _ _ 1000 (proj1 (Nat2Z.inj_le n m) Hnm)
|}.

(** A transaction with the five required fields. *)
Definition transaction (id bank customer : string) (amount : value) (date : value) : row :=
  list_to_map
    [("transaction_id", VStr id); ("bank_id", VStr bank);
     ("customer_id", VStr customer); ("amount", amount);
     ("transaction_date", date)].

Definition batch (l : list row) : DataFrame :=
  mkDataFrame (required_columns _get_default_config) l.

(** [df[col]]: the cells of a column, row by row. *)
Definition column (col : string) (d : DataFrame) : list value :=
  map (λ r, cell r col) (rows d).

(** A processor that holds the given frames and has not run yet. *)
Definition fresh (frames : list DataFrame) : processor :=
  mkProcessor frames None 0 [].

(** Three records of one bank on one day, the second a duplicate of the
    first, and a record of another bank. *)
Definition batch_small : DataFrame :=
  batch [transaction "T1" "BNK001" "C1" (VNum 100) (VTime 5);
         transaction "T1" "BNK001" "C1" (VNum 100) (VTime 5);
         transaction "T3" "BNK001" "C2" (VNum 5000) (VTime 5);
         transaction "T4" "BNK002" "C3" (VNum 250) (VTime 6)].

(** A single record. *)
Definition batch_one : DataFrame :=
  batch [transaction "T1" "BNK001" "C1" (VNum 100) (VTime 5)].

(** Three records of one bank, each of the amount 0.1 as a float. *)
Definition batch_tenths : DataFrame :=
  batch [transaction "T1" "BNK001" "C1" (VNum (binary64 (1 # 10))) (VTime 5);
         transaction "T2" "BNK001" "C2" (VNum (binary64 (1 # 10))) (VTime 5);
         transaction "T3" "BNK001" "C3" (VNum (binary64 (1 # 10))) (VTime 5)].

(** A record of amount 0.001, and a record whose date is not a date. *)
Definition batch_tiny_amount : DataFrame :=
  batch [transaction "T1" "BNK001" "C1" (VNum (1 # 1000)) (VTime 5);
         transaction "T2" "BNK002" "C2" (VNum 50) (VStr "not a date")].

(** A record of amount 0.005, below the default minimum 0.01. *)
Definition batch_below_minimum : DataFrame :=
  batch [transaction "T1" "BNK001" "C1" (VNum (5 # 1000)) (VTime 5)].

(** A batch with a transaction_type column. *)
Definition batch_with_type : DataFrame :=
  mkDataFrame (required_columns _get_default_config ++ ["transaction_type"])
    [<["transaction_type" := VStr "DEPOSIT"]>
       (transaction "T1" "BNK001" "C1" (VNum 100) (VTime 5))].

(** A configuration that does not require bank_id, and a batch without
    that column. *)
Definition config_without_bank : Config :=
  mkConfig 1000000 (1 # 100)
    ["transaction_id"; "customer_id"; "amount"; "transaction_date"]
    3 "%Y-%m-%d" 2 true true.

Definition batch_without_bank : DataFrame :=
  mkDataFrame ["transaction_id"; "customer_id"; "amount"; "transaction_date"]
    [list_to_map
       [("transaction_id", VStr "T1"); ("customer_id", VStr "C1");
        ("amount", VNum 100); ("transaction_date", VTime 5)]].

(** An original batch of 20001 records, 19000 with the amounts 1 to 19000
    and 1001 with the amounts -1 to -1001, and its 19000 valid records. *)
Definition valid_record (i : nat) : row :=
  transaction "T" "BNK001" "C1" (VNum (inject_Z (Z.of_nat i))) (VTime 5).

Definition invalid_record (i : nat) : row :=
  transaction "T" "BNK001" "C1" (VNum (inject_Z (- Z.of_nat i))) (VTime 5).

Definition batch_19000 : DataFrame :=
  batch (map valid_record (seq 1 (Z.to_nat 19000))).

Definition batch_20001 : DataFrame :=
  batch (map valid_record (seq 1 (Z.to_nat 19000))
         ++ map invalid_record (seq 1 (Z.to_nat 1001))).

(** ** The quality score before rounding *)

(** [valid_records / total_records * 100], and 0 on no record. *)
Definition score (valid_records total_records : nat) : Q :=
  if (0 <? total_records)%nat
  then (inject_Z (Z.of_nat valid_records)
        / inject_Z (Z.of_nat total_records) * 100)%Q
  else 0%Q.

(** ** The deduplicated batch *)

(** The duplicate key columns a batch has. *)
Definition available (d : DataFrame) : list string :=
  List.filter (λ col, has_column col d) duplicate_columns.

(** The batch without the rows that [duplicated] marks. *)
Definition deduplicated (d : DataFrame) : DataFrame :=
  select_mask (map negb (duplicated (available d) d)) d.

(** Two rows carry the same identity key. *)
Definition same_key (subset : list string) (r r' : row) : bool :=
  key_eqb (key subset r) (key subset r').

(** ** Where a record comes from *)

(** The columns a stage of the pipeline may write. *)
Definition rewritten_columns : list string :=
  ["transaction_type"; "description"; "amount"; "transaction_date";
   "bank_id"; "customer_id"; "transaction_id"; "amount_zscore"].

(** Two rows agree on every column outside the given ones. *)
Definition agree_off (cols : list string) (r r' : row) : Prop :=
  ∀ col, ¬ In col cols → r' !! col = r !! col.

(** A date cell after conversion: NaT, or an instant not after [T]. *)
Definition not_future (T : Z) (v : value) : Prop :=
  v = VNull ∨ ∃ t, v = VTime t ∧ (t ≤ T)%Z.

(** A normalized row [r'] against the row [r] of the batch [d] it comes
    from, [T] being an instant not before the normalizer's readings of the
    clock: the columns no stage writes are as they were, the amount is the
    rounding of a coerced amount in (0, max], the date was converted and is
    not in the future, the identifiers are strings. *)
Definition normalized `{Pandas} (config : Config) (d : DataFrame) (T : Z)
    (r r' : row) : Prop :=
  agree_off rewritten_columns r r'
  ∧ (∃ q, to_numeric (cell r "amount") = VNum q
          ∧ (0 < q)%Q ∧ (q <= max_transaction_amount config)%Q
          ∧ cell r' "amount" = VNum (round q (currency_precision config)))
  ∧ (has_column "transaction_date" d = true →
     cell r' "transaction_date" = to_datetime (cell r "transaction_date")
     ∧ not_future T (cell r' "transaction_date"))
  ∧ (∀ field, In field string_fields → has_column field d = true →
     ∃ s, cell r' field = VStr s).

(** ** The anomaly detector's frames *)

Section Frames.
Context {pandas : Pandas} {wall_clock : Clock}.
Variable config : Config.

(** The detector's input once it carries its z-scores. *)
Definition scored (d : DataFrame) : DataFrame :=
  assign "amount_zscore" (amount_zscore d) d.

(** The rows at or below the threshold, the score column dropped. *)
Definition normal_set (d : DataFrame) : DataFrame :=
  drop "amount_zscore"
    (select (λ r, series_le (cell r "amount_zscore") (anomaly_threshold_std config))
            (scored d)).

(** The rows above the threshold. *)
Definition anomaly_set (d : DataFrame) : DataFrame :=
  select (λ r, series_gt (cell r "amount_zscore") (anomaly_threshold_std config))
         (scored d).

(** Anomalies with their type and the time of detection. *)
Definition tagged (t : Z) (a : DataFrame) : DataFrame :=
  assign "detected_at" (λ _, VTime t)
    (assign "anomaly_type" (λ _, VStr "statistical_outlier") a).

(** Steps 2 to 4 of [process_banking_data]: from the batch to the
    deduplicated batch. *)
Definition steps_2_to_4 (df : ref) : M ref :=
  df_clean ← clean_null_values df;
  df_typed ← validate_column_types config df_clean;
  detect_duplicates config df_typed.

(** Steps 2 to 5: from the batch to the final normal set and the
    anomalies. *)
Definition steps_2_to_5 (df : ref) : M (ref * ref) :=
  df_deduped ← steps_2_to_4 df;
  detect_anomalies config df_deduped.

End Frames.

(** A record without the three fields the anomaly detector adds. *)
Definition untag (r : row) : row :=
  delete "detected_at" (delete "anomaly_type" (delete "amount_zscore" r)).

(** The bank partition of a row has no positive standard deviation: it is
    zero, or NaN as on a single record. *)
Definition zero_std `{Pandas} (d : DataFrame) (r : row) : Prop :=
  match Series_std (group_amounts d (cell r "bank_id")) with
  | Some sd => ¬ (0 < sd)%Q
  | None => True
  end.

(** ** The validator's verdict and what follows it *)

(** The required columns a batch lacks. *)
Definition missing_columns (config : Config) (d : DataFrame) : list string :=
  List.filter (λ col, negb (has_column col d)) (required_columns config).

(** The validator's list of errors. *)
Definition schema_errors (config : Config) (d : DataFrame) : list string :=
  (if negb (length (missing_columns config d) =? 0)%nat
   then ["Missing required columns: " +:+ repr_list (missing_columns config d)]
   else [])
  ++ (if empty d then ["Dataframe is empty"] else []).

(** The error the orchestrator raises on a list of violations. *)
Definition schema_failure (errors : list string) : exn :=
  ValueError ("Schema validation failed: " +:+ repr_list errors).

(** The errors that come out of the stages after the validator: a column
    that is not there, a date that does not parse, column names that do not
    fit the aggregated columns, dates with a time zone that do not compare
    with the clock. *)
Inductive downstream_error : exn → Prop :=
  | missing_column (col : string) : downstream_error (KeyError col)
  | unknown_datetime :
      downstream_error (ValueError "Unknown datetime string format")
  | length_mismatch : downstream_error (ValueError "Length mismatch")
  | time_zone (msg : string) : downstream_error (TypeError msg).

(** A computation raises no error but those of [P]. *)
Definition raises_only {A : Type} (P : exn → Prop) (m : M A) : Prop :=
  ∀ s e s', m s = (Raised e, s') → P e.

(** The columns the stages after the validator read. *)
Definition pipeline_columns : list string :=
  ["bank_id"; "customer_id"; "amount"; "transaction_date"; "transaction_id"].

Section Orchestrator.
Context {pandas : Pandas} {wall_clock : Clock}.
Variable config : Config.

(** Steps 6 and 7 of [process_banking_data], on the copy of the batch and
    the two frames of step 5. *)
Definition steps_6_to_7 (original_df : ref) (split : ref * ref)
    : M (ref * DataQualityReport * ref) :=
  let '(df_final, anomalies_df) := split in
  quality_report ← generate_quality_report config original_df df_final anomalies_df;
  aggregated_data ← aggregate_daily_transactions df_final;
  mret (aggregated_data, quality_report, anomalies_df).

End Orchestrator.

(** A configuration with another [anomaly_threshold_std]. *)
Definition with_threshold (t : Q) (c : Config) : Config :=
  mkConfig (max_transaction_amount c) (min_transaction_amount c)
           (required_columns c) t (date_format c) (currency_precision c)
           (remove_duplicates c) (handle_outliers c).

(** A configuration with another [min_transaction_amount]. *)
Definition with_min (m : Q) (c : Config) : Config :=
  mkConfig (max_transaction_amount c) m (required_columns c)
           (anomaly_threshold_std c) (date_format c) (currency_precision c)
           (remove_duplicates c) (handle_outliers c).

(** The tier [generate_quality_report] gives to a score. *)
Definition level_of (q : Q) : DataQualityLevel :=
  if Qle_bool 95 q then EXCELLENT
  else if Qle_bool 85 q then GOOD
  else if Qle_bool 75 q then ACCEPTABLE
  else POOR.

(** ** The null cleaner's result *)

(** The frame the null cleaner returns on a batch that has the critical
    columns. *)
Definition cleaned (d : DataFrame) : DataFrame :=
  let df_clean := dropna critical_fields d in
  let df_clean :=
    if has_column "transaction_type" d
    then assign "transaction_type"
           (λ r, fillna (VStr "UNKNOWN") (cell r "transaction_type")) df_clean
    else df_clean in
  if has_column "description" d
  then assign "description"
         (λ r, fillna (VStr "No description") (cell r "description")) df_clean
  else df_clean.

(** ** Identifiers and transaction types after normalization *)

(** The characters of a string, and [lstrip] on them. *)
Definition chars (s : string) : list ascii :=
  Stdlib.Strings.String.list_ascii_of_string s.

Fixpoint lstrip_chars (l : list ascii) : list ascii :=
  match l with
  | c :: l' => if isspace c then lstrip_chars l' else l
  | [] => []
  end.

(** A string cell that [strip] leaves as it is and that is not empty. *)
Definition stripped (v : value) : Prop :=
  ∃ s, v = VStr s ∧ s ≠ EmptyString ∧ strip s = s.

(** The transaction types the normalizer lets through. *)
Definition transaction_types : list string :=
  ["TRANSFER"; "DEPOSIT"; "WITHDRAWAL"; "PAYMENT"; "UNKNOWN"].

(** ** Sums of squares *)

Definition squares (l : list Q) : list Q := map (λ x, x * x)%Q l.

(** The length of a list as a rational. *)
Definition Qlen {A : Type} (l : list A) : Q := inject_Z (Z.of_nat (length l)).

(** The standard deviation the library returns for the amounts [xs] is
    accurate to 5 percent about the mean it returns for them: its square is
    at least 0.9 of the sum of the squared deviations from that mean over
    [n - 1]. *)
Definition deviation_accurate `{Pandas} (xs : list Q) : Prop :=
  (9 * Qsum (squares (map (λ y, y - series_mean xs) xs))
   <= 10 * ((Qlen xs - 1) * (series_std xs * series_std xs)))%Q.

(** Ten records of 100 and one of 10000, all of one bank. *)
Definition batch_outlier : DataFrame :=
  batch (replicate 10 (transaction "T" "BNK001" "C1" (VNum 100) (VTime 5))
         ++ [transaction "T11" "BNK001" "C2" (VNum 10000) (VTime 5)]).

(** ** The aggregated frame *)

Section Aggregates.
Context {pandas : Pandas}.

(** The batch once the aggregator has written calendar dates into it. *)
Definition dated (d : DataFrame) : DataFrame :=
  assign "transaction_date"
    (λ r, dt_date (to_datetime (cell r "transaction_date"))) d.

(** The aggregated frame of a batch without a transaction_type column, at
    the processing time [t] and with the quality score [q]. *)
Definition daily_agg (d : DataFrame) (t : Z) (q : Q) : DataFrame :=
  let daily_agg :=
    mkDataFrame (["bank_id"; "transaction_date"] ++ flat_columns)
                (map (aggregate_group d) (groups d)) in
  let daily_agg :=
    assign "avg_transactions_per_customer"
      (λ a, series_round 2 (divide (cell a "transaction_count")
                                   (cell a "unique_customers"))) daily_agg in
  let daily_agg :=
    assign "avg_value_per_customer"
      (λ a, series_round 2 (divide (cell a "total_volume")
                                   (cell a "unique_customers"))) daily_agg in
  let daily_agg := assign "processed_at" (λ _, VTime t) daily_agg in
  let daily_agg := assign "data_quality_score" (λ _, VNum q) daily_agg in
  let daily_agg :=
    mkDataFrame (columns daily_agg)
                (map (fmap (fillna (VNum 0))) (rows daily_agg)) in
  mkDataFrame (columns daily_agg)
              (map (fmap (series_round 2)) (rows daily_agg)).


(** The row of the aggregated frame for the group [k]. *)
Definition aggregated_row (d : DataFrame) (t : Z) (q : Q) (k : value * value) : row :=
  let a := aggregate_group d k in
  let a :=
    <["avg_transactions_per_customer" :=
        series_round 2 (divide (cell a "transaction_count")
                               (cell a "unique_customers"))]> a in
  let a :=
    <["avg_value_per_customer" :=
        series_round 2 (divide (cell a "total_volume")
                               (cell a "unique_customers"))]> a in
  let a := <["data_quality_score" := VNum q]> (<["processed_at" := VTime t]> a) in
  series_round 2 <$> (fillna (VNum 0) <$> a).

(** Every date of the batch converts. *)
Definition dates_convert (d : DataFrame) : bool :=
  forallb (λ x, bool_decide (is_Some (to_datetime_raise (cell x "transaction_date"))))
          (rows d).

End Aggregates.

(** The columns of the aggregated frame. *)
Definition aggregated_columns : list string :=
  ["bank_id"; "transaction_date"; "total_volume"; "transaction_count";
   "avg_transaction_value"; "std_transaction_value";
   "median_transaction_value"; "min_transaction_value";
   "max_transaction_value"; "unique_customers"; "unique_transaction_ids";
   "avg_transactions_per_customer"; "avg_value_per_customer";
   "processed_at"; "data_quality_score"].

(** The group of amounts behind an aggregated row. *)
Definition amounts_of (d : DataFrame) (k : value * value) : list Q :=
  omap (λ r, numeric (cell r "amount"))
       (List.filter (λ r, same_group (group_of r) k) (rows d)).

(** [df[col].sum()] *)
Definition column_sum (col : string) (d : DataFrame) : Q :=
  Qsum (omap (λ a, numeric (cell a col)) (rows d)).

(** A record that [groupby] and [count] take in: it has a bank, a date and
    a numeric amount. *)
Definition keyed (x : row) : bool :=
  negb (isnull (cell x "bank_id")) && negb (isnull (cell x "transaction_date"))
  && bool_decide (is_Some (numeric (cell x "amount"))).

(** Two keys are of different groups. *)
Definition apart (k k' : value * value) : Prop :=
  same_group k k' = false.

(** ** Saving the results *)

(** [DataQualityLevel.value] *)
Definition DataQualityLevel_value (l : DataQualityLevel) : string :=
  match l with
  | EXCELLENT => "EXCELLENT"
  | GOOD => "GOOD"
  | ACCEPTABLE => "ACCEPTABLE"
  | POOR => "POOR"
  end.

(** The values of the report's dictionary: a Python number, a
    [numpy.int64], a string, and the [isoformat()] of an instant. *)
Inductive json : Type :=
  | JNumber (q : Q)
  | JInt64 (n : nat)
  | JString (s : string)
  | JIsoformat (t : Z).

Definition json_of_nat (n : nat) : json := JNumber (inject_Z (Z.of_nat n)).

Definition json_of_integer (i : integer) : json :=
  match i with
  | Int n => json_of_nat n
  | Int64 n => JInt64 n
  end.

(** What [json.dump] can write: not a [numpy.int64]. *)
Definition serializable (j : json) : bool :=
  match j with
  | JInt64 _ => false
  | _ => true
  end.

(** [json.dump(quality_dict, f, indent=2)] writes the object piece by piece:
    where a value cannot be serialized, the fields before it and the key of
    that value are in the file by then. *)
Fixpoint cut_off (fields : list (string * json))
    : option (list (string * json) * string) :=
  match fields with
  | [] => None
  | (key, j) :: fields =>
      if serializable j then
        match cut_off fields with
        | Some (written, k) => Some ((key, j) :: written, k)
        | None => None
        end
      else Some ([], key)
  end.

(** What a file holds once written: the CSV of a frame without its index
    ([to_csv(path, index=False)]), a JSON object ([json.dump]), or the
    beginning of one, up to the key whose value was not written. *)
Inductive file : Type :=
  | Csv (df : DataFrame)
  | Json (fields : list (string * json))
  | JsonCutOff (written : list (string * json)) (key : string).

(** The file system: the directory names made so far (the directories
    above them are not listed) and the files, by path. *)
Record filesystem : Type := mkFilesystem {
  directories : gset string;
  files : gmap string file
}.

(** What saving comes to: the file system after the writes, or the error
    raised and the file system as the writes before it left it.  Opening and
    writing are taken to succeed: nothing is write-protected and no
    directory stands where a file goes. *)
Inductive saved : Type :=
  | Saved (fs : filesystem)
  | Failed (e : exn) (fs : filesystem).

(** [save_processing_results]; the names of the files are appended to
    [output_path] as it is, without a separator. *)
Definition save_processing_results (aggregated_data : DataFrame)
    (quality_report : DataQualityReport) (anomalies_df : DataFrame)
    (output_path : string) (fs : filesystem) : saved :=
  (* os.makedirs(output_path, exist_ok=True) *)
  if bool_decide (output_path = EmptyString)
  then Failed (FileNotFoundError output_path) fs
  else
    let fs := mkFilesystem ({[output_path]} ∪ directories fs) (files fs) in
    (* save aggregated data *)
    let agg_file := output_path +:+ "daily_bank_aggregates.csv" in
    let fs :=
      mkFilesystem (directories fs)
                   (<[agg_file := Csv aggregated_data]> (files fs)) in
    (* save quality report *)
    let quality_file := output_path +:+ "data_quality_report.json" in
    let quality_dict :=
      [("total_records", json_of_nat (total_records quality_report));
       ("valid_records", json_of_nat (valid_records quality_report));
       ("null_records", json_of_integer (null_records quality_report));
       ("invalid_amounts", json_of_integer (invalid_amounts quality_report));
       ("duplicate_records", json_of_integer (duplicate_records quality_report));
       ("quality_score", JNumber (quality_score quality_report));
       ("quality_level",
          JString (DataQualityLevel_value (quality_level quality_report)));
       ("anomaly_count", json_of_nat (anomaly_count quality_report));
       ("processing_timestamp",
          JIsoformat (processing_timestamp quality_report))] in
    match cut_off quality_dict with
    | Some (written, key) =>
        Failed (TypeError "Object of type int64 is not JSON serializable")
               (mkFilesystem (directories fs)
                  (<[quality_file := JsonCutOff written key]> (files fs)))
    | None =>
        let fs :=
          mkFilesystem (directories fs)
                       (<[quality_file := Json quality_dict]> (files fs)) in
        (* save anomalies if any *)
        if negb (empty anomalies_df) then
          let anomaly_file := output_path +:+ "detected_anomalies.csv" in
          Saved (mkFilesystem (directories fs)
                              (<[anomaly_file := Csv anomalies_df]> (files fs)))
        else Saved fs
    end.

(** The keys of a list before a given one. *)
Fixpoint take_until (key : string) (keys : list string) : list string :=
  match keys with
  | [] => []
  | k :: keys => if String.eqb k key then [] else k :: take_until key keys
  end.

(** Whether a count of the report is a [numpy.int64]. *)
Definition numpy_count (i : integer) : bool :=
  match i with
  | Int64 _ => true
  | Int _ => false
  end.

Definition numpy_counts (report : DataQualityReport) : bool :=
  numpy_count (null_records report)
  || numpy_count (invalid_amounts report)
  || numpy_count (duplicate_records report).

(** The report of the pipeline on the batch of four records. *)
Definition report_batch_small : DataQualityReport :=
  mkDataQualityReport 4 3 (Int64 0) (Int64 0) (Int64 1) (7500 # 100) ACCEPTABLE
    0 1001.

(** A report whose counts are all Python integers. *)
Definition report_plain : DataQualityReport :=
  mkDataQualityReport 4 3 (Int 0) (Int 0) (Int 1) (7500 # 100) ACCEPTABLE 0 1001.

(** * Properties *)

(** ** Running the effects *)

Lemma bind_run {A B : Type} (m : M A) (f : A → M B) (s : processor) :
  (m ≫= f) s
  = match m s with
    | (Returned a, s') => f a s'
    | (Raised e, s') => (Raised e, s')
    end.
Proof. reflexivity. Qed.

Lemma load_run (s : processor) (r : ref) (d : DataFrame) :
  heap s !! r = Some d → load r s = (Returned d, s).
Proof. intros E. unfold load. by rewrite E. Qed.

Lemma lookup_alloc (h : list DataFrame) (d : DataFrame) :
  (h ++ [d]) !! length h = Some d.
Proof. by rewrite lookup_app_r, Nat.sub_diag. Qed.

Lemma lookup_alloc_old (h : list DataFrame) (d d' : DataFrame) (r : ref) :
  h !! r = Some d → (h ++ [d']) !! r = Some d.
Proof. intros E. by rewrite lookup_app_l_Some with (x := d). Qed.

(** One step of a run: the effect at the head of a bind. *)
Ltac step :=
  lazymatch goal with
  | |- context [(?m ≫= _) _] =>
      rewrite bind_run;
      lazymatch m with
      | load _ => erewrite load_run by eassumption
      | enter _ => unfold enter at 1
      | now => unfold now at 1
      | alloc _ => unfold alloc at 1
      | store _ _ => unfold store at 1
      | set_quality_report _ => unfold set_quality_report at 1
      | get_quality_report => unfold get_quality_report at 1
      | mret _ => unfold mret at 1, M_ret at 1
      end
  end;
  cbv beta iota zeta.

Section Properties.
Context {pandas : Pandas} {wall_clock : Clock}.
Variable config : Config.

(** ** Quality reporter *)

Lemma generate_quality_report_run (s : processor) (ro rc ra : ref)
    (o c a : DataFrame) :
  heap s !! ro = Some o → heap s !! rc = Some c → heap s !! ra = Some a →
  ∃ report,
    generate_quality_report config ro rc ra s
    = (Returned report,
       mkProcessor (heap s) (Some report) (S (clock s))
                   (entered s ++ [m_generate_quality_report]))
    ∧ total_records report = len o
    ∧ valid_records report = len c
    ∧ anomaly_count report = len a
    ∧ quality_score report = round (score (len c) (len o)) 2
    ∧ quality_level report = level_of (score (len c) (len o))
    ∧ processing_timestamp report = time_at (clock s).
Proof.
  intros Ho Hc Ha. unfold generate_quality_report.
  do 6 step.
  unfold mret, M_ret. simpl heap. simpl clock. simpl entered.
  eexists. split; [reflexivity|]. simpl. done.
Qed.

(** C3. The report's [quality_score] is
    [round(valid_records / total_records * 100, 2)] when the original batch
    has records, [total_records] being its size and [valid_records] the size
    of the final normal set, and 0 when it has none. *)
Theorem C3_quality_score (s : processor) (ro rc ra : ref) (o c a : DataFrame) :
  heap s !! ro = Some o → heap s !! rc = Some c → heap s !! ra = Some a →
  ∃ report s',
    generate_quality_report config ro rc ra s = (Returned report, s')
    ∧ quality_report s' = Some report
    ∧ total_records report = len o
    ∧ valid_records report = len c
    ∧ ((0 < total_records report)%nat →
       quality_score report
       = round (inject_Z (Z.of_nat (valid_records report))
                / inject_Z (Z.of_nat (total_records report)) * 100)%Q 2)
    ∧ (total_records report = 0%nat → (quality_score report == 0)%Q).
Proof.
  intros Ho Hc Ha.
  destruct (generate_quality_report_run s ro rc ra o c a Ho Hc Ha)
    as (report & Hrun & Ht & Hv & _ & Hq & _).
  exists report. eexists. split; [exact Hrun|].
  split; [reflexivity|]. split; [exact Ht|]. split; [exact Hv|].
  rewrite Hq, Ht, Hv. unfold score. split.
  - intros Hpos. apply Nat.ltb_lt in Hpos. by rewrite Hpos.
  - intros ->. reflexivity.
Qed.

Lemma level_of_excellent (q : Q) : level_of q = EXCELLENT ↔ (95 <= q)%Q.
Proof.
  unfold level_of. rewrite <- Qle_bool_iff.
  destruct (Qle_bool 95 q); [done|].
  destruct (Qle_bool 85 q); [done|]. by destruct (Qle_bool 75 q).
Qed.

Lemma Qle_bool_false (x y : Q) : Qle_bool x y = false ↔ (y < x)%Q.
Proof.
  rewrite <- not_true_iff_false, Qle_bool_iff. split.
  - apply Qnot_le_lt.
  - apply Qlt_not_le.
Qed.

Lemma Qltb_lt (x y : Q) : Qltb x y = true ↔ (x < y)%Q.
Proof. unfold Qltb. rewrite negb_true_iff. apply Qle_bool_false. Qed.

Lemma level_of_good (q : Q) : level_of q = GOOD ↔ (85 <= q ∧ q < 95)%Q.
Proof.
  unfold level_of.
  destruct (Qle_bool 95 q) eqn:E95.
  - apply Qle_bool_iff in E95. split; [done|]. intros [_ Hq]. lra.
  - apply Qle_bool_false in E95.
    destruct (Qle_bool 85 q) eqn:E85.
    + apply Qle_bool_iff in E85. done.
    + apply Qle_bool_false in E85.
      split; [by destruct (Qle_bool 75 q)|]. intros [Hq _]. lra.
Qed.

Lemma level_of_acceptable (q : Q) : level_of q = ACCEPTABLE ↔ (75 <= q ∧ q < 85)%Q.
Proof.
  unfold level_of.
  destruct (Qle_bool 95 q) eqn:E95.
  - apply Qle_bool_iff in E95. split; [done|]. intros [_ Hq]. lra.
  - destruct (Qle_bool 85 q) eqn:E85.
    + apply Qle_bool_iff in E85. split; [done|]. intros [_ Hq]. lra.
    + apply Qle_bool_false in E85.
      destruct (Qle_bool 75 q) eqn:E75.
      * apply Qle_bool_iff in E75. done.
      * apply Qle_bool_false in E75. split; [done|]. intros [Hq _]. lra.
Qed.

Lemma level_of_poor (q : Q) : level_of q = POOR ↔ (q < 75)%Q.
Proof.
  unfold level_of.
  destruct (Qle_bool 95 q) eqn:E95.
  - apply Qle_bool_iff in E95. split; [done|]. intros Hq. lra.
  - destruct (Qle_bool 85 q) eqn:E85.
    + apply Qle_bool_iff in E85. split; [done|]. intros Hq. lra.
    + destruct (Qle_bool 75 q) eqn:E75.
      * apply Qle_bool_iff in E75. split; [done|]. intros Hq. lra.
      * apply Qle_bool_false in E75. done.
Qed.

(** C4, as the code has it.  The tier follows the score before rounding,
    [valid_records / total_records * 100] (0 on no record), with
    lower-inclusive boundaries; the [quality_score] field is that score
    rounded to two places. *)
Theorem C4_quality_level (s : processor) (ro rc ra : ref) (o c a : DataFrame) :
  heap s !! ro = Some o → heap s !! rc = Some c → heap s !! ra = Some a →
  ∃ report s',
    generate_quality_report config ro rc ra s = (Returned report, s')
    ∧ let q := score (valid_records report) (total_records report) in
      quality_score report = round q 2
      ∧ (quality_level report = EXCELLENT ↔ (95 <= q)%Q)
      ∧ (quality_level report = GOOD ↔ (85 <= q ∧ q < 95)%Q)
      ∧ (quality_level report = ACCEPTABLE ↔ (75 <= q ∧ q < 85)%Q)
      ∧ (quality_level report = POOR ↔ (q < 75)%Q).
Proof.
  intros Ho Hc Ha.
  destruct (generate_quality_report_run s ro rc ra o c a Ho Hc Ha)
    as (report & Hrun & Ht & Hv & _ & Hq & Hl & _).
  exists report. eexists. split; [exact Hrun|].
  cbv zeta. rewrite Hl, Hq, Ht, Hv.
  split; [reflexivity|].
  split; [apply level_of_excellent|].
  split; [apply level_of_good|].
  split; [apply level_of_acceptable|apply level_of_poor].
Qed.

(** ** Duplicate detector *)

Lemma duplicated_after_length (K : list string) (l seen : list row) :
  length (duplicated_after K seen l) = length l.
Proof.
  revert seen. induction l as [|r l IH]; intros seen; simpl; [done|].
  by rewrite IH.
Qed.

(** A row is marked exactly when a row before it carries an equal key. *)
Lemma duplicated_after_lookup (K : list string) (l seen : list row)
    (i : nat) (r : row) :
  l !! i = Some r →
  duplicated_after K seen l !! i
  = Some (existsb (λ r', same_key K r' r) (seen ++ take i l)).
Proof.
  revert seen i. induction l as [|x l IH]; intros seen i Hi; [done|].
  destruct i as [|i]; simpl in *.
  - injection Hi as ->. by rewrite app_nil_r.
  - rewrite (IH _ _ Hi). by rewrite <- app_assoc.
Qed.

Lemma pick_all {A : Type} (mask : list bool) (l : list A) :
  length mask = length l → List.filter id mask = [] →
  pick (map negb mask) l = l.
Proof.
  revert l. induction mask as [|b mask IH]; intros [|x l] Hlen Hnone;
    simpl in *; try done.
  destruct b; simpl in *; [done|].
  f_equal. apply IH; [lia|done].
Qed.

(** Marking again, with no more rows seen than the first time, marks
    nothing in what was kept. *)
Lemma duplicated_after_kept (K : list string) (l seen seen' : list row) :
  (∀ r, r ∈ seen' → r ∈ seen) →
  List.filter id
    (duplicated_after K seen' (pick (map negb (duplicated_after K seen l)) l))
  = [].
Proof.
  revert seen seen'. induction l as [|r l IH]; intros seen seen' Hsub; [done|].
  simpl.
  destruct (existsb (λ r', key_eqb (key K r') (key K r)) seen) eqn:E; simpl.
  - apply IH. intros x Hx. apply elem_of_app. left. by apply Hsub.
  - assert (existsb (λ r', key_eqb (key K r') (key K r)) seen' = false) as ->.
    { apply not_true_iff_false. intros Hex.
      apply existsb_exists in Hex as (x & Hx & Hk).
      apply not_true_iff_false in E. apply E.
      apply existsb_exists. exists x. split; [|done].
      apply list_elem_of_In, Hsub, list_elem_of_In, Hx. }
    simpl. apply IH. intros x Hx.
    apply elem_of_app in Hx as [Hx|Hx]; apply elem_of_app; auto.
Qed.

Lemma deduplicated_columns (d : DataFrame) :
  columns (deduplicated d) = columns d.
Proof. reflexivity. Qed.

Lemma available_deduplicated (d : DataFrame) :
  available (deduplicated d) = available d.
Proof. reflexivity. Qed.

Lemma deduplicated_idempotent (d : DataFrame) :
  List.filter id (duplicated (available d) (deduplicated d)) = [].
Proof. unfold duplicated, deduplicated. simpl. by apply duplicated_after_kept. Qed.

(** The run of the detector, case by case. *)
Lemma detect_duplicates_run (s : processor) (r : ref) (d : DataFrame) :
  heap s !! r = Some d →
  detect_duplicates config r s
  = if negb (remove_duplicates config)
       || (count_true (duplicated (available d) d) =? 0)%nat
    then (Returned r,
          mkProcessor (heap s) (quality_report s) (clock s)
                      (entered s ++ [m_detect_duplicates]))
    else (Returned (length (heap s)),
          mkProcessor (heap s ++ [deduplicated d]) (quality_report s) (clock s)
                      (entered s ++ [m_detect_duplicates])).
Proof.
  intros Hd. unfold detect_duplicates. step.
  destruct (remove_duplicates config); cbn [negb orb]; [|done].
  rewrite bind_run. erewrite load_run by (simpl; eassumption). cbv beta iota zeta.
  fold (available d).
  destruct (count_true (duplicated (available d) d)) as [|n] eqn:E; simpl; done.
Qed.

(** What the detector returns, in one statement: the batch itself when
    nothing is to be removed, a new batch otherwise; the frames that exist
    are left as they are. *)
Lemma detect_duplicates_spec (s : processor) (r : ref) (d : DataFrame) :
  heap s !! r = Some d →
  ∃ r' s',
    detect_duplicates config r s = (Returned r', s')
    ∧ heap s' !! r' = Some (if remove_duplicates config then deduplicated d else d)
    ∧ (∀ r0 d0, heap s !! r0 = Some d0 → heap s' !! r0 = Some d0)
    ∧ (r' = r ∨ r' = length (heap s))
    ∧ quality_report s' = quality_report s
    ∧ clock s' = clock s
    ∧ entered s' = entered s ++ [m_detect_duplicates].
Proof.
  intros Hd. rewrite (detect_duplicates_run s r d Hd).
  destruct (remove_duplicates config) eqn:Erd; cbn [negb orb].
  - destruct (count_true (duplicated (available d) d) =? 0)%nat eqn:E.
    + do 2 eexists. split; [reflexivity|]. simpl. split; [|repeat split; auto].
      rewrite Hd. f_equal. unfold deduplicated, select_mask.
      destruct d as [cols rs]. simpl. f_equal. symmetry.
      apply pick_all.
      * unfold duplicated. simpl. apply duplicated_after_length.
      * apply Nat.eqb_eq in E. unfold count_true in E.
        by apply length_zero_iff_nil in E.
    + do 2 eexists. split; [reflexivity|]. simpl.
      split; [apply lookup_alloc|]. split; [|repeat split; auto].
      intros r0 d0 H0. by apply lookup_alloc_old.
  - do 2 eexists. split; [reflexivity|]. simpl. repeat split; auto.
Qed.

(** C7. Deduplication is idempotent: applied to its own output, the
    detector returns that output, the very same batch, unchanged; when it
    looks for duplicates, it finds none. *)
Theorem C7_detect_duplicates_idempotent (s : processor) (r : ref) (d : DataFrame) :
  heap s !! r = Some d →
  ∃ r1 s1 d1 s2,
    detect_duplicates config r s = (Returned r1, s1)
    ∧ heap s1 !! r1 = Some d1
    ∧ detect_duplicates config r1 s1 = (Returned r1, s2)
    ∧ heap s2 = heap s1
    ∧ heap s2 !! r1 = Some d1
    ∧ (remove_duplicates config = true →
       count_true (duplicated (available d1) d1) = 0%nat).
Proof.
  intros Hd.
  destruct (detect_duplicates_spec s r d Hd) as (r1 & s1 & Hrun & Hr1 & _).
  exists r1, s1. eexists. eexists. split; [exact Hrun|]. split; [exact Hr1|].
  rewrite (detect_duplicates_run s1 r1 _ Hr1).
  destruct (remove_duplicates config); cbn [negb orb].
  - rewrite available_deduplicated.
    unfold count_true. rewrite deduplicated_idempotent. simpl.
    split; [reflexivity|]. simpl. done.
  - split; [reflexivity|]. simpl. done.
Qed.

Lemma lookup_map {A B : Type} (f : A → B) (l : list A) (i : nat) :
  map f l !! i = f <$> (l !! i).
Proof. revert i. induction l as [|x l IH]; intros [|i]; simpl; auto. Qed.

Lemma available_spec (d : DataFrame) (col : string) :
  In col (available d) ↔ In col duplicate_columns ∧ col ∈ columns d.
Proof.
  unfold available. rewrite filter_In. unfold has_column.
  by rewrite bool_decide_eq_true.
Qed.

(** Which rows of a batch the mask of [duplicated] keeps. *)
Lemma kept_spec (K : list string) (l : list row) (i : nat) (x : row) :
  l !! i = Some x →
  (map negb (duplicated_after K [] l) !! i = Some false
   ↔ ∃ j y, (j < i)%nat ∧ l !! j = Some y ∧ same_key K y x = true).
Proof.
  intros Hx. rewrite lookup_map, (duplicated_after_lookup K l [] i x Hx).
  simpl. split.
  - intros [= Hex]. apply negb_false_iff, existsb_exists in Hex as (y & Hy & Hk).
    apply list_elem_of_In, elem_of_take in Hy as (j & Hj & Hlt). eauto.
  - intros (j & y & Hlt & Hj & Hk). f_equal. apply negb_false_iff, existsb_exists.
    exists y. split; [|done]. apply list_elem_of_In, elem_of_take. eauto.
Qed.

(** C8. With [remove_duplicates] set, the detector removes exactly the
    records whose identity key (the columns among bank_id, customer_id,
    amount and transaction_date that the batch has) equals the key of an
    earlier record, and keeps the others in input order; with
    [remove_duplicates] unset it returns the batch itself. *)
Theorem C8_detect_duplicates (s : processor) (r : ref) (d : DataFrame) :
  heap s !! r = Some d →
  ∃ r' s' d',
    detect_duplicates config r s = (Returned r', s')
    ∧ heap s' !! r' = Some d'
    ∧ (if remove_duplicates config then
         (∀ col, In col (available d)
                 ↔ In col ["bank_id"; "customer_id"; "amount"; "transaction_date"]
                   ∧ col ∈ columns d)
         ∧ columns d' = columns d
         ∧ ∃ keep : list bool,
             length keep = length (rows d)
             ∧ rows d' = pick keep (rows d)
             ∧ ∀ i x, rows d !! i = Some x →
                 (keep !! i = Some false
                  ↔ ∃ j y, (j < i)%nat ∧ rows d !! j = Some y
                           ∧ same_key (available d) y x = true)
       else r' = r ∧ d' = d ∧ heap s' = heap s).
Proof.
  intros Hd.
  destruct (detect_duplicates_spec s r d Hd) as (r' & s' & Hrun & Hr' & _).
  exists r', s'. eexists. split; [exact Hrun|]. split; [exact Hr'|].
  destruct (remove_duplicates config) eqn:Erd.
  - split; [apply available_spec|]. split; [reflexivity|].
    exists (map negb (duplicated (available d) d)).
    split; [|split; [reflexivity|]].
    + rewrite length_map. apply duplicated_after_length.
    + intros i x Hx. by apply kept_spec.
  - rewrite (detect_duplicates_run s r d Hd), Erd in Hrun. simpl in Hrun.
    injection Hrun as <- <-. done.
Qed.

(** ** Frames, row by row *)

Lemma In_select (p : row → bool) (d : DataFrame) (r : row) :
  In r (rows (select p d)) ↔ In r (rows d) ∧ p r = true.
Proof. apply filter_In. Qed.

Lemma In_assign (col : string) (f : row → value) (d : DataFrame) (r' : row) :
  In r' (rows (assign col f d)) ↔ ∃ r, In r (rows d) ∧ r' = <[col := f r]> r.
Proof.
  simpl. rewrite in_map_iff. split; intros (r & H1 & H2); exists r; auto.
Qed.

Lemma columns_assign (col : string) (f : row → value) (d : DataFrame) :
  has_column col d = true → columns (assign col f d) = columns d.
Proof. intros E. unfold assign. simpl. by rewrite E. Qed.

Lemma has_column_ext (col : string) (d d' : DataFrame) :
  columns d' = columns d → has_column col d' = has_column col d.
Proof. unfold has_column. by intros ->. Qed.

Lemma cell_insert (r : row) (col : string) (v : value) :
  cell (<[col := v]> r) col = v.
Proof. unfold cell. by rewrite lookup_insert_eq. Qed.

Lemma cell_insert_ne (r : row) (col col' : string) (v : value) :
  col ≠ col' → cell (<[col := v]> r) col' = cell r col'.
Proof. intros Hne. unfold cell. by rewrite lookup_insert_ne. Qed.

Lemma agree_off_refl (cols : list string) (r : row) : agree_off cols r r.
Proof. by intros col _. Qed.

Lemma agree_off_trans (cols : list string) (r1 r2 r3 : row) :
  agree_off cols r1 r2 → agree_off cols r2 r3 → agree_off cols r1 r3.
Proof. intros H12 H23 col Hcol. by rewrite H23, H12. Qed.

Lemma agree_off_insert (cols : list string) (r : row) (col : string) (v : value) :
  In col cols → agree_off cols r (<[col := v]> r).
Proof.
  intros Hin col' Hcol'. apply lookup_insert_ne. by intros ->.
Qed.

Lemma agree_off_delete (cols : list string) (r : row) (col : string) :
  In col cols → agree_off cols r (delete col r).
Proof.
  intros Hin col' Hcol'. apply lookup_delete_ne. by intros ->.
Qed.

Lemma agree_off_cell (cols : list string) (r r' : row) (col : string) :
  agree_off cols r r' → ¬ In col cols → cell r' col = cell r col.
Proof. intros Hagree Hcol. unfold cell. by rewrite Hagree. Qed.

Lemma count_zero (p : row → bool) (d : DataFrame) (r : row) :
  (0 <? count p d)%nat = false → In r (rows d) → p r = false.
Proof.
  unfold count. intros Hc Hr. apply Nat.ltb_ge in Hc.
  destruct (p r) eqn:E; [|done].
  assert (In r (List.filter p (rows d))) as Hin by (apply filter_In; auto).
  destruct (List.filter p (rows d)); [done|simpl in Hc; lia].
Qed.

(** ** Running the loops over columns *)

Lemma for_each_getitem (d : DataFrame) (l : list string) (s : processor) :
  for_each l (getitem d) s
  = match List.find (λ col, negb (has_column col d)) l with
    | Some col => (Raised (KeyError col), s)
    | None => (Returned (), s)
    end.
Proof.
  induction l as [|col l IH]; [done|].
  simpl. rewrite bind_run. unfold getitem at 1.
  destruct (has_column col d); simpl; [exact IH|done].
Qed.

Lemma find_missing_none (d : DataFrame) (l : list string) :
  List.find (λ col, negb (has_column col d)) l = None
  ↔ ∀ col, In col l → has_column col d = true.
Proof.
  split.
  - intros Hf col Hin. apply (find_none _ _ Hf) in Hin.
    by apply negb_false_iff in Hin.
  - intros Hall. destruct (List.find _ l) as [col|] eqn:E; [|done].
    apply find_some in E as [Hin Hc]. rewrite (Hall col Hin) in Hc. done.
Qed.

(** ** Null cleaner *)

(** The run of the cleaner: it raises on a batch that lacks a critical
    column, and otherwise returns a new batch whose rows are rows of the
    input with no critical cell absent, the two optional columns filled. *)
Lemma clean_null_values_run (s : processor) (r : ref) (d : DataFrame) :
  heap s !! r = Some d →
  match List.find (λ col, negb (has_column col d)) critical_fields with
  | Some col =>
      clean_null_values r s
      = (Raised (KeyError col),
         mkProcessor (heap s) (quality_report s) (clock s)
                     (entered s ++ [m_clean_null_values]))
  | None =>
      ∃ d1,
        clean_null_values r s
        = (Returned (length (heap s)),
           mkProcessor (heap s ++ [d1]) (quality_report s) (clock s)
                       (entered s ++ [m_clean_null_values]))
        ∧ columns d1 = columns d
        ∧ ∀ r1, In r1 (rows d1) →
            ∃ r0, In r0 (rows d)
                  ∧ agree_off ["transaction_type"; "description"] r0 r1
                  ∧ ∀ col, In col critical_fields → isnull (cell r1 col) = false
  end.
Proof.
  intros Hd.
  destruct (List.find _ critical_fields) as [col|] eqn:Efind;
    unfold clean_null_values; do 2 step;
    rewrite bind_run, for_each_getitem, Efind; [done|].
  cbv beta iota zeta.
  eexists. split; [reflexivity|].
  set (d0 := dropna critical_fields d).
  set (d1 := if has_column "transaction_type" d then _ else d0).
  assert (columns d0 = columns d) as Hc0 by reflexivity.
  assert (columns d1 = columns d) as Hc1.
  { subst d1. destruct (has_column "transaction_type" d) eqn:E; [|done].
    rewrite columns_assign; [done|]. by rewrite (has_column_ext _ d d0). }
  assert (∀ r1, In r1 (rows d0) →
            In r1 (rows d)
            ∧ ∀ col, In col critical_fields → isnull (cell r1 col) = false) as H0.
  { intros r1 Hr1. apply In_select in Hr1 as [Hin Hall]. split; [done|].
    intros col Hcol. rewrite forallb_forall in Hall.
    by apply negb_true_iff, Hall. }
  assert (∀ r1, In r1 (rows d1) →
            ∃ r0, In r0 (rows d) ∧ agree_off ["transaction_type"] r0 r1
                  ∧ ∀ col, In col critical_fields → isnull (cell r1 col) = false)
    as H1.
  { intros r1 Hr1. subst d1. destruct (has_column "transaction_type" d).
    - apply In_assign in Hr1 as (r0 & Hr0 & ->).
      destruct (H0 r0 Hr0) as [Hin Hcrit]. exists r0. split; [done|].
      split; [apply agree_off_insert; simpl; auto|].
      intros col Hcol. rewrite cell_insert_ne; [by apply Hcrit|].
      intros <-. simpl in Hcol. intuition discriminate.
    - destruct (H0 r1 Hr1) as [Hin Hcrit]. exists r1.
      split; [done|]. split; [apply agree_off_refl|done]. }
  split.
  - destruct (has_column "description" d) eqn:E; [|done].
    rewrite columns_assign; [done|]. by rewrite (has_column_ext _ d d1).
  - intros r2 Hr2. destruct (has_column "description" d).
    + apply In_assign in Hr2 as (r1 & Hr1 & ->).
      destruct (H1 r1 Hr1) as (r0 & Hr0 & Hagree & Hcrit). exists r0.
      split; [done|]. split.
      * intros col Hcol. rewrite lookup_insert_ne.
        -- apply Hagree. simpl in *. tauto.
        -- intros <-. simpl in Hcol. intuition discriminate.
      * intros col Hcol. rewrite cell_insert_ne; [by apply Hcrit|].
        intros <-. simpl in Hcol. intuition discriminate.
    + destruct (H1 r2 Hr2) as (r0 & Hr0 & Hagree & Hcrit). exists r0.
      split; [done|]. split; [|done].
      intros col Hcol. apply Hagree. simpl in *. tauto.
Qed.

(** ** Type and range normalizer *)

Lemma agree_off_mono (cols cols' : list string) (r r' : row) :
  (∀ col, In col cols → In col cols') → agree_off cols r r' → agree_off cols' r r'.
Proof. intros Hsub Hagree col Hcol. apply Hagree. auto. Qed.

Lemma to_numeric_cases (v : value) :
  to_numeric v = VNull ∨ ∃ q, to_numeric v = VNum q.
Proof.
  destruct v; simpl; eauto; destruct (to_numeric_object _); simpl; eauto.
Qed.

Lemma to_datetime_cases (v : value) :
  to_datetime v = VNull ∨ ∃ t, to_datetime v = VTime t.
Proof.
  destruct v; simpl; eauto; destruct (to_datetime_object _); simpl; eauto.
Qed.

Lemma convert_amounts_columns (d : DataFrame) :
  has_column "amount" d = true → columns (convert_amounts d) = columns d.
Proof.
  intros Ha. unfold convert_amounts. cbv zeta.
  destruct (0 <? _)%nat; simpl; by rewrite Ha.
Qed.

(** After conversion every amount is a number. *)
Lemma convert_amounts_rows (d : DataFrame) (r' : row) :
  In r' (rows (convert_amounts d)) →
  ∃ r q, In r (rows d) ∧ agree_off ["amount"] r r'
         ∧ to_numeric (cell r "amount") = VNum q
         ∧ cell r' "amount" = VNum q.
Proof.
  unfold convert_amounts. cbv zeta.
  set (d1 := assign "amount" _ d).
  assert (isnull (cell r' "amount") = false → In r' (rows d1) →
          ∃ r q, In r (rows d) ∧ agree_off ["amount"] r r'
                 ∧ to_numeric (cell r "amount") = VNum q
                 ∧ cell r' "amount" = VNum q) as Hkey.
  { intros Hnn Hin. apply In_assign in Hin as (r & Hr & ->).
    rewrite cell_insert in Hnn.
    destruct (to_numeric_cases (cell r "amount")) as [E|[q E]].
    - by rewrite E in Hnn.
    - exists r, q. split; [done|].
      split; [apply agree_off_insert; simpl; auto|].
      split; [done|]. by rewrite cell_insert. }
  destruct (0 <? count _ d1)%nat eqn:Eg.
  - intros Hin. apply In_select in Hin as [Hin Hnn]. simpl in Hnn.
    rewrite andb_true_r in Hnn. by apply Hkey; [apply negb_true_iff|].
  - intros Hin. apply Hkey; [|done].
    by apply (count_zero _ d1 r' Eg).
Qed.

Lemma series_le_true (q x : Q) : series_le (VNum q) x = true ↔ (q <= x)%Q.
Proof. apply Qle_bool_iff. Qed.

Lemma series_gt_true (q x : Q) : series_gt (VNum q) x = true ↔ (x < q)%Q.
Proof. apply Qltb_lt. Qed.

Lemma series_gt_le (v : value) (x : Q) :
  isnull v = false → (∃ q, v = VNum q) → series_gt v x = negb (series_le v x).
Proof. intros _ [q ->]. unfold series_gt, series_le, Qltb. simpl. done. Qed.

(** The range check keeps exactly the rows whose amount is in (0, max], on a
    batch whose amounts are numbers. *)
Lemma validate_amount_ranges_rows (d : DataFrame) (r : row) (q : Q) :
  cell r "amount" = VNum q →
  In r (rows (validate_amount_ranges config d))
  ↔ In r (rows d) ∧ (0 < q)%Q ∧ (q <= max_transaction_amount config)%Q.
Proof.
  intros Hq. unfold validate_amount_ranges. cbv zeta.
  destruct (0 <? count _ d)%nat eqn:Eg.
  - rewrite In_select, Hq, andb_true_iff, series_gt_true, series_le_true. tauto.
  - split; [|tauto]. intros Hin. split; [done|].
    pose proof (count_zero _ d r Eg Hin) as Hz. simpl in Hz.
    rewrite Hq in Hz. apply orb_false_iff in Hz as [Hle Hgt].
    unfold series_le, series_gt in *. simpl in *.
    apply Qle_bool_false in Hle. split; [done|].
    unfold Qltb in Hgt. by apply negb_false_iff, Qle_bool_iff in Hgt.
Qed.

Lemma validate_amount_ranges_columns (d : DataFrame) :
  columns (validate_amount_ranges config d) = columns d.
Proof. unfold validate_amount_ranges. cbv zeta. by destruct (0 <? _)%nat. Qed.

(** The three amount steps together. *)
Lemma amounts_rows (d : DataFrame) (r' : row) :
  In r' (rows (round_amounts config (validate_amount_ranges config (convert_amounts d)))) →
  ∃ r q, In r (rows d) ∧ agree_off ["amount"] r r'
         ∧ to_numeric (cell r "amount") = VNum q
         ∧ (0 < q)%Q ∧ (q <= max_transaction_amount config)%Q
         ∧ cell r' "amount" = VNum (round q (currency_precision config)).
Proof.
  intros Hin. apply In_assign in Hin as (r1 & Hr1 & ->).
  assert (In r1 (rows (convert_amounts d))) as Hc.
  { revert Hr1. unfold validate_amount_ranges. cbv zeta.
    destruct (0 <? _)%nat; [|done]. intros Hr1. by apply In_select in Hr1 as []. }
  destruct (convert_amounts_rows d r1 Hc) as (r & q & Hr & Hagree & Hnum & Hq).
  apply (validate_amount_ranges_rows _ _ q Hq) in Hr1 as (_ & Hpos & Hmax).
  exists r, q. split; [done|]. split.
  - eapply agree_off_trans; [exact Hagree|]. apply agree_off_insert. simpl. auto.
  - split; [done|]. split; [done|]. split; [done|].
    by rewrite cell_insert, Hq.
Qed.

Lemma amounts_columns (d : DataFrame) :
  has_column "amount" d = true →
  columns (round_amounts config (validate_amount_ranges config (convert_amounts d)))
  = columns d.
Proof.
  intros Ha. unfold round_amounts. cbv zeta. rewrite columns_assign.
  - by rewrite validate_amount_ranges_columns, convert_amounts_columns.
  - erewrite has_column_ext; [exact Ha|].
    by rewrite validate_amount_ranges_columns, convert_amounts_columns.
Qed.

Lemma not_future_mono (T T' : Z) (v : value) :
  (T ≤ T')%Z → not_future T v → not_future T' v.
Proof.
  intros Hle [->|(t & -> & Ht)]; [by left|]. right. exists t. split; [done|lia].
Qed.

(** The run of the date step: one or two readings of the clock when the
    batch has dates, and every date kept is NaT or not after the last
    reading taken. *)
Lemma validate_dates_run (d : DataFrame) (s : processor) :
  if has_column "transaction_date" d && negb (naive_dates d) then
    ∃ msg,
      validate_dates d s
      = (Raised (TypeError msg),
         mkProcessor (heap s) (quality_report s) (S (clock s)) (entered s))
  else
    ∃ d' k,
      validate_dates d s
      = (Returned d',
         mkProcessor (heap s) (quality_report s) (clock s + k) (entered s))
      ∧ columns d' = columns d
      ∧ ∀ r', In r' (rows d') →
          ∃ r, In r (rows d) ∧ agree_off ["transaction_date"] r r'
               ∧ (has_column "transaction_date" d = true →
                  cell r' "transaction_date" = to_datetime (cell r "transaction_date")
                  ∧ not_future (time_at (clock s + k)) (cell r' "transaction_date")).
Proof.
  unfold validate_dates.
  destruct (has_column "transaction_date" d) eqn:Ehas; cbn [andb].
  - set (d1 := assign "transaction_date" _ d).
    assert (columns d1 = columns d) as Hcols by by apply columns_assign.
    cbv zeta.
    destruct (naive_dates d); cbn [negb]; step; simpl clock; [|by eexists].
    step.
    destruct (0 <? count _ d1)%nat eqn:Eg.
    + step. unfold mret, M_ret. simpl.
      exists (select (λ r, not_after (cell r "transaction_date") (time_at (S (clock s)))) d1), 2%nat.
      split; [by rewrite <- Nat.add_succ_comm, Nat.add_1_r|].
      split; [done|].
      intros r' Hr'. apply In_select in Hr' as [Hin Hna].
      apply In_assign in Hin as (r & Hr & ->). exists r. split; [done|].
      split; [apply agree_off_insert; simpl; auto|]. intros _.
      rewrite cell_insert in *. split; [done|].
      destruct (to_datetime (cell r "transaction_date")); try done.
      right. exists t. split; [done|]. simpl in Hna. apply Z.leb_le in Hna.
      pose proof (time_mono (S (clock s)) (clock s + 2)). lia.
    + unfold mret, M_ret. simpl.
      exists d1, 1%nat. split; [by rewrite Nat.add_1_r|]. split; [done|].
      intros r' Hr'. pose proof (count_zero _ d1 r' Eg Hr') as Hna.
      apply In_assign in Hr' as (r & Hr & ->). exists r. split; [done|].
      split; [apply agree_off_insert; simpl; auto|]. intros _.
      rewrite cell_insert in *. split; [done|].
      destruct (to_datetime_cases (cell r "transaction_date")) as [E|[t E]];
        rewrite E in *; [by left|].
      right. exists t. split; [done|]. simpl in Hna. apply Z.ltb_ge in Hna.
      pose proof (time_mono (clock s) (clock s + 1)). lia.
  - exists d, 0%nat. unfold mret, M_ret. rewrite Nat.add_0_r.
    split; [by destruct s|]. split; [done|].
    intros r' Hr'. exists r'. split; [done|]. split; [apply agree_off_refl|done].
Qed.

Lemma validate_string_field_columns (d : DataFrame) (field : string) :
  columns (validate_string_field d field) = columns d.
Proof.
  unfold validate_string_field. destruct (has_column field d) eqn:E; [|done].
  simpl. by rewrite E.
Qed.

Lemma validate_string_field_rows (d : DataFrame) (field : string) (r' : row) :
  In r' (rows (validate_string_field d field)) →
  ∃ r, In r (rows d) ∧ agree_off [field] r r'
       ∧ (has_column field d = true → ∃ s, cell r' field = VStr s).
Proof.
  unfold validate_string_field. destruct (has_column field d).
  - intros Hin. apply In_select in Hin as [Hin _].
    apply In_assign in Hin as (r & Hr & ->). exists r. split; [done|].
    split; [apply agree_off_insert; simpl; auto|].
    intros _. rewrite cell_insert. eauto.
  - intros Hin. exists r'. split; [done|]. split; [apply agree_off_refl|done].
Qed.

Lemma validate_strings_columns (d : DataFrame) :
  columns (validate_strings d) = columns d.
Proof.
  unfold validate_strings. simpl. by rewrite !validate_string_field_columns.
Qed.

Lemma validate_strings_rows (d : DataFrame) (r' : row) :
  In r' (rows (validate_strings d)) →
  ∃ r, In r (rows d) ∧ agree_off string_fields r r'
       ∧ ∀ field, In field string_fields → has_column field d = true →
           ∃ s, cell r' field = VStr s.
Proof.
  unfold validate_strings. simpl. intros Hin.
  apply validate_string_field_rows in Hin as (r2 & Hin & Ha3 & Hs3).
  apply validate_string_field_rows in Hin as (r1 & Hin & Ha2 & Hs2).
  apply validate_string_field_rows in Hin as (r & Hin & Ha1 & Hs1).
  exists r. split; [done|]. split.
  - intros col Hcol. rewrite Ha3, Ha2, Ha1; [done|..]; simpl in *; tauto.
  - intros field [<-|[<-|[<-|[]]]] Hhas.
    + destruct Hs1 as [b Hb]; [done|]. exists b.
      rewrite (agree_off_cell _ _ _ _ Ha3), (agree_off_cell _ _ _ _ Ha2);
        [done|simpl; intuition discriminate..].
    + destruct Hs2 as [b Hb].
      { by erewrite has_column_ext; [|apply validate_string_field_columns]. }
      exists b. rewrite (agree_off_cell _ _ _ _ Ha3);
        [done|simpl; intuition discriminate].
    + apply Hs3. erewrite has_column_ext; [exact Hhas|].
      by rewrite !validate_string_field_columns.
Qed.

Lemma validate_transaction_types_columns (d : DataFrame) :
  columns (validate_transaction_types d) = columns d.
Proof.
  unfold validate_transaction_types. cbv zeta.
  destruct (has_column "transaction_type" d) eqn:E; [|done].
  destruct (existsb _ _); [|done]. simpl. by rewrite E.
Qed.

Lemma validate_transaction_types_rows (d : DataFrame) (r' : row) :
  In r' (rows (validate_transaction_types d)) →
  ∃ r, In r (rows d) ∧ agree_off ["transaction_type"] r r'.
Proof.
  unfold validate_transaction_types. cbv zeta.
  destruct (has_column "transaction_type" d);
    [destruct (existsb _ _)|].
  - intros Hin. apply In_assign in Hin as (r & Hr & ->). exists r.
    split; [done|]. apply agree_off_insert. simpl. auto.
  - intros Hin. exists r'. split; [done|]. apply agree_off_refl.
  - intros Hin. exists r'. split; [done|]. apply agree_off_refl.
Qed.

(** The run of the normalizer: it raises on a batch without amounts, and
    on dates with a time zone; otherwise it returns a new batch, every row
    of which is the normalized form of a row of the input. *)
Lemma validate_column_types_run (s : processor) (r : ref) (d : DataFrame) :
  heap s !! r = Some d →
  if has_column "amount" d then
    if aware_dates config d then
      ∃ msg,
        validate_column_types config r s
        = (Raised (TypeError msg),
           mkProcessor (heap s) (quality_report s) (S (clock s))
                       (entered s ++ [m_validate_column_types]))
    else
      ∃ d2 k,
        validate_column_types config r s
        = (Returned (length (heap s)),
           mkProcessor (heap s ++ [d2]) (quality_report s) (clock s + k)
                       (entered s ++ [m_validate_column_types]))
        ∧ columns d2 = columns d
        ∧ ∀ r2, In r2 (rows d2) →
            ∃ r1, In r1 (rows d)
                  ∧ normalized config d (time_at (clock s + k)) r1 r2
  else
    validate_column_types config r s
    = (Raised (KeyError "amount"),
       mkProcessor (heap s) (quality_report s) (clock s)
                   (entered s ++ [m_validate_column_types])).
Proof.
  intros Hd.
  destruct (has_column "amount" d) eqn:Ea.
  - unfold aware_dates.
    set (da := round_amounts config _).
    assert (columns da = columns d) as Hca by by apply amounts_columns.
    rewrite <- (has_column_ext "transaction_date" d da Hca).
    pose proof (validate_dates_run da
                  (mkProcessor (heap s) (quality_report s) (clock s)
                               (entered s ++ [m_validate_column_types]))) as Hdates.
    assert (∀ o s',
              validate_dates da
                (mkProcessor (heap s) (quality_report s) (clock s)
                             (entered s ++ [m_validate_column_types])) = (o, s') →
              validate_column_types config r s
              = match o with
                | Returned dd =>
                    (Returned (length (heap s')),
                     mkProcessor
                       (heap s' ++ [validate_transaction_types (validate_strings dd)])
                       (quality_report s') (clock s') (entered s'))
                | Raised e => (Raised e, s')
                end) as Hrest.
    { intros o s' Hrun. unfold validate_column_types.
      do 2 step. rewrite bind_run. unfold getitem. rewrite Ea.
      unfold mret at 1, M_ret at 1. cbv beta iota.
      fold da. rewrite bind_run, Hrun. by destruct o. }
    destruct (has_column "transaction_date" da && negb (naive_dates da)).
    { destruct Hdates as [msg Hrun]. exists msg. by rewrite (Hrest _ _ Hrun). }
    destruct Hdates as (dd & k & Hrun & Hcd & Hrd).
    rewrite (Hrest _ _ Hrun). simpl.
    exists (validate_transaction_types (validate_strings dd)), k.
    split; [done|].
    split.
    { by rewrite validate_transaction_types_columns, validate_strings_columns,
        Hcd, Hca. }
    intros r5 Hr5.
    apply validate_transaction_types_rows in Hr5 as (r4 & Hr4 & Ht).
    apply validate_strings_rows in Hr4 as (r3 & Hr3 & Hs & Hstr).
    apply Hrd in Hr3 as (r2 & Hr2 & Hdt & Hdate).
    apply amounts_rows in Hr2 as (r1 & q & Hr1 & Ham & Hnum & Hpos & Hmax & Hq).
    exists r1. split; [done|]. split; [|split; [|split]].
    + intros col Hcol. rewrite Ht, Hs, Hdt, Ham; [done|..]; simpl in *; tauto.
    + exists q. split; [done|]. split; [done|]. split; [done|].
      rewrite (agree_off_cell _ _ _ _ Ht), (agree_off_cell _ _ _ _ Hs),
        (agree_off_cell _ _ _ _ Hdt); [done|simpl; intuition discriminate..].
    + intros Hhas. destruct Hdate as [Hconv Hnf].
      { by rewrite (has_column_ext _ d da). }
      rewrite (agree_off_cell _ _ _ _ Ht), (agree_off_cell _ _ _ _ Hs);
        [|simpl; intuition discriminate..].
      split; [|done]. rewrite Hconv. f_equal.
      apply (agree_off_cell _ _ _ _ Ham). simpl. intuition discriminate.
    + intros field Hfield Hhas.
      destruct (Hstr field Hfield) as [b Hb].
      { erewrite has_column_ext; [exact Hhas|]. by rewrite Hcd, Hca. }
      exists b. rewrite (agree_off_cell _ _ _ _ Ht); [done|].
      simpl in *. intuition (subst; discriminate).
  - unfold validate_column_types.
    do 2 step. rewrite bind_run. unfold getitem. rewrite Ea. done.
Qed.

(** A batch whose dates carry no time zone gets through the date step. *)
Lemma naive_dates_sub (d d' : DataFrame) :
  (∀ r', In r' (rows d') →
         ∃ r, In r (rows d)
              ∧ cell r' "transaction_date" = cell r "transaction_date") →
  naive_dates d = true → naive_dates d' = true.
Proof.
  unfold naive_dates. rewrite !forallb_forall. intros Hsub Hd r' Hr'.
  destruct (Hsub r' Hr') as (r & Hr & ->). by apply Hd.
Qed.

Lemma naive_dates_aware (d : DataFrame) :
  naive_dates d = true → aware_dates config d = false.
Proof.
  intros Hd. unfold aware_dates. apply andb_false_iff. right.
  apply negb_false_iff, (naive_dates_sub d); [|done].
  intros r' Hr'.
  apply amounts_rows in Hr' as (r & q & Hr & Hagree & _).
  exists r. split; [done|]. apply (agree_off_cell _ _ _ _ Hagree).
  simpl. intuition discriminate.
Qed.

(** ** Anomaly detector *)

Lemma has_column_assign (col : string) (f : row → value) (d : DataFrame) :
  has_column col (assign col f d) = true.
Proof.
  unfold assign, has_column. simpl. apply bool_decide_eq_true.
  destruct (bool_decide (col ∈ columns d)) eqn:E.
  - apply bool_decide_eq_true in E. exact E.
  - apply elem_of_app. right. apply list_elem_of_singleton. reflexivity.
Qed.

(** The run of the detector, case by case. *)
Lemma detect_anomalies_run (s : processor) (r : ref) (d : DataFrame) :
  heap s !! r = Some d →
  detect_anomalies config r s
  = let s0 := mkProcessor (heap s) (quality_report s) (clock s)
                          (entered s ++ [m_detect_anomalies]) in
    if negb (handle_outliers config) then
      (Returned (r, length (heap s)),
       mkProcessor (heap s ++ [DataFrame_new]) (quality_report s) (clock s)
                   (entered s0))
    else if negb (has_column "bank_id" d) then (Raised (KeyError "bank_id"), s0)
    else if negb (has_column "amount" d) then (Raised (KeyError "amount"), s0)
    else
      let h := <[r := scored d]> (heap s) in
      if (0 <? len (anomaly_set config d))%nat then
        (Returned (length h, length (h ++ [normal_set config d])),
         mkProcessor ((h ++ [normal_set config d])
                      ++ [tagged (time_at (clock s)) (anomaly_set config d)])
                     (quality_report s) (S (clock s)) (entered s0))
      else
        (Returned (length h, length (h ++ [normal_set config d])),
         mkProcessor ((h ++ [normal_set config d]) ++ [anomaly_set config d])
                     (quality_report s) (clock s) (entered s0)).
Proof.
  intros Hd. unfold detect_anomalies. cbv zeta. step.
  destruct (handle_outliers config); cbn [negb]; [|by step].
  step. rewrite bind_run. unfold getitem at 1.
  destruct (has_column "bank_id" d); cbn [negb]; [|done].
  unfold mret at 1, M_ret at 1. cbv beta iota.
  rewrite bind_run. unfold getitem at 1.
  destruct (has_column "amount" d); cbn [negb]; [|done].
  unfold mret at 1, M_ret at 1. cbv beta iota.
  step. rewrite bind_run. unfold load at 1. simpl heap.
  rewrite list_lookup_insert_eq by (by eapply lookup_lt_Some).
  cbv beta iota. fold (scored d). fold (anomaly_set config d).
  assert (has_column "amount_zscore"
            (select (λ r0, series_le (cell r0 "amount_zscore")
                             (anomaly_threshold_std config)) (scored d)) = true)
    as ->.
  { erewrite has_column_ext; [apply has_column_assign|done]. }
  fold (normal_set config d).
  destruct (0 <? len (anomaly_set config d))%nat.
  - rewrite bind_run, bind_run. unfold now at 1. cbv beta iota.
    unfold mret at 1, M_ret at 1. cbv beta iota.
    do 2 step. done.
  - rewrite bind_run. unfold mret at 1, M_ret at 1. cbv beta iota.
    do 2 step. done.
Qed.

(** ** From the batch to the deduplicated batch *)

Lemma In_pick {A : Type} (mask : list bool) (l : list A) (x : A) :
  In x (pick mask l) → In x l.
Proof.
  revert l. induction mask as [|b mask IH]; intros [|y l]; simpl; try done.
  destruct b; simpl; intuition.
Qed.

Lemma normalized_clean (d0 d1 : DataFrame) (T : Z) (r0 r1 r' : row) :
  columns d1 = columns d0 →
  agree_off ["transaction_type"; "description"] r0 r1 →
  normalized config d1 T r1 r' → normalized config d0 T r0 r'.
Proof.
  intros Hcols Hagree (Ha & Hq & Hdate & Hstr).
  assert (∀ col, col ≠ "transaction_type" → col ≠ "description" →
          cell r1 col = cell r0 col) as Hcell.
  { intros col H1 H2. apply (agree_off_cell _ _ _ _ Hagree).
    simpl. intros [?|[?|[]]]; congruence. }
  split; [|split; [|split]].
  - intros col Hcol. rewrite Ha, Hagree; [done|..]; simpl in *; tauto.
  - destruct Hq as (q & Hq). exists q. by rewrite <- Hcell.
  - intros Hhas. rewrite <- Hcell by done. apply Hdate.
    by rewrite (has_column_ext _ d0 d1).
  - intros field Hfield Hhas. apply Hstr; [done|].
    by rewrite (has_column_ext _ d0 d1).
Qed.

Lemma normalized_later (d : DataFrame) (T T' : Z) (r r' : row) :
  (T ≤ T')%Z → normalized config d T r r' → normalized config d T' r r'.
Proof.
  intros Hle (Ha & Hq & Hdate & Hstr). split; [done|]. split; [done|].
  split; [|done]. intros Hhas. destruct (Hdate Hhas) as [Hc Hn].
  split; [done|]. by apply (not_future_mono T).
Qed.

(** A row that differs from a normalized row by its z-score only is
    normalized as well. *)
Lemma normalized_scored (d : DataFrame) (T : Z) (r r' r'' : row) :
  normalized config d T r r' → agree_off ["amount_zscore"] r' r'' →
  normalized config d T r r''.
Proof.
  intros (Ha & Hq & Hdate & Hstr) Hz.
  assert (∀ col, col ≠ "amount_zscore" → cell r'' col = cell r' col) as Hcell.
  { intros col Hne. apply (agree_off_cell _ _ _ _ Hz).
    simpl. intros [?|[]]. congruence. }
  split; [|split; [|split]].
  - intros col Hcol. rewrite Hz, Ha; [done|..]; simpl in *; tauto.
  - destruct Hq as (q & Hq). exists q. by rewrite Hcell.
  - intros Hhas. rewrite Hcell by done. by apply Hdate.
  - intros field Hfield Hhas. rewrite Hcell.
    + by apply Hstr.
    + simpl in Hfield. intuition (subst; discriminate).
Qed.

Lemma critical_columns (d : DataFrame) :
  List.find (λ col, negb (has_column col d)) critical_fields = None
  ↔ has_column "bank_id" d = true ∧ has_column "customer_id" d = true
    ∧ has_column "amount" d = true.
Proof.
  rewrite find_missing_none. simpl. split.
  - intros Hall. repeat split; apply Hall; tauto.
  - intros (Hb & Hc & Ha) col [<-|[<-|[<-|[]]]]; done.
Qed.

(** Steps 2 to 4 on a batch that has the critical columns: they raise on
    dates with a time zone, the batch having some; or they return a batch
    with the same columns, every row of which is the normalized form of a
    row of the input.  Either way they leave the frames that exist as they
    are. *)
Lemma steps_2_to_4_cases (s : processor) (r : ref) (d0 : DataFrame) :
  heap s !! r = Some d0 →
  List.find (λ col, negb (has_column col d0)) critical_fields = None →
  (∃ msg s',
     steps_2_to_4 config r s = (Raised (TypeError msg), s')
     ∧ naive_dates d0 = false
     ∧ (∀ r' d', heap s !! r' = Some d' → heap s' !! r' = Some d')
     ∧ quality_report s' = quality_report s
     ∧ entered s'
       = entered s ++ [m_clean_null_values; m_validate_column_types])
  ∨ ∃ r3 s3 d k,
      steps_2_to_4 config r s = (Returned r3, s3)
      ∧ heap s3 !! r3 = Some d
      ∧ columns d = columns d0
      ∧ (∀ r', In r' (rows d) →
           ∃ r0, In r0 (rows d0) ∧ normalized config d0 (time_at (clock s3)) r0 r')
      ∧ (∀ r' d', heap s !! r' = Some d' → heap s3 !! r' = Some d')
      ∧ (length (heap s) < r3)%nat
      ∧ quality_report s3 = quality_report s
      ∧ clock s3 = (clock s + k)%nat
      ∧ entered s3
        = entered s ++ [m_clean_null_values; m_validate_column_types;
                        m_detect_duplicates].
Proof.
  intros Hd0 Hcrit. unfold steps_2_to_4.
  pose proof (clean_null_values_run s r d0 Hd0) as Hclean.
  rewrite Hcrit in Hclean. destruct Hclean as (d1 & Hrun1 & Hcols1 & Hrows1).
  rewrite bind_run, Hrun1. cbv beta iota.
  set (s1 := mkProcessor (heap s ++ [d1]) _ _ _).
  assert (heap s1 !! length (heap s) = Some d1) as Hd1 by apply lookup_alloc.
  pose proof (validate_column_types_run s1 _ d1 Hd1) as Htyped.
  apply critical_columns in Hcrit as (Hb & Hc & Ha).
  rewrite (has_column_ext _ d0 d1), Ha in Htyped by done.
  destruct (aware_dates config d1) eqn:Eaware.
  { left. destruct Htyped as [msg Hrun2]. rewrite bind_run, Hrun2.
    do 2 eexists. split; [reflexivity|]. split.
    - destruct (naive_dates d0) eqn:Hnaive; [|done].
      rewrite naive_dates_aware in Eaware; [done|].
      apply (naive_dates_sub d0); [|done]. intros r1 Hr1.
      destruct (Hrows1 r1 Hr1) as (r0 & Hr0 & Hagree & _).
      exists r0. split; [done|]. apply (agree_off_cell _ _ _ _ Hagree).
      simpl. intuition discriminate.
    - subst s1. simpl. split; [|split; [done|by rewrite <- app_assoc]].
      intros r' d' Hr'. by apply lookup_alloc_old. }
  right.
  destruct Htyped as (d2 & k & Hrun2 & Hcols2 & Hrows2).
  rewrite bind_run, Hrun2. cbv beta iota.
  set (s2 := mkProcessor (heap s1 ++ [d2]) _ _ _).
  assert (heap s2 !! length (heap s1) = Some d2) as Hd2 by apply lookup_alloc.
  destruct (detect_duplicates_spec s2 _ d2 Hd2)
    as (r3 & s3 & Hrun3 & Hd3 & Hext & Hr3 & Hqr & Hclock & Hentered).
  rewrite Hrun3. exists r3, s3. eexists. exists k.
  split; [reflexivity|]. split; [exact Hd3|].
  split; [by destruct (remove_duplicates config); rewrite ?deduplicated_columns, Hcols2|].
  split; [|split; [|split; [|split; [|split]]]].
  - intros r' Hr'.
    assert (In r' (rows d2)) as Hin.
    { destruct (remove_duplicates config); [|done]. by apply In_pick in Hr'. }
    destruct (Hrows2 r' Hin) as (r1 & Hr1 & Hnorm).
    destruct (Hrows1 r1 Hr1) as (r0 & Hr0 & Hagree & _).
    exists r0. split; [done|]. rewrite Hclock.
    by apply (normalized_clean d0 d1 _ r0 r1).
  - intros r' d' Hr'. apply Hext. subst s2 s1. simpl.
    by apply lookup_alloc_old, lookup_alloc_old.
  - subst s2 s1. simpl in Hr3. rewrite !length_app in Hr3. simpl in Hr3.
    destruct Hr3 as [->| ->]; lia.
  - by rewrite Hqr.
  - by rewrite Hclock.
  - rewrite Hentered. subst s2 s1. simpl. by rewrite <- !app_assoc.
Qed.

Lemma steps_2_to_4_run (s : processor) (r : ref) (d0 : DataFrame) :
  heap s !! r = Some d0 →
  List.find (λ col, negb (has_column col d0)) critical_fields = None →
  naive_dates d0 = true →
  ∃ r3 s3 d k,
    steps_2_to_4 config r s = (Returned r3, s3)
    ∧ heap s3 !! r3 = Some d
    ∧ columns d = columns d0
    ∧ (∀ r', In r' (rows d) →
         ∃ r0, In r0 (rows d0) ∧ normalized config d0 (time_at (clock s3)) r0 r')
    ∧ (∀ r' d', heap s !! r' = Some d' → heap s3 !! r' = Some d')
    ∧ (length (heap s) < r3)%nat
    ∧ quality_report s3 = quality_report s
    ∧ clock s3 = (clock s + k)%nat
    ∧ entered s3
      = entered s ++ [m_clean_null_values; m_validate_column_types;
                      m_detect_duplicates].
Proof.
  intros Hd0 Hcrit Hnaive.
  destruct (steps_2_to_4_cases s r d0 Hd0 Hcrit)
    as [(msg & s' & _ & Hno & _)|Hrun]; [congruence|exact Hrun].
Qed.

(** ** The anomaly detector's partition *)

Lemma untag_agree (r r' : row) :
  agree_off ["amount_zscore"; "anomaly_type"; "detected_at"] r r' →
  untag r' = untag r.
Proof.
  intros Hagree. apply map_eq. intros col. unfold untag.
  destruct (decide (col = "detected_at")) as [->|H1];
    [by rewrite !lookup_delete_eq|].
  rewrite !(lookup_delete_ne _ "detected_at") by done.
  destruct (decide (col = "anomaly_type")) as [->|H2];
    [by rewrite !lookup_delete_eq|].
  rewrite !(lookup_delete_ne _ "anomaly_type") by done.
  destruct (decide (col = "amount_zscore")) as [->|H3];
    [by rewrite !lookup_delete_eq|].
  rewrite !(lookup_delete_ne _ "amount_zscore") by done.
  apply Hagree. simpl. intros [?|[?|[?|[]]]]; congruence.
Qed.

Lemma filter_map_commute {A B : Type} (p : B → bool) (f : A → B) (l : list A) :
  List.filter p (map f l) = map f (List.filter (λ x, p (f x)) l).
Proof.
  induction l as [|x l IH]; [done|]. simpl.
  destruct (p (f x)); simpl; by rewrite IH.
Qed.

Lemma pick_filter {A : Type} (p : A → bool) (l : list A) :
  pick (map p l) l = List.filter p l.
Proof.
  induction l as [|x l IH]; [done|]. simpl. destruct (p x); by rewrite IH.
Qed.

Lemma pick_map {A B : Type} (f : A → B) (mask : list bool) (l : list A) :
  pick mask (map f l) = map f (pick mask l).
Proof.
  revert l. induction mask as [|b mask IH]; intros [|x l]; simpl; try done.
  destruct b; simpl; by rewrite IH.
Qed.

Lemma pick_lengths {A : Type} (mask : list bool) (l : list A) :
  length mask = length l →
  (length (pick mask l) + length (pick (map negb mask) l) = length l)%nat.
Proof.
  revert l. induction mask as [|b mask IH]; intros [|x l] Hlen;
    simpl in *; try done.
  destruct b; simpl; rewrite <- (IH l) by lia; lia.
Qed.

(** On a row with a bank and a numeric amount the z-score is a number. *)
Lemma amount_zscore_numeric (d : DataFrame) (r : row) (q : Q) (b : string) :
  cell r "amount" = VNum q → cell r "bank_id" = VStr b →
  ∃ z, amount_zscore d r = VNum z.
Proof.
  intros Hq Hb. unfold amount_zscore. cbv zeta. rewrite Hb, Hq. simpl.
  destruct (Series_std _) as [sd|] eqn:Estd; [|eauto].
  destruct (Qltb 0 sd); [|eauto].
  destruct (Series_mean _) as [m|] eqn:Emean; [eauto|].
  unfold Series_std, Series_mean in *.
  destruct (group_amounts d (VStr b)) as [|x [|y l]]; done.
Qed.

Lemma rows_normal_set (d : DataFrame) :
  rows (normal_set config d)
  = map (λ r, delete "amount_zscore" (<["amount_zscore" := amount_zscore d r]> r))
        (List.filter
           (λ r, series_le (amount_zscore d r) (anomaly_threshold_std config))
           (rows d)).
Proof.
  unfold normal_set, scored. simpl. rewrite filter_map_commute, map_map.
  f_equal. apply filter_ext. intros r. by rewrite cell_insert.
Qed.

Lemma rows_anomaly_set (d : DataFrame) :
  rows (anomaly_set config d)
  = map (λ r, <["amount_zscore" := amount_zscore d r]> r)
        (List.filter
           (λ r, series_gt (amount_zscore d r) (anomaly_threshold_std config))
           (rows d)).
Proof.
  unfold anomaly_set, scored. simpl. rewrite filter_map_commute.
  f_equal. apply filter_ext. intros r. by rewrite cell_insert.
Qed.

Lemma untag_normal_set (d : DataFrame) :
  map untag (rows (normal_set config d))
  = pick (map (λ r, series_le (amount_zscore d r) (anomaly_threshold_std config))
              (rows d))
         (map untag (rows d)).
Proof.
  rewrite rows_normal_set, map_map, pick_map, pick_filter.
  apply map_ext. intros r. apply untag_agree.
  eapply agree_off_trans; [apply agree_off_insert|apply agree_off_delete];
    simpl; auto.
Qed.

Lemma untag_anomaly_set (d : DataFrame) :
  map untag (rows (anomaly_set config d))
  = pick (map (λ r, series_gt (amount_zscore d r) (anomaly_threshold_std config))
              (rows d))
         (map untag (rows d)).
Proof.
  rewrite rows_anomaly_set, map_map, pick_map, pick_filter.
  apply map_ext. intros r. apply untag_agree, agree_off_insert. simpl. auto.
Qed.

Lemma untag_tagged (t : Z) (a : DataFrame) :
  map untag (rows (tagged t a)) = map untag (rows a).
Proof.
  unfold tagged. simpl. rewrite !map_map. apply map_ext. intros r.
  apply untag_agree.
  eapply agree_off_trans; apply agree_off_insert; simpl; auto.
Qed.

Lemma len_tagged (t : Z) (a : DataFrame) : len (tagged t a) = len a.
Proof. unfold len, tagged. simpl. by rewrite !length_map. Qed.

Lemma steps_2_to_4_raises (s : processor) (r : ref) (d0 : DataFrame) (col : string) :
  heap s !! r = Some d0 →
  List.find (λ col, negb (has_column col d0)) critical_fields = Some col →
  steps_2_to_4 config r s
  = (Raised (KeyError col),
     mkProcessor (heap s) (quality_report s) (clock s)
                 (entered s ++ [m_clean_null_values])).
Proof.
  intros Hd0 Hfind. unfold steps_2_to_4.
  pose proof (clean_null_values_run s r d0 Hd0) as Hclean.
  rewrite Hfind in Hclean. by rewrite bind_run, Hclean.
Qed.

(** C5. The deduplicated batch of a run is the one steps 2 to 4 return
    (they do return one on a batch that has the critical columns and dates
    without a time zone).  On every such batch, with [handle_outliers] set
    the detector returns a normal set and an anomaly set that split the
    batch position by position: each record of the batch is in exactly one
    of them (the sets hold the records up to the three fields the detector
    adds).  With [handle_outliers] unset it returns the batch itself and an
    empty frame. *)
Theorem C5_anomaly_partition (s : processor) (r : ref) (d0 : DataFrame) :
  heap s !! r = Some d0 →
  ((∀ col, In col ["bank_id"; "customer_id"; "amount"] → has_column col d0 = true) →
   naive_dates d0 = true →
   ∃ r3 s3, steps_2_to_4 config r s = (Returned r3, s3))
  ∧ ∀ r3 s3,
      steps_2_to_4 config r s = (Returned r3, s3) →
      ∃ d,
        heap s3 !! r3 = Some d
        ∧ ∃ normal anomalies s4 dn da,
            detect_anomalies config r3 s3 = (Returned (normal, anomalies), s4)
            ∧ heap s4 !! normal = Some dn
            ∧ heap s4 !! anomalies = Some da
            ∧ if handle_outliers config then
                ∃ mask : list bool,
                  length mask = length (rows d)
                  ∧ map untag (rows dn) = pick mask (map untag (rows d))
                  ∧ map untag (rows da)
                    = pick (map negb mask) (map untag (rows d))
                  ∧ (len dn + len da = len d)%nat
              else normal = r3 ∧ dn = d ∧ da = DataFrame_new.
Proof.
  intros Hd0. split.
  { intros Hcrit Hnaive. apply find_missing_none in Hcrit as Hfind.
    destruct (steps_2_to_4_run s r d0 Hd0 Hfind Hnaive)
      as (r3 & s3 & d & k & Hrun & _).
    by exists r3, s3. }
  intros r3 s3 Hrun.
  destruct (List.find (λ col, negb (has_column col d0)) critical_fields)
    as [col|] eqn:Hfind.
  { by rewrite (steps_2_to_4_raises s r d0 col Hd0 Hfind) in Hrun. }
  pose proof (proj1 (find_missing_none d0 critical_fields) Hfind) as Hcrit.
  destruct (steps_2_to_4_cases s r d0 Hd0 Hfind)
    as [(msg & s2 & E & _)|(r3' & s3' & d & k & Hrun' & Hd & Hcols & Hrows & _)];
    [by rewrite E in Hrun|].
  rewrite Hrun in Hrun'. injection Hrun' as <- <-.
  exists d. split; [exact Hd|].
  rewrite (detect_anomalies_run s3 r3 d Hd). cbv zeta.
  destruct (handle_outliers config); cbn [negb].
  - rewrite !(has_column_ext _ d0 d), !Hcrit by (done || simpl; auto).
    cbn [negb].
    set (h := <[r3 := scored d]> (heap s3)).
    set (mask := map (λ x, series_le (amount_zscore d x)
                             (anomaly_threshold_std config)) (rows d)).
    assert (map (λ x, series_gt (amount_zscore d x)
                        (anomaly_threshold_std config)) (rows d)
            = map negb mask) as Hneg.
    { subst mask. rewrite map_map. apply map_ext_in. intros x Hx.
      destruct (Hrows x Hx) as (x0 & _ & _ & (q & _ & _ & _ & Hq) & _ & Hstr).
      destruct (Hstr "bank_id") as [b Hb]; [simpl; auto|apply Hcrit; simpl; auto|].
      destruct (amount_zscore_numeric d x _ b Hq Hb) as [z ->].
      apply series_gt_le; eauto. }
    assert (length mask = length (rows d)) as Hlen
      by (subst mask; apply length_map).
    assert (length (rows (normal_set config d))
            + length (rows (anomaly_set config d)) = length (rows d))%nat
      as Hsum.
    { rewrite <- (length_map untag (rows (normal_set config d))).
      rewrite <- (length_map untag (rows (anomaly_set config d))).
      rewrite untag_normal_set, untag_anomaly_set, Hneg.
      fold mask. rewrite (pick_lengths mask) by (by rewrite length_map).
      apply length_map. }
    destruct (0 <? len (anomaly_set config d))%nat;
      do 5 eexists; (split; [reflexivity|]); simpl heap;
      (split; [apply lookup_app_l_Some, lookup_alloc|]);
      (split; [apply lookup_alloc|]);
      exists mask; (split; [exact Hlen|]);
      (split; [apply untag_normal_set|]);
      rewrite ?untag_tagged, ?len_tagged, untag_anomaly_set, Hneg; done.
  - do 5 eexists. split; [reflexivity|]. simpl heap.
    split; [by apply lookup_alloc_old|]. split; [apply lookup_alloc|]. done.
Qed.

(** ** Partitions without deviation *)

Lemma zero_std_single (d : DataFrame) (x : row) :
  length (group_amounts d (cell x "bank_id")) = 1%nat → zero_std d x.
Proof.
  unfold zero_std, Series_std.
  by destruct (group_amounts d (cell x "bank_id")) as [|a [|b l]].
Qed.

(** Without a positive deviation the z-score is the [0] of the guard. *)
Lemma zero_std_zscore (d : DataFrame) (x : row) :
  isnull (cell x "bank_id") = false → zero_std d x →
  amount_zscore d x = VNum 0.
Proof.
  intros Hb Hz. unfold amount_zscore, zero_std in *. cbv zeta. rewrite Hb.
  destruct (Series_std _) as [sd|]; [|done].
  destruct (Qltb 0 sd) eqn:E; [|done]. by apply Qltb_lt in E.
Qed.

Lemma zero_std_not_anomalous (d : DataFrame) (x : row) :
  (0 <= anomaly_threshold_std config)%Q → zero_std d x →
  series_gt (amount_zscore d x) (anomaly_threshold_std config) = false.
Proof.
  intros Hthr Hz. destruct (isnull (cell x "bank_id")) eqn:Hb.
  - unfold amount_zscore. cbv zeta. by rewrite Hb.
  - rewrite (zero_std_zscore d x Hb Hz). unfold series_gt, Qltb. simpl.
    apply negb_false_iff, Qle_bool_iff. exact Hthr.
Qed.

(** C6. A bank partition whose standard deviation, as the library computes
    it, is not positive (it is zero, or NaN as on a single record) gives
    each of its records the z-score 0, by the guard and without a division;
    with a threshold that is not negative, none of its records is among the
    anomalies the detector returns. *)
Theorem C6_zero_std_partition (d : DataFrame) :
  (∀ x, length (group_amounts d (cell x "bank_id")) = 1%nat → zero_std d x)
  ∧ (∀ x, isnull (cell x "bank_id") = false → zero_std d x →
          amount_zscore d x = VNum 0)
  ∧ (∀ s r,
       heap s !! r = Some d →
       has_column "bank_id" d = true → has_column "amount" d = true →
       handle_outliers config = true →
       (0 <= anomaly_threshold_std config)%Q →
       ∃ normal anomalies s' da,
         detect_anomalies config r s = (Returned (normal, anomalies), s')
         ∧ heap s' !! anomalies = Some da
         ∧ ∀ a, In a (rows da) → ¬ zero_std d a).
Proof.
  split; [apply zero_std_single|]. split; [apply zero_std_zscore|].
  intros s r Hd Hb Ha Hho Hthr.
  rewrite (detect_anomalies_run s r d Hd), Hho, Hb, Ha. cbn [negb]. cbv zeta.
  assert (∀ a, In a (rows (anomaly_set config d)) → ¬ zero_std d a) as Hset.
  { intros a Hin Hz. rewrite rows_anomaly_set in Hin.
    apply in_map_iff in Hin as (x & <- & Hx).
    apply filter_In in Hx as [_ Hgt].
    unfold zero_std in Hz. rewrite cell_insert_ne in Hz by done.
    by rewrite (zero_std_not_anomalous d x Hthr Hz) in Hgt. }
  destruct (0 <? len (anomaly_set config d))%nat;
    do 4 eexists; (split; [reflexivity|]); simpl heap;
    (split; [apply lookup_alloc|]); [|exact Hset].
  intros a Hin Hz. unfold tagged in Hin.
  apply In_assign in Hin as (a1 & Hin & ->).
  apply In_assign in Hin as (a0 & Hin & ->).
  apply (Hset a0 Hin). unfold zero_std in *.
  by rewrite !cell_insert_ne in Hz by done.
Qed.

(** ** Rounding *)

Lemma rint_bounds (q : Q) : (Qfloor q ≤ rint q ≤ Qfloor q + 1)%Z.
Proof.
  unfold rint. cbv zeta.
  destruct (_ ?= _)%Q; [destruct (Z.even _)|..]; lia.
Qed.

Lemma rint_mono (a b : Q) : (a <= b)%Q → (rint a ≤ rint b)%Z.
Proof.
  intros Hab. pose proof (Qfloor_resp_le a b Hab) as Hf.
  destruct (Z.eq_dec (Qfloor a) (Qfloor b)) as [E|Hne].
  - unfold rint. cbv zeta. rewrite E.
    destruct (Qcompare_spec (a - inject_Z (Qfloor b)) (1 # 2)),
             (Qcompare_spec (b - inject_Z (Qfloor b)) (1 # 2));
      try destruct (Z.even _); try lia; exfalso; lra.
  - pose proof (rint_bounds a). pose proof (rint_bounds b). lia.
Qed.

Lemma rint_nonneg (q : Q) : (0 <= q)%Q → (0 ≤ rint q)%Z.
Proof.
  intros Hq. pose proof (Qfloor_resp_le 0 q Hq) as Hf.
  pose proof (rint_bounds q). change (Qfloor 0) with 0%Z in Hf. lia.
Qed.

Lemma pow10_pos (n : Z) : (0 ≤ n)%Z → (0 < inject_Z (10 ^ n))%Q.
Proof.
  intros Hn. change 0%Q with (inject_Z 0). rewrite <- Zlt_Qlt.
  by apply Z.pow_pos_nonneg.
Qed.

Lemma round_mono (q q' : Q) (decimals : Z) :
  (q <= q')%Q → (round q decimals <= round q' decimals)%Q.
Proof.
  intros Hq. unfold round. destruct (0 <=? decimals)%Z eqn:E.
  - apply Z.leb_le in E. pose proof (pow10_pos decimals E) as Hp.
    apply Qmult_le_compat_r; [|apply Qinv_le_0_compat; lra].
    rewrite <- Zle_Qle. apply rint_mono.
    apply Qmult_le_compat_r; [done|lra].
  - apply Z.leb_gt in E.
    pose proof (pow10_pos (- decimals) ltac:(lia)) as Hp.
    apply Qmult_le_compat_r; [|lra].
    rewrite <- Zle_Qle. apply rint_mono.
    apply Qmult_le_compat_r; [done|apply Qinv_le_0_compat; lra].
Qed.

Lemma round_nonneg (q : Q) (decimals : Z) :
  (0 <= q)%Q → (0 <= round q decimals)%Q.
Proof.
  intros Hq. unfold round. destruct (0 <=? decimals)%Z eqn:E.
  - apply Z.leb_le in E. pose proof (pow10_pos decimals E) as Hp.
    apply Qmult_le_0_compat; [|apply Qinv_le_0_compat; lra].
    change 0%Q with (inject_Z 0). rewrite <- Zle_Qle. apply rint_nonneg.
    apply Qmult_le_0_compat; lra.
  - apply Z.leb_gt in E.
    pose proof (pow10_pos (- decimals) ltac:(lia)) as Hp.
    apply Qmult_le_0_compat; [|lra].
    change 0%Q with (inject_Z 0). rewrite <- Zle_Qle. apply rint_nonneg.
    apply Qmult_le_0_compat; [done|apply Qinv_le_0_compat; lra].
Qed.

(** ** From the batch to the final normal set *)

(** Steps 2 to 5, when they return: the final normal set holds normalized
    rows of the batch. *)
Lemma steps_2_to_5_returned (s : processor) (r : ref) (d0 : DataFrame)
    (normal anomalies : ref) (s' : processor) :
  heap s !! r = Some d0 →
  steps_2_to_5 config r s = (Returned (normal, anomalies), s') →
  ∃ dn,
    heap s' !! normal = Some dn
    ∧ ∀ r', In r' (rows dn) →
        ∃ r0, In r0 (rows d0) ∧ normalized config d0 (time_at (clock s')) r0 r'.
Proof.
  intros Hd0 Hrun. unfold steps_2_to_5 in Hrun. rewrite bind_run in Hrun.
  destruct (List.find (λ col, negb (has_column col d0)) critical_fields)
    as [col|] eqn:Hfind.
  { by rewrite (steps_2_to_4_raises s r d0 col Hd0 Hfind) in Hrun. }
  destruct (steps_2_to_4_cases s r d0 Hd0 Hfind)
    as [(msg & s0 & Hrun3 & _)|(r3 & s3 & d & k & Hrun3 & Hd & Hcols & Hrows & _)];
    [by rewrite Hrun3 in Hrun|].
  rewrite Hrun3, (detect_anomalies_run s3 r3 d Hd) in Hrun. cbv zeta in Hrun.
  destruct (handle_outliers config); cbn [negb] in Hrun.
  - destruct (has_column "bank_id" d); cbn [negb] in Hrun; [|done].
    destruct (has_column "amount" d); cbn [negb] in Hrun; [|done].
    assert (∀ r', In r' (rows (normal_set config d)) →
              ∃ r0, In r0 (rows d0) ∧ normalized config d0 (time_at (clock s3)) r0 r')
      as Hnormal.
    { intros r' Hr'. rewrite rows_normal_set in Hr'.
      apply in_map_iff in Hr' as (x & <- & Hx). apply filter_In in Hx as [Hx _].
      destruct (Hrows x Hx) as (r0 & Hr0 & Hnorm). exists r0. split; [done|].
      apply (normalized_scored d0 _ r0 x); [done|].
      eapply agree_off_trans; [apply agree_off_insert|apply agree_off_delete];
        simpl; auto. }
    destruct (0 <? len (anomaly_set config d))%nat;
      injection Hrun as <- <- <-; eexists;
      (split; [simpl heap; apply lookup_app_l_Some, lookup_alloc|]);
      [|exact Hnormal].
    intros r' Hr'. destruct (Hnormal r' Hr') as (r0 & Hr0 & Hnorm).
    exists r0. split; [done|]. apply (normalized_later d0 (time_at (clock s3))); [|done].
    apply time_mono. simpl. lia.
  - injection Hrun as <- <- <-. exists d.
    split; [simpl heap; by apply lookup_alloc_old|]. exact Hrows.
Qed.

(** C2, as the code has it.  Every record of the final normal set stems
    from a record of the batch whose coerced amount is in (0, max]; it
    carries that amount rounded to [currency_precision] places, which is
    at least 0 and at most the rounded maximum; its transaction_date is
    NaT or not after the processing time; the fields no stage writes are
    those of the record it stems from.  In particular no record stems from
    one with amount -5. *)
Theorem C2_surviving_records (s : processor) (r : ref) (d0 : DataFrame)
    (normal anomalies : ref) :
  heap s !! r = Some d0 →
  (steps_2_to_5 config r s).1 = Returned (normal, anomalies) →
  let s' := (steps_2_to_5 config r s).2 in
  ∃ dn,
    heap s' !! normal = Some dn
    ∧ ∀ r', In r' (rows dn) →
        ∃ r0 q,
          In r0 (rows d0)
          ∧ agree_off rewritten_columns r0 r'
          ∧ to_numeric (cell r0 "amount") = VNum q
          ∧ (0 < q)%Q ∧ (q <= max_transaction_amount config)%Q
          ∧ ¬ (q == -5)%Q
          ∧ cell r' "amount" = VNum (round q (currency_precision config))
          ∧ (0 <= round q (currency_precision config))%Q
          ∧ (round q (currency_precision config)
             <= round (max_transaction_amount config) (currency_precision config))%Q
          ∧ (has_column "transaction_date" d0 = true →
             cell r' "transaction_date" = to_datetime (cell r0 "transaction_date")
             ∧ not_future (time_at (clock s')) (cell r' "transaction_date")).
Proof.
  intros Hd0 Hrun s'.
  assert (steps_2_to_5 config r s = (Returned (normal, anomalies), s')) as Hrun'.
  { subst s'. by destruct (steps_2_to_5 config r s) as [o s1]; simpl in *; subst. }
  destruct (steps_2_to_5_returned s r d0 normal anomalies s' Hd0 Hrun')
    as (dn & Hdn & Hrows).
  exists dn. split; [exact Hdn|]. intros r' Hr'.
  destruct (Hrows r' Hr') as (r0 & Hr0 & Hagree & (q & Hnum & Hpos & Hmax & Hq) & Hdate & _).
  exists r0, q. repeat (split; [done|]).
  split; [intros Hneg; rewrite Hneg in Hpos; lra|].
  split; [done|]. split; [apply round_nonneg; lra|].
  split; [by apply round_mono|]. exact Hdate.
Qed.

(** C10. The range check of the normalizer does not read
    [min_transaction_amount]: the normalizer runs alike under any other
    minimum, the check keeps exactly the records with
    0 < amount <= max_transaction_amount, and so a record with
    0 < amount < min_transaction_amount (and at most the maximum) survives
    it. *)
Theorem C10_min_amount_unused (m : Q) (d : DataFrame) :
  (∀ r s, validate_column_types (with_min m config) r s
          = validate_column_types config r s)
  ∧ validate_amount_ranges (with_min m config) d = validate_amount_ranges config d
  ∧ (∀ x, In x (rows (validate_amount_ranges config (convert_amounts d)))
          ↔ In x (rows (convert_amounts d))
            ∧ ∃ q, cell x "amount" = VNum q
                   ∧ (0 < q)%Q ∧ (q <= max_transaction_amount config)%Q)
  ∧ (∀ x q, In x (rows (convert_amounts d)) → cell x "amount" = VNum q →
            (0 < q)%Q → (q < min_transaction_amount config)%Q →
            (q <= max_transaction_amount config)%Q →
            In x (rows (validate_amount_ranges config (convert_amounts d)))).
Proof.
  split; [done|]. split; [done|]. split.
  - intros x. split.
    + intros Hin.
      assert (In x (rows (convert_amounts d))) as Hc.
      { revert Hin. unfold validate_amount_ranges. cbv zeta.
        destruct (0 <? _)%nat; [|done]. intros Hin. by apply In_select in Hin as []. }
      destruct (convert_amounts_rows d x Hc) as (x0 & q & _ & _ & _ & Hq).
      apply (validate_amount_ranges_rows _ _ q Hq) in Hin. split; [done|].
      exists q. tauto.
    + intros (Hin & q & Hq & Hpos & Hmax).
      by apply (validate_amount_ranges_rows _ _ q Hq).
  - intros x q Hin Hq Hpos _ Hmax.
    by apply (validate_amount_ranges_rows _ _ q Hq).
Qed.

(** ** Schema validator *)

Lemma validate_schema_run (s : processor) (r : ref) (d : DataFrame) :
  heap s !! r = Some d →
  validate_schema config r s
  = (Returned ((length (schema_errors config d) =? 0)%nat, schema_errors config d),
     mkProcessor (heap s) (quality_report s) (clock s)
                 (entered s ++ [m_validate_schema])).
Proof.
  intros Hd. unfold validate_schema. do 2 step.
  unfold mret, M_ret, schema_errors. fold (missing_columns config d).
  by destruct (negb _), (empty d).
Qed.

(** The validator fails exactly on a batch that lacks a required column or
    is empty. *)
Lemma schema_errors_spec (d : DataFrame) :
  schema_errors config d ≠ []
  ↔ (∃ col, In col (required_columns config) ∧ col ∉ columns d)
    ∨ empty d = true.
Proof.
  unfold schema_errors. split.
  - intros Hne. destruct (missing_columns config d) as [|col l] eqn:Em.
    + right. simpl in Hne. by destruct (empty d).
    + left. exists col.
      assert (In col (missing_columns config d)) as Hin by (rewrite Em; simpl; auto).
      apply filter_In in Hin as [Hin Hc]. split; [done|].
      apply negb_true_iff in Hc. unfold has_column in Hc.
      by apply bool_decide_eq_false in Hc.
  - intros [(col & Hin & Hc)|He].
    + assert (In col (missing_columns config d)) as Hm.
      { apply filter_In. split; [done|]. apply negb_true_iff.
        unfold has_column. by apply bool_decide_eq_false. }
      destruct (missing_columns config d); [done|]. simpl. done.
    + rewrite He. by destruct (negb _).
Qed.

Lemma schema_errors_empty (d : DataFrame) :
  empty d = true → In "Dataframe is empty" (schema_errors config d).
Proof.
  intros He. unfold schema_errors. rewrite He. apply in_or_app. right.
  simpl. auto.
Qed.

(** ** What a computation can raise *)

Lemma raises_only_bind {A B : Type} (P : exn → Prop) (m : M A) (f : A → M B) :
  raises_only P m → (∀ a, raises_only P (f a)) → raises_only P (m ≫= f).
Proof.
  intros Hm Hf s e s' Hrun. rewrite bind_run in Hrun.
  destruct (m s) as [[a|e0] s0] eqn:E.
  - by apply (Hf a s0 e s').
  - injection Hrun as <- <-. by apply (Hm s e0 s0).
Qed.

Lemma raises_only_ret {A : Type} (P : exn → Prop) (a : A) :
  raises_only P (mret a).
Proof. by intros s e s' Hrun. Qed.

Lemma raises_only_raise {A : Type} (P : exn → Prop) (e : exn) :
  P e → raises_only P (raise (A := A) e).
Proof. intros He s e' s' [= <- <-]. done. Qed.

Lemma raises_only_load (r : ref) : raises_only downstream_error (load r).
Proof.
  intros s e s' Hrun. unfold load in Hrun.
  destruct (heap s !! r); [done|]. injection Hrun as <- <-. constructor.
Qed.

Lemma raises_only_getitem (d : DataFrame) (col : string) :
  raises_only downstream_error (getitem d col).
Proof.
  unfold getitem. destruct (has_column col d).
  - apply raises_only_ret.
  - apply raises_only_raise. constructor.
Qed.

Lemma raises_only_for_each {A : Type} (P : exn → Prop) (l : list A)
    (body : A → M unit) :
  (∀ x, raises_only P (body x)) → raises_only P (for_each l body).
Proof.
  intros Hbody. induction l as [|x l IH]; simpl.
  - apply raises_only_ret.
  - apply raises_only_bind; [apply Hbody|]. intros _. exact IH.
Qed.

Lemma raises_only_total {A : Type} (P : exn → Prop) (m : M A) :
  (∀ s, ∃ a s', m s = (Returned a, s')) → raises_only P m.
Proof. intros Hm s e s' Hrun. destruct (Hm s) as (a & s0 & E). congruence. Qed.

(** The effects that raise nothing. *)
Ltac total := apply raises_only_total; intros ?; by do 2 eexists.

(** Going through a computation, effect by effect. *)
Ltac raises :=
  repeat first
    [ apply raises_only_ret
    | apply raises_only_load
    | apply raises_only_getitem
    | apply raises_only_raise; constructor
    | apply raises_only_for_each; intros ?
    | apply raises_only_bind; [|intros ?]
    | match goal with
      | |- raises_only _ (if ?b then _ else _) => destruct b
      | |- raises_only _ (match ?o with Some _ => _ | None => _ end) => destruct o
      | |- raises_only _ (let '(_, _) := ?p in _) => destruct p
      end
    | total ].

Lemma clean_null_values_raises (r : ref) :
  raises_only downstream_error (clean_null_values r).
Proof. unfold clean_null_values. raises. Qed.

Lemma validate_column_types_raises (r : ref) :
  raises_only downstream_error (validate_column_types config r).
Proof. unfold validate_column_types, validate_dates. raises. Qed.

Lemma detect_duplicates_raises (r : ref) :
  raises_only downstream_error (detect_duplicates config r).
Proof. unfold detect_duplicates. raises. Qed.

Lemma detect_anomalies_raises (r : ref) :
  raises_only downstream_error (detect_anomalies config r).
Proof. unfold detect_anomalies. raises. Qed.

Lemma generate_quality_report_raises (ro rc ra : ref) :
  raises_only downstream_error (generate_quality_report config ro rc ra).
Proof. unfold generate_quality_report. raises. Qed.

Lemma aggregate_daily_transactions_raises (r : ref) :
  raises_only downstream_error (aggregate_daily_transactions r).
Proof. unfold aggregate_daily_transactions. raises. Qed.

Lemma steps_2_to_5_raises (r : ref) :
  raises_only downstream_error (steps_2_to_5 config r).
Proof.
  unfold steps_2_to_5, steps_2_to_4.
  apply raises_only_bind; [|intros ?; apply detect_anomalies_raises].
  apply raises_only_bind; [apply clean_null_values_raises|intros ?].
  apply raises_only_bind; [apply validate_column_types_raises|intros ?].
  apply detect_duplicates_raises.
Qed.

Lemma steps_6_to_7_raises (original : ref) (split : ref * ref) :
  raises_only downstream_error (steps_6_to_7 config original split).
Proof.
  unfold steps_6_to_7. destruct split as [final anomalies].
  apply raises_only_bind; [apply generate_quality_report_raises|intros ?].
  apply raises_only_bind; [apply aggregate_daily_transactions_raises|intros ?].
  apply raises_only_ret.
Qed.

Lemma downstream_not_schema (e : exn) (errors : list string) :
  downstream_error e → e ≠ schema_failure errors.
Proof. intros [col| | |msg]; unfold schema_failure; discriminate. Qed.

(** ** Orchestrator *)

Lemma bind_assoc_run {A B C : Type} (m : M A) (f : A → M B) (g : B → M C)
    (s : processor) :
  ((m ≫= f) ≫= g) s = (m ≫= λ a, f a ≫= g) s.
Proof. rewrite !bind_run. by destruct (m s) as [[a|e] s0]. Qed.

(** On a batch the validator rejects, the orchestrator raises at once: the
    batch was copied, the validator was entered, and nothing else ran. *)
Lemma process_rejected (s : processor) (r : ref) (d : DataFrame) :
  heap s !! r = Some d → schema_errors config d ≠ [] →
  process_banking_data config r s
  = (Raised (schema_failure (schema_errors config d)),
     mkProcessor (heap s ++ [d]) (quality_report s) (clock s)
                 (entered s ++ [m_validate_schema])).
Proof.
  intros Hd Herr. unfold process_banking_data. do 2 step.
  rewrite bind_run, (validate_schema_run _ r d) by (by apply lookup_alloc_old).
  cbv beta iota. destruct (schema_errors config d) as [|e l]; [done|].
  change (negb (length (e :: l) =? 0)%nat) with true. reflexivity.
Qed.

(** On a batch the validator accepts, the orchestrator goes on with steps
    2 to 7. *)
Lemma process_accepted (s : processor) (r : ref) (d : DataFrame) :
  heap s !! r = Some d → schema_errors config d = [] →
  process_banking_data config r s
  = (steps_2_to_5 config r ≫= steps_6_to_7 config (length (heap s)))
      (mkProcessor (heap s ++ [d]) (quality_report s) (clock s)
                   (entered s ++ [m_validate_schema])).
Proof.
  intros Hd Herr. unfold process_banking_data. do 2 step.
  rewrite bind_run, (validate_schema_run _ r d) by (by apply lookup_alloc_old).
  cbv beta iota. rewrite Herr.
  change (negb (length (@nil string) =? 0)%nat) with false. cbv iota.
  unfold steps_2_to_5, steps_2_to_4, steps_6_to_7. simpl heap.
  set (s1 := mkProcessor _ _ _ _).
  rewrite !bind_assoc_run. rewrite !bind_run.
  destruct (clean_null_values r s1) as [[r1|e] s2]; [|done].
  rewrite !bind_assoc_run. rewrite !bind_run.
  destruct (validate_column_types config r1 s2) as [[r2|e] s3]; [|done].
  rewrite !bind_run.
  destruct (detect_duplicates config r2 s3) as [[r3|e] s4]; [|done].
  destruct (detect_anomalies config r3 s4) as [[[final anomalies]|e] s5]; done.
Qed.

(** ** Aggregator *)

Lemma to_datetime_raise_converted (v : value) :
  is_Some (to_datetime_raise (to_datetime v)).
Proof.
  destruct (to_datetime_cases v) as [->|[t ->]]; simpl; eauto.
Qed.

Lemma for_each_dates (l : list row) (s : processor) :
  (∀ x, In x l → is_Some (to_datetime_raise (cell x "transaction_date"))) →
  for_each l
    (λ x, match to_datetime_raise (cell x "transaction_date") with
          | Some _ => mret ()
          | None => raise (ValueError "Unknown datetime string format")
          end) s
  = (Returned (), s).
Proof.
  intros Hall. induction l as [|x l IH]; [done|].
  cbn [for_each]. rewrite bind_run. destruct (Hall x) as [v ->]; [simpl; auto|].
  unfold mret at 1, M_ret at 1. apply IH. intros y Hy. apply Hall. simpl. auto.
Qed.

(** The aggregator returns on a batch that has the columns it reads, no
    transaction_type column, and dates that convert. *)
Lemma aggregate_daily_transactions_returns (s : processor) (r : ref) (d : DataFrame) :
  heap s !! r = Some d →
  (∀ col, In col pipeline_columns → has_column col d = true) →
  has_column "transaction_type" d = false →
  (∀ x, In x (rows d) → is_Some (to_datetime_raise (cell x "transaction_date"))) →
  ∃ aggregated s',
    aggregate_daily_transactions r s = (Returned aggregated, s')
    ∧ is_Some (heap s' !! aggregated)
    ∧ (∀ r0, is_Some (heap s !! r0) → is_Some (heap s' !! r0))
    ∧ quality_report s' = quality_report s.
Proof.
  intros Hd Hcols Htt Hdates. unfold aggregate_daily_transactions.
  do 2 step.
  rewrite (Hcols "transaction_date") by (simpl; auto).
  rewrite bind_assoc_run, bind_run, for_each_dates by done. cbv beta iota.
  step. rewrite bind_run. unfold load at 1. simpl heap.
  rewrite list_lookup_insert_eq by (by eapply lookup_lt_Some).
  cbv beta iota.
  set (d' := assign "transaction_date" _ d).
  assert (columns d' = columns d) as Hc.
  { apply columns_assign, Hcols. simpl. auto. }
  set (s1 := mkProcessor _ _ _ _).
  assert (∀ col, has_column col d' = has_column col d) as Hhas.
  { intros col. by apply has_column_ext. }
  rewrite bind_run, for_each_getitem.
  assert (List.find (λ col, negb (has_column col d'))
            ["bank_id"; "transaction_date"] = None) as ->.
  { apply find_missing_none. intros col Hin. rewrite Hhas. apply Hcols.
    simpl in *. tauto. }
  cbv beta iota. unfold agg_funcs. rewrite Hhas, Htt.
  rewrite bind_run, for_each_getitem.
  assert (List.find (λ col, negb (has_column col d'))
            (map fst
               ([("amount", ["sum"; "count"; "mean"; "std"; "median"; "min"; "max"]);
                 ("customer_id", ["nunique"]); ("transaction_id", ["nunique"])]
                ++ [])) = None) as ->.
  { apply find_missing_none. intros col Hin. rewrite Hhas. apply Hcols.
    simpl in *. tauto. }
  cbv beta iota. rewrite bind_run.
  lazymatch goal with
  | |- context [if ?c then raise _ else _] => replace c with false by reflexivity
  end.
  unfold mret at 1, M_ret at 1. cbv beta iota.
  do 2 step. unfold alloc. do 2 eexists. split; [reflexivity|].
  simpl. split; [rewrite lookup_alloc; eauto|]. split; [|done].
  intros r0 Hr0. apply lookup_lt_is_Some. apply lookup_lt_is_Some in Hr0.
  rewrite length_app, length_insert. lia.
Qed.

Lemma has_column_normal_set (d : DataFrame) (col : string) :
  col ≠ "amount_zscore" → has_column col (normal_set config d) = has_column col d.
Proof.
  intros Hne. unfold has_column, normal_set, scored, drop, select, assign. simpl.
  apply bool_decide_ext. rewrite !list_elem_of_In, filter_In.
  rewrite negb_true_iff, bool_decide_eq_false.
  destruct (has_column "amount_zscore" d).
  - tauto.
  - rewrite in_app_iff. simpl. split; [|tauto].
    intros [[Hin|[Heq|[]]] _]; [done|]. congruence.
Qed.

(** Steps 2 to 5 on a batch that has the critical columns: they raise on
    dates with a time zone, or return the final normal set and the
    anomalies; they leave the frames that existed before as they are. *)
Lemma steps_2_to_5_cases (s : processor) (r : ref) (d0 : DataFrame) :
  heap s !! r = Some d0 →
  List.find (λ col, negb (has_column col d0)) critical_fields = None →
  (∃ msg s',
     steps_2_to_5 config r s = (Raised (TypeError msg), s')
     ∧ naive_dates d0 = false
     ∧ (∀ r0 d, heap s !! r0 = Some d → heap s' !! r0 = Some d)
     ∧ quality_report s' = quality_report s)
  ∨ ∃ normal anomalies s' dn da,
      steps_2_to_5 config r s = (Returned (normal, anomalies), s')
      ∧ heap s' !! normal = Some dn
      ∧ heap s' !! anomalies = Some da
      ∧ (∀ col, col ≠ "amount_zscore" → has_column col dn = has_column col d0)
      ∧ (∀ x, In x (rows dn) →
           ∃ x0, In x0 (rows d0) ∧ normalized config d0 (time_at (clock s')) x0 x)
      ∧ (∀ r0 d, heap s !! r0 = Some d → heap s' !! r0 = Some d)
      ∧ quality_report s' = quality_report s.
Proof.
  intros Hd0 Hfind.
  destruct (steps_2_to_4_cases s r d0 Hd0 Hfind)
    as [(msg & s0 & Hrun3 & Hno & Hext & Hqr & _)
       |(r3 & s3 & d & k & Hrun3 & Hd & Hcols & _ & Hext & Hr3 & Hqr & _)].
  { left. exists msg, s0. unfold steps_2_to_5. by rewrite bind_run, Hrun3. }
  right.
  assert (∃ normal anomalies s' dn da,
            detect_anomalies config r3 s3 = (Returned (normal, anomalies), s')
            ∧ heap s' !! normal = Some dn
            ∧ heap s' !! anomalies = Some da
            ∧ (∀ col, col ≠ "amount_zscore" → has_column col dn = has_column col d)
            ∧ (∀ r0 d1, (r0 < r3)%nat → heap s3 !! r0 = Some d1 →
                        heap s' !! r0 = Some d1)
            ∧ quality_report s' = quality_report s3)
    as (normal & anomalies & s' & dn & da & Hrun & Hdn & Hda & Hhas & Hold & Hqr').
  { rewrite (detect_anomalies_run s3 r3 d Hd). cbv zeta.
    apply critical_columns in Hfind as (Hb & _ & Ha).
    destruct (handle_outliers config); cbn [negb].
    - rewrite !(has_column_ext _ d0 d), Hb, Ha by done. cbn [negb].
      destruct (0 <? len (anomaly_set config d))%nat;
        do 5 eexists; (split; [reflexivity|]); simpl heap;
        (split; [apply lookup_app_l_Some, lookup_alloc|]);
        (split; [apply lookup_alloc|]);
        (split; [intros col Hcol; by apply has_column_normal_set|]);
        (split; [|done]);
        intros r0 d1 Hlt Hr0;
        apply lookup_app_l_Some, lookup_app_l_Some;
        rewrite list_lookup_insert_ne by lia; done.
    - do 5 eexists. split; [reflexivity|]. simpl heap.
      split; [by apply lookup_alloc_old|]. split; [apply lookup_alloc|].
      split; [done|]. split; [|done].
      intros r0 d1 _ Hr0. by apply lookup_alloc_old. }
  assert (steps_2_to_5 config r s = (Returned (normal, anomalies), s')) as Hsteps.
  { unfold steps_2_to_5. by rewrite bind_run, Hrun3. }
  exists normal, anomalies, s', dn, da. split; [exact Hsteps|].
  split; [exact Hdn|]. split; [exact Hda|].
  split; [intros col Hcol; by rewrite Hhas, (has_column_ext _ d0 d)|].
  split; [|split].
  - destruct (steps_2_to_5_returned s r d0 normal anomalies s' Hd0 Hsteps)
      as (dn' & Hdn' & Hrows).
    rewrite Hdn in Hdn'. by injection Hdn' as <-.
  - intros r0 d1 Hr0. apply Hold; [|by apply Hext].
    apply lookup_lt_Some in Hr0. lia.
  - by rewrite Hqr'.
Qed.

Lemma steps_2_to_5_returns (s : processor) (r : ref) (d0 : DataFrame) :
  heap s !! r = Some d0 →
  List.find (λ col, negb (has_column col d0)) critical_fields = None →
  naive_dates d0 = true →
  ∃ normal anomalies s' dn da,
    steps_2_to_5 config r s = (Returned (normal, anomalies), s')
    ∧ heap s' !! normal = Some dn
    ∧ heap s' !! anomalies = Some da
    ∧ (∀ col, col ≠ "amount_zscore" → has_column col dn = has_column col d0)
    ∧ (∀ x, In x (rows dn) →
         ∃ x0, In x0 (rows d0) ∧ normalized config d0 (time_at (clock s')) x0 x)
    ∧ (∀ r0 d, heap s !! r0 = Some d → heap s' !! r0 = Some d)
    ∧ quality_report s' = quality_report s.
Proof.
  intros Hd0 Hfind Hnaive.
  destruct (steps_2_to_5_cases s r d0 Hd0 Hfind)
    as [(msg & s' & _ & Hno & _)|Hrun]; [congruence|exact Hrun].
Qed.

(** Steps 6 and 7 return when the final normal set has the columns the
    aggregator reads, no transaction_type column and dates that convert. *)
Lemma steps_6_to_7_returns (s : processor) (original normal anomalies : ref)
    (o dn da : DataFrame) :
  heap s !! original = Some o → heap s !! normal = Some dn →
  heap s !! anomalies = Some da →
  (∀ col, In col pipeline_columns → has_column col dn = true) →
  has_column "transaction_type" dn = false →
  (∀ x, In x (rows dn) → is_Some (to_datetime_raise (cell x "transaction_date"))) →
  ∃ aggregated report s',
    steps_6_to_7 config original (normal, anomalies) s
    = (Returned (aggregated, report, anomalies), s')
    ∧ is_Some (heap s' !! aggregated)
    ∧ is_Some (heap s' !! anomalies)
    ∧ quality_report s' = Some report.
Proof.
  intros Ho Hdn Hda Hcols Htt Hdates. unfold steps_6_to_7.
  destruct (generate_quality_report_run s original normal anomalies o dn da Ho Hdn Hda)
    as (report & Hrun & _).
  rewrite bind_run, Hrun. cbv beta iota.
  set (s1 := mkProcessor _ _ _ _).
  destruct (aggregate_daily_transactions_returns s1 normal dn Hdn Hcols Htt Hdates)
    as (aggregated & s' & Hagg & Hsome & Hkeep & Hqr).
  rewrite bind_run, Hagg. cbv beta iota.
  exists aggregated, report, s'. split; [reflexivity|]. split; [done|].
  split; [|done]. apply Hkeep. subst s1. simpl. eauto.
Qed.

Lemma steps_2_to_5_missing (s : processor) (r : ref) (d0 : DataFrame)
    (col : string) :
  heap s !! r = Some d0 →
  List.find (λ col, negb (has_column col d0)) critical_fields = Some col →
  ∃ s', steps_2_to_5 config r s = (Raised (KeyError col), s').
Proof.
  intros Hd0 Hfind. unfold steps_2_to_5.
  rewrite bind_run, (steps_2_to_4_raises s r d0 col Hd0 Hfind). eauto.
Qed.

(** The report of a run that returns: [total_records] is the size of the
    batch, [valid_records] the size of the final normal set, and the score
    is computed from the two. *)
Lemma process_report_counts (s : processor) (r : ref) (d : DataFrame)
    (aggregated anomalies : ref) (report : DataQualityReport) (s' : processor) :
  heap s !! r = Some d →
  process_banking_data config r s = (Returned (aggregated, report, anomalies), s') →
  ∃ normal s5 dn,
    steps_2_to_5 config r
      (mkProcessor (heap s ++ [d]) (quality_report s) (clock s)
                   (entered s ++ [m_validate_schema]))
    = (Returned (normal, anomalies), s5)
    ∧ heap s5 !! normal = Some dn
    ∧ total_records report = len d
    ∧ valid_records report = len dn
    ∧ quality_score report = round (score (len dn) (len d)) 2.
Proof.
  intros Hd Hrun.
  destruct (schema_errors config d) as [|e l] eqn:Herr.
  2: { rewrite (process_rejected s r d Hd) in Hrun by (by rewrite Herr). done. }
  rewrite (process_accepted s r d Hd Herr), bind_run in Hrun.
  set (s1 := mkProcessor (heap s ++ [d]) _ _ _) in *.
  assert (heap s1 !! r = Some d) as Hd1 by (by apply lookup_alloc_old).
  destruct (List.find (λ col, negb (has_column col d)) critical_fields)
    as [col|] eqn:Hfind.
  { destruct (steps_2_to_5_missing s1 r d col Hd1 Hfind) as [s2 E].
    by rewrite E in Hrun. }
  destruct (steps_2_to_5_cases s1 r d Hd1 Hfind)
    as [(msg & s2 & E & _)
       |(normal & anomalies' & s5 & dn & da & Hsteps & Hdn & Hda & _ & _ & Hold & _)];
    [by rewrite E in Hrun|].
  rewrite Hsteps in Hrun. unfold steps_6_to_7 in Hrun.
  assert (heap s5 !! length (heap s) = Some d) as Ho.
  { apply Hold. subst s1. simpl. apply lookup_alloc. }
  destruct (generate_quality_report_run s5 _ normal anomalies' d dn da Ho Hdn Hda)
    as (report' & Hreport & Ht & Hv & _ & Hq & _).
  rewrite bind_run, Hreport, bind_run in Hrun.
  destruct (aggregate_daily_transactions normal _) as [[agg|e] s6]; [|done].
  injection Hrun as <- <- <- <-.
  exists normal, s5, dn. by rewrite Ht, Hv, Hq.
Qed.

(** C1, as the code has it.  The orchestrator raises its descriptive
    error, which carries the validator's list of violations, exactly when
    schema validation fails, that is when the batch lacks a required column
    or is empty; on an empty batch the list holds "Dataframe is empty"; the
    raise comes before any other stage is entered and leaves no report, no
    aggregates and no anomalies.  When validation passes, a later stage can
    still raise an error of its own, never the descriptive one. *)
Theorem C1_schema_failure (s : processor) (r : ref) (d : DataFrame) :
  heap s !! r = Some d →
  let errors := schema_errors config d in
  validate_schema config r s
  = (Returned ((length errors =? 0)%nat, errors),
     mkProcessor (heap s) (quality_report s) (clock s)
                 (entered s ++ [m_validate_schema]))
  ∧ (errors ≠ []
     ↔ (∃ col, In col (required_columns config) ∧ col ∉ columns d)
       ∨ empty d = true)
  ∧ (empty d = true → In "Dataframe is empty" errors)
  ∧ (errors ≠ [] →
     process_banking_data config r s
     = (Raised (ValueError ("Schema validation failed: " +:+ repr_list errors)),
        mkProcessor (heap s ++ [d]) (quality_report s) (clock s)
                    (entered s ++ [m_validate_schema])))
  ∧ (errors = [] →
     ∀ e s', process_banking_data config r s = (Raised e, s') →
             ∀ violations,
               e ≠ ValueError ("Schema validation failed: "
                               +:+ repr_list violations)).
Proof.
  intros Hd errors.
  split; [by apply validate_schema_run|].
  split; [apply schema_errors_spec|].
  split; [apply schema_errors_empty|].
  split; [by apply process_rejected|].
  intros Herr e s' Hrun. rewrite (process_accepted s r d Hd Herr) in Hrun.
  assert (downstream_error e) as He.
  { eapply (raises_only_bind downstream_error); [| |exact Hrun].
    - apply steps_2_to_5_raises.
    - intros split. apply steps_6_to_7_raises. }
  intros violations. by apply downstream_not_schema.
Qed.

(** X24. The run returns its three results, and leaves the report in the
    processor, on a batch the validator accepts that has the five columns
    the stages read (bank_id, customer_id, amount, transaction_date,
    transaction_id), no transaction_type column and no date with a time
    zone. *)
Theorem X24_process_banking_data_returns (s : processor) (r : ref) (d : DataFrame) :
  heap s !! r = Some d →
  schema_errors config d = [] →
  (∀ col, In col pipeline_columns → has_column col d = true) →
  has_column "transaction_type" d = false →
  naive_dates d = true →
  ∃ aggregated report anomalies s',
    process_banking_data config r s
    = (Returned (aggregated, report, anomalies), s')
    ∧ is_Some (heap s' !! aggregated)
    ∧ is_Some (heap s' !! anomalies)
    ∧ quality_report s' = Some report.
Proof.
  intros Hd Herr Hcols Htt Hnaive.
  - rewrite (process_accepted s r d Hd Herr).
    set (s1 := mkProcessor (heap s ++ [d]) _ _ _).
    assert (heap s1 !! r = Some d) as Hd1 by (by apply lookup_alloc_old).
    assert (List.find (λ col, negb (has_column col d)) critical_fields = None)
      as Hfind.
    { apply find_missing_none. intros col Hin. apply Hcols.
      simpl in *. tauto. }
    destruct (steps_2_to_5_returns s1 r d Hd1 Hfind Hnaive)
      as (normal & anomalies & s2 & dn & da & Hrun & Hdn & Hda & Hhas & Hrows
          & Hold & Hqr).
    rewrite bind_run, Hrun. cbv beta iota.
    assert (heap s2 !! length (heap s) = Some d) as Ho.
    { apply Hold. subst s1. simpl. apply lookup_alloc. }
    destruct (steps_6_to_7_returns s2 (length (heap s)) normal anomalies d dn da
                Ho Hdn Hda) as (aggregated & report & s' & Hrun' & Hrest).
    + intros col Hin. rewrite Hhas; [by apply Hcols|].
      intros ->. simpl in Hin. intuition discriminate.
    + by rewrite Hhas.
    + intros x Hx. destruct (Hrows x Hx) as (x0 & _ & _ & _ & Hdate & _).
      destruct Hdate as [-> _]; [apply Hcols; simpl; auto|].
      apply to_datetime_raise_converted.
    + exists aggregated, report, anomalies, s'. by split.
Qed.

(** ** The stages that leave their input as it is *)

(** The validator, the null cleaner, the normalizer and the duplicate
    detector do not write into the batch they receive, whether they return
    or raise. *)
Lemma input_preserved (s : processor) (r : ref) (d : DataFrame) :
  heap s !! r = Some d →
  heap (validate_schema config r s).2 !! r = Some d
  ∧ heap (clean_null_values r s).2 !! r = Some d
  ∧ heap (validate_column_types config r s).2 !! r = Some d
  ∧ heap (detect_duplicates config r s).2 !! r = Some d.
Proof.
  intros Hd. split; [|split; [|split]].
  - by rewrite (validate_schema_run s r d Hd).
  - pose proof (clean_null_values_run s r d Hd) as Hrun.
    destruct (List.find _ critical_fields).
    + by rewrite Hrun.
    + destruct Hrun as (d1 & -> & _). simpl. by apply lookup_alloc_old.
  - pose proof (validate_column_types_run s r d Hd) as Hrun.
    destruct (has_column "amount" d); [destruct (aware_dates config d)|].
    + destruct Hrun as (msg & ->). done.
    + destruct Hrun as (d2 & k & -> & _). simpl. by apply lookup_alloc_old.
    + by rewrite Hrun.
  - destruct (detect_duplicates_spec s r d Hd) as (r' & s' & -> & _ & Hext & _).
    simpl. by apply Hext.
Qed.

End Properties.

(** * The statements on concrete runs *)

(** C3 on a batch of four records of which three are in the final normal
    set. *)
Lemma C3_quality_score_witness :
  let s := fresh [batch_small; batch_one; DataFrame_new] in
  heap s !! 0%nat = Some batch_small
  ∧ heap s !! 1%nat = Some batch_one
  ∧ heap s !! 2%nat = Some DataFrame_new
  ∧ ∃ report s',
      @generate_quality_report reference_pandas reference_clock
        _get_default_config 0%nat 1%nat 2%nat s = (Returned report, s')
      ∧ quality_report s' = Some report
      ∧ total_records report = len batch_small
      ∧ valid_records report = len batch_one
      ∧ ((0 < total_records report)%nat →
         quality_score report
         = round (inject_Z (Z.of_nat (valid_records report))
                  / inject_Z (Z.of_nat (total_records report)) * 100)%Q 2)
      ∧ (total_records report = 0%nat → (quality_score report == 0)%Q).
Proof.
  cbv zeta. split; [reflexivity|]. split; [reflexivity|]. split; [reflexivity|].
  apply (@C3_quality_score reference_pandas reference_clock _get_default_config
           (fresh [batch_small; batch_one; DataFrame_new]) 0%nat 1%nat 2%nat
           batch_small batch_one DataFrame_new);
    reflexivity.
Defined.

Lemma len_batch_19000 : len batch_19000 = Z.to_nat 19000.
Proof.
  unfold len, batch_19000, batch. cbn [rows]. by rewrite length_map, length_seq.
Qed.

Lemma len_batch_20001 : len batch_20001 = (Z.to_nat 19000 + Z.to_nat 1001)%nat.
Proof.
  unfold len, batch_20001, batch. cbn [rows].
  by rewrite length_app, !length_map, !length_seq.
Qed.

(** C4 as the specification states it fails: on 19000 valid records out of
    20001 the score before rounding is 94.99525..., the tier is GOOD, and
    the [quality_score] field is 95.0. *)
Lemma C4_counterexample :
  ∃ report s',
    @generate_quality_report reference_pandas reference_clock
      _get_default_config 0%nat 1%nat 2%nat
      (fresh [batch_20001; batch_19000; DataFrame_new])
    = (Returned report, s')
    ∧ (95 <= quality_score report)%Q
    ∧ quality_level report = GOOD.
Proof.
  destruct (@generate_quality_report_run reference_pandas reference_clock
              _get_default_config
              (fresh [batch_20001; batch_19000; DataFrame_new])
              0%nat 1%nat 2%nat batch_20001 batch_19000 DataFrame_new
              eq_refl eq_refl eq_refl)
    as (report & Hrun & _ & _ & _ & Hq & Hl & _).
  exists report. eexists. split; [exact Hrun|].
  rewrite Hq, Hl, len_batch_20001, len_batch_19000.
  split; [apply Qle_bool_iff|]; vm_compute; reflexivity.
Qed.

(** C4 on a batch of four records of which one is in the final normal
    set. *)
Lemma C4_quality_level_witness :
  let s := fresh [batch_small; batch_one; DataFrame_new] in
  heap s !! 0%nat = Some batch_small
  ∧ heap s !! 1%nat = Some batch_one
  ∧ heap s !! 2%nat = Some DataFrame_new
  ∧ ∃ report s',
      @generate_quality_report reference_pandas reference_clock
        _get_default_config 0%nat 1%nat 2%nat s = (Returned report, s')
      ∧ let q := score (valid_records report) (total_records report) in
        quality_score report = round q 2
        ∧ (quality_level report = EXCELLENT ↔ (95 <= q)%Q)
        ∧ (quality_level report = GOOD ↔ (85 <= q ∧ q < 95)%Q)
        ∧ (quality_level report = ACCEPTABLE ↔ (75 <= q ∧ q < 85)%Q)
        ∧ (quality_level report = POOR ↔ (q < 75)%Q).
Proof.
  cbv zeta. split; [reflexivity|]. split; [reflexivity|]. split; [reflexivity|].
  apply (@C4_quality_level reference_pandas reference_clock _get_default_config
           (fresh [batch_small; batch_one; DataFrame_new]) 0%nat 1%nat 2%nat
           batch_small batch_one DataFrame_new);
    reflexivity.
Defined.

(** C7 on a batch with a duplicate. *)
Lemma C7_detect_duplicates_idempotent_witness :
  let s := fresh [batch_small] in
  heap s !! 0%nat = Some batch_small
  ∧ ∃ r1 s1 d1 s2,
      detect_duplicates _get_default_config 0%nat s = (Returned r1, s1)
      ∧ heap s1 !! r1 = Some d1
      ∧ detect_duplicates _get_default_config r1 s1 = (Returned r1, s2)
      ∧ heap s2 = heap s1
      ∧ heap s2 !! r1 = Some d1
      ∧ (remove_duplicates _get_default_config = true →
         count_true (duplicated (available d1) d1) = 0%nat).
Proof.
  cbv zeta. split; [reflexivity|].
  apply (C7_detect_duplicates_idempotent _get_default_config
           (fresh [batch_small]) 0%nat batch_small).
  reflexivity.
Defined.

(** C8 on a batch with a duplicate. *)
Lemma C8_detect_duplicates_witness :
  let s := fresh [batch_small] in
  let d := batch_small in
  heap s !! 0%nat = Some d
  ∧ ∃ r' s' d',
      detect_duplicates _get_default_config 0%nat s = (Returned r', s')
      ∧ heap s' !! r' = Some d'
      ∧ (if remove_duplicates _get_default_config then
           (∀ col, In col (available d)
                   ↔ In col ["bank_id"; "customer_id"; "amount"; "transaction_date"]
                     ∧ col ∈ columns d)
           ∧ columns d' = columns d
           ∧ ∃ keep : list bool,
               length keep = length (rows d)
               ∧ rows d' = pick keep (rows d)
               ∧ ∀ i x, rows d !! i = Some x →
                   (keep !! i = Some false
                    ↔ ∃ j y, (j < i)%nat ∧ rows d !! j = Some y
                             ∧ same_key (available d) y x = true)
         else r' = 0%nat ∧ d' = d ∧ heap s' = heap s).
Proof.
  cbv zeta. split; [reflexivity|].
  apply (C8_detect_duplicates _get_default_config
           (fresh [batch_small]) 0%nat batch_small).
  reflexivity.
Defined.

(** What the detector does on that batch: the second record goes. *)
Example detect_duplicates_batch_small :
  let run := detect_duplicates _get_default_config 0%nat (fresh [batch_small]) in
  run.1 = Returned 1%nat
  ∧ column "transaction_id" <$> heap run.2 !! 1%nat
    = Some [VStr "T1"; VStr "T3"; VStr "T4"].
Proof. split; vm_compute; reflexivity. Qed.

(** C1 as the specification states it fails: with a configuration that
    does not require bank_id, a batch without that column passes the
    validator, and the null cleaner raises. *)
Lemma C1_counterexample :
  let s := fresh [batch_without_bank] in
  (validate_schema config_without_bank 0%nat s).1 = Returned (true, [])
  ∧ (@process_banking_data reference_pandas reference_clock
       config_without_bank 0%nat s).1
    = Raised (KeyError "bank_id").
Proof. split; vm_compute; reflexivity. Qed.

(** C1 on an empty batch. *)
Lemma C1_schema_failure_witness :
  let s := fresh [DataFrame_new] in
  let d := DataFrame_new in
  let config := _get_default_config in
  let errors := schema_errors config d in
  heap s !! 0%nat = Some d
  ∧ validate_schema config 0%nat s
    = (Returned ((length errors =? 0)%nat, errors),
       mkProcessor (heap s) (quality_report s) (clock s)
                   (entered s ++ [m_validate_schema]))
  ∧ (errors ≠ []
     ↔ (∃ col, In col (required_columns config) ∧ col ∉ columns d)
       ∨ empty d = true)
  ∧ (empty d = true → In "Dataframe is empty" errors)
  ∧ (errors ≠ [] →
     @process_banking_data reference_pandas reference_clock config 0%nat s
     = (Raised (ValueError ("Schema validation failed: " +:+ repr_list errors)),
        mkProcessor (heap s ++ [d]) (quality_report s) (clock s)
                    (entered s ++ [m_validate_schema])))
  ∧ (errors = [] →
     ∀ e s',
       @process_banking_data reference_pandas reference_clock config 0%nat s
       = (Raised e, s') →
       ∀ violations,
         e ≠ ValueError ("Schema validation failed: "
                         +:+ repr_list violations)).
Proof.
  cbv zeta. split; [reflexivity|].
  apply (@C1_schema_failure reference_pandas reference_clock
           _get_default_config (fresh [DataFrame_new]) 0%nat DataFrame_new).
  reflexivity.
Defined.

(** The orchestrator on the empty batch: both violations are reported,
    only the validator was entered, and the processor holds no report. *)
Example process_empty_batch :
  let run :=
    @process_banking_data reference_pandas reference_clock
      _get_default_config 0%nat (fresh [DataFrame_new]) in
  run.1
  = Raised (ValueError
      ("Schema validation failed: ["
       +:+ dquote
       +:+ "Missing required columns: ['transaction_id', 'bank_id', 'customer_id', 'amount', 'transaction_date']"
       +:+ dquote +:+ ", 'Dataframe is empty']"))
  ∧ entered run.2 = [m_validate_schema]
  ∧ quality_report run.2 = None
  ∧ length (heap run.2) = 2%nat.
Proof.
  cbv zeta. split; [vm_compute; reflexivity|]. split; [vm_compute; reflexivity|].
  split; vm_compute; reflexivity.
Qed.

(** The orchestrator on an accepted batch. *)
Example process_batch_small :
  let run :=
    @process_banking_data reference_pandas reference_clock
      _get_default_config 0%nat (fresh [batch_small]) in
  (∃ report, run.1 = Returned (7%nat, report, 6%nat)
             ∧ total_records report = 4%nat ∧ valid_records report = 3%nat
             ∧ quality_level report = ACCEPTABLE)
  ∧ column "total_volume" <$> heap run.2 !! 7%nat
    = Some [VNum (510000 # 100); VNum (25000 # 100)]
  ∧ column "unique_customers" <$> heap run.2 !! 7%nat
    = Some [VNum (200 # 100); VNum (100 # 100)].
Proof.
  cbv zeta. split.
  - eexists. split; [vm_compute; reflexivity|]. cbn [total_records valid_records quality_level].
    split; [reflexivity|]. split; reflexivity.
  - split; vm_compute; reflexivity.
Qed.

(** With a transaction_type column the aggregated frame has ten columns,
    and the nine names the aggregator gives them do not fit: the run raises
    after the validator accepted the batch. *)
Example process_batch_with_type :
  let s := fresh [batch_with_type] in
  (validate_schema _get_default_config 0%nat s).1 = Returned (true, [])
  ∧ (@process_banking_data reference_pandas reference_clock
       _get_default_config 0%nat s).1
    = Raised (ValueError "Length mismatch").
Proof. split; vm_compute; reflexivity. Qed.

(** C2 as the specification states it fails: a record of amount 0.001
    passes the range check and is then rounded to 0.00, and a record whose
    date does not parse stays in when no date of the batch is in the
    future; both are in the final normal set. *)
Lemma C2_counterexample :
  let s := fresh [batch_tiny_amount] in
  let run :=
    @steps_2_to_5 reference_pandas reference_clock _get_default_config 0%nat s in
  (validate_schema _get_default_config 0%nat s).1 = Returned (true, [])
  ∧ run.1 = Returned (3%nat, 4%nat)
  ∧ column "amount" <$> heap run.2 !! 3%nat
    = Some [VNum (0 # 100); VNum (5000 # 100)]
  ∧ column "transaction_date" <$> heap run.2 !! 3%nat
    = Some [VTime 5; VNull].
Proof.
  cbv zeta. split; [vm_compute; reflexivity|]. split; [vm_compute; reflexivity|].
  split; vm_compute; reflexivity.
Qed.

(** C2 on a batch with a duplicate. *)
Lemma C2_surviving_records_witness :
  let s := fresh [batch_small] in
  let d0 := batch_small in
  let config := _get_default_config in
  let run := @steps_2_to_5 reference_pandas reference_clock config 0%nat s in
  heap s !! 0%nat = Some d0
  ∧ run.1 = Returned (4%nat, 5%nat)
  ∧ ∃ dn,
      heap run.2 !! 4%nat = Some dn
      ∧ ∀ r', In r' (rows dn) →
          ∃ r0 q,
            In r0 (rows d0)
            ∧ agree_off rewritten_columns r0 r'
            ∧ @to_numeric reference_pandas (cell r0 "amount") = VNum q
            ∧ (0 < q)%Q ∧ (q <= max_transaction_amount config)%Q
            ∧ ¬ (q == -5)%Q
            ∧ cell r' "amount" = VNum (round q (currency_precision config))
            ∧ (0 <= round q (currency_precision config))%Q
            ∧ (round q (currency_precision config)
               <= round (max_transaction_amount config)
                        (currency_precision config))%Q
            ∧ (has_column "transaction_date" d0 = true →
               cell r' "transaction_date"
               = @to_datetime reference_pandas (cell r0 "transaction_date")
               ∧ not_future (@time_at reference_clock (clock run.2))
                            (cell r' "transaction_date")).
Proof.
  cbv zeta. split; [reflexivity|]. split; [vm_compute; reflexivity|].
  apply (@C2_surviving_records reference_pandas reference_clock
           _get_default_config (fresh [batch_small]) 0%nat batch_small
           4%nat 5%nat).
  - reflexivity.
  - vm_compute. reflexivity.
Defined.

(** C5 on a batch with a duplicate. *)
Lemma C5_anomaly_partition_witness :
  let s := fresh [batch_small] in
  let config := _get_default_config in
  heap s !! 0%nat = Some batch_small
  ∧ ∃ r3 s3 d,
      @steps_2_to_4 reference_pandas reference_clock config 0%nat s
      = (Returned r3, s3)
      ∧ heap s3 !! r3 = Some d
      ∧ ∃ normal anomalies s4 dn da,
          @detect_anomalies reference_pandas reference_clock config r3 s3
          = (Returned (normal, anomalies), s4)
          ∧ heap s4 !! normal = Some dn
          ∧ heap s4 !! anomalies = Some da
          ∧ if handle_outliers config then
              ∃ mask : list bool,
                length mask = length (rows d)
                ∧ map untag (rows dn) = pick mask (map untag (rows d))
                ∧ map untag (rows da) = pick (map negb mask) (map untag (rows d))
                ∧ (len dn + len da = len d)%nat
            else normal = r3 ∧ dn = d ∧ da = DataFrame_new.
Proof.
  cbv zeta.
  assert (∀ col, In col ["bank_id"; "customer_id"; "amount"] →
                 has_column col batch_small = true) as Hcols.
  { intros col [<-|[<-|[<-|[]]]]; vm_compute; reflexivity. }
  split; [reflexivity|].
  destruct (@C5_anomaly_partition reference_pandas reference_clock
              _get_default_config (fresh [batch_small]) 0%nat batch_small eq_refl)
    as [Hreturns Hsplit].
  destruct (Hreturns Hcols eq_refl) as (r3 & s3 & Hrun).
  destruct (Hsplit r3 s3 Hrun) as (d & Hd & Hsets).
  exists r3, s3, d. split; [exact Hrun|]. split; [exact Hd|]. exact Hsets.
Defined.

(** C6 on a batch of one record: its partition has a single record, its
    z-score is 0, and the detector returns no anomaly of that partition. *)
Lemma C6_zero_std_partition_witness :
  let x := transaction "T1" "BNK001" "C1" (VNum 100) (VTime 5) in
  let config := _get_default_config in
  length (group_amounts batch_one (cell x "bank_id")) = 1%nat
  ∧ @zero_std reference_pandas batch_one x
  ∧ @amount_zscore reference_pandas batch_one x = VNum 0
  ∧ ∃ normal anomalies s' da,
      @detect_anomalies reference_pandas reference_clock config 0%nat
        (fresh [batch_one])
      = (Returned (normal, anomalies), s')
      ∧ heap s' !! anomalies = Some da
      ∧ ∀ a, In a (rows da) → ¬ @zero_std reference_pandas batch_one a.
Proof.
  cbv zeta.
  destruct (@C6_zero_std_partition reference_pandas reference_clock
              _get_default_config batch_one) as (Hsingle & Hzero & Hdetect).
  assert (length (group_amounts batch_one
                    (cell (transaction "T1" "BNK001" "C1" (VNum 100) (VTime 5))
                          "bank_id")) = 1%nat) as Hone
    by (vm_compute; reflexivity).
  split; [exact Hone|]. split; [by apply Hsingle|].
  split; [apply Hzero; [vm_compute; reflexivity|by apply Hsingle]|].
  apply Hdetect.
  - reflexivity.
  - vm_compute. reflexivity.
  - vm_compute. reflexivity.
  - reflexivity.
  - apply Qle_bool_iff. vm_compute. reflexivity.
Defined.

(** C6 as the specification states it fails, twice.  With a negative
    threshold the single record of a partition, whose z-score is the 0 of
    the guard, is an anomaly.  And a single distinct amount does not make
    the deviation zero: in binary64 the amounts 0.1, 0.1, 0.1 have the mean
    0.10000000000000002 and the deviation 1.7e-17, which is positive; each
    record gets the z-score 0.816, and with the threshold 0.5 the three
    records are anomalies. *)
Lemma C6_counterexample :
  (let x := transaction "T1" "BNK001" "C1" (VNum 100) (VTime 5) in
   let config := with_threshold (-1) _get_default_config in
   let run :=
     @detect_anomalies reference_pandas reference_clock config 0%nat
       (fresh [batch_one]) in
   rows batch_one = [x]
   ∧ @zero_std reference_pandas batch_one x
   ∧ run.1 = Returned (1%nat, 2%nat)
   ∧ column "transaction_id" <$> heap run.2 !! 2%nat = Some [VStr "T1"]
   ∧ column "amount_zscore" <$> heap run.2 !! 2%nat = Some [VNum 0])
  ∧ (let x :=
       transaction "T1" "BNK001" "C1" (VNum (binary64 (1 # 10))) (VTime 5) in
     let amounts := group_amounts batch_tenths (cell x "bank_id") in
     let config := with_threshold (1 # 2) _get_default_config in
     let run :=
       @detect_anomalies binary64_pandas reference_clock config 0%nat
         (fresh [batch_tenths]) in
     In x (rows batch_tenths)
     ∧ amounts = [binary64 (1 # 10); binary64 (1 # 10); binary64 (1 # 10)]
     ∧ (∃ m sd,
          @Series_mean binary64_pandas amounts = Some m
          ∧ @Series_std binary64_pandas amounts = Some sd
          ∧ (m == 7205759403792795 # 72057594037927936)%Q
          ∧ (sd == 2757880273211543 # 162259276829213363391578010288128)%Q
          ∧ (0 < sd)%Q)
     ∧ ¬ @zero_std binary64_pandas batch_tenths x
     ∧ (∃ z, @amount_zscore binary64_pandas batch_tenths x = VNum z
             ∧ (816 # 1000 < z)%Q ∧ (z < 817 # 1000)%Q)
     ∧ run.1 = Returned (1%nat, 2%nat)
     ∧ column "transaction_id" <$> heap run.2 !! 2%nat
       = Some [VStr "T1"; VStr "T2"; VStr "T3"]).
Proof.
  cbv zeta. split.
  - split; [reflexivity|]. split; [vm_compute; exact I|].
    split; [vm_compute; reflexivity|]. split; vm_compute; reflexivity.
  - split; [simpl; auto|]. split; [vm_compute; reflexivity|]. split.
    { do 2 eexists. split; [reflexivity|]. split; [reflexivity|].
      split; [apply Qeq_bool_iff; vm_compute; reflexivity|].
      split; [apply Qeq_bool_iff; vm_compute; reflexivity|].
      apply Qltb_lt. vm_compute. reflexivity. }
    split.
    { unfold zero_std.
      change (group_amounts batch_tenths _)
        with (group_amounts batch_tenths (VStr "BNK001")).
      assert (group_amounts batch_tenths (VStr "BNK001")
              = [binary64 (1 # 10); binary64 (1 # 10); binary64 (1 # 10)]) as ->
        by (vm_compute; reflexivity).
      cbn [Series_std]. intros Hnot. apply Hnot.
      apply Qltb_lt. vm_compute. reflexivity. }
    split.
    { eexists. split; [vm_compute; reflexivity|].
      split; apply Qltb_lt; vm_compute; reflexivity. }
    split; vm_compute; reflexivity.
Qed.

(** C9 fails on the code: the anomaly detector leaves its score column in
    the batch it received, and the aggregator replaces the timestamps of
    the batch it received by dates. *)
Theorem C9_stages_write_their_input :
  let s := fresh [batch_one] in
  let detected :=
    @detect_anomalies reference_pandas reference_clock _get_default_config
      0%nat s in
  let aggregated :=
    @aggregate_daily_transactions reference_pandas reference_clock 0%nat s in
  (columns <$> heap s !! 0%nat
   = Some ["transaction_id"; "bank_id"; "customer_id"; "amount";
           "transaction_date"]
   ∧ detected.1 = Returned (1%nat, 2%nat)
   ∧ columns <$> heap detected.2 !! 0%nat
     = Some ["transaction_id"; "bank_id"; "customer_id"; "amount";
             "transaction_date"; "amount_zscore"]
   ∧ column "amount_zscore" <$> heap detected.2 !! 0%nat = Some [VNum 0])
  ∧ (column "transaction_date" <$> heap s !! 0%nat = Some [VTime 5]
     ∧ aggregated.1 = Returned 1%nat
     ∧ column "transaction_date" <$> heap aggregated.2 !! 0%nat
       = Some [VDate 0]).
Proof.
  cbv zeta. split.
  - split; [vm_compute; reflexivity|]. split; [vm_compute; reflexivity|].
    split; vm_compute; reflexivity.
  - split; [vm_compute; reflexivity|]. split; vm_compute; reflexivity.
Qed.

(** The same in general: with [handle_outliers] set, the batch the
    detector received holds the score column once the detector returns. *)
Lemma detect_anomalies_writes_input `{Pandas} `{Clock} (config : Config)
    (s : processor) (r : ref) (d : DataFrame) (split : ref * ref)
    (s' : processor) :
  heap s !! r = Some d → handle_outliers config = true →
  detect_anomalies config r s = (Returned split, s') →
  heap s' !! r = Some (scored d) ∧ has_column "amount_zscore" (scored d) = true.
Proof.
  intros Hd Hho Hrun. rewrite (detect_anomalies_run config s r d Hd), Hho in Hrun.
  cbn [negb] in Hrun. cbv zeta in Hrun.
  destruct (has_column "bank_id" d); cbn [negb] in Hrun; [|done].
  destruct (has_column "amount" d); cbn [negb] in Hrun; [|done].
  split; [|apply has_column_assign].
  assert (<[r := scored d]> (heap s) !! r = Some (scored d)) as Hr.
  { apply list_lookup_insert_eq. by eapply lookup_lt_Some. }
  destruct (0 <? len (anomaly_set config d))%nat; injection Hrun as <- <-;
    simpl heap; by apply lookup_app_l_Some, lookup_app_l_Some.
Qed.

(** C10 on a record of amount 0.005 under the default minimum 0.01: the
    record is in the batch after the range check. *)
Lemma C10_min_amount_unused_witness :
  let config := _get_default_config in
  let d := batch_below_minimum in
  let converted := @convert_amounts reference_pandas d in
  let x := hd ∅ (rows converted) in
  In x (rows converted)
  ∧ cell x "amount" = VNum (5 # 1000)
  ∧ (0 < 5 # 1000)%Q
  ∧ (5 # 1000 < min_transaction_amount config)%Q
  ∧ (5 # 1000 <= max_transaction_amount config)%Q
  ∧ In x (rows (validate_amount_ranges config converted))
  ∧ (∀ r s,
       @validate_column_types reference_pandas reference_clock
         (with_min 5 config) r s
       = @validate_column_types reference_pandas reference_clock config r s).
Proof.
  cbv zeta.
  destruct (@C10_min_amount_unused reference_pandas reference_clock
              _get_default_config 5 batch_below_minimum)
    as (Hsame & _ & _ & Hsurvives).
  assert (In (hd ∅ (rows (@convert_amounts reference_pandas batch_below_minimum)))
             (rows (@convert_amounts reference_pandas batch_below_minimum)))
    as Hin by (left; reflexivity).
  assert (cell (hd ∅ (rows (@convert_amounts reference_pandas batch_below_minimum)))
               "amount" = VNum (5 # 1000)) as Hq by (vm_compute; reflexivity).
  assert (0 < 5 # 1000)%Q as Hpos by reflexivity.
  assert (5 # 1000 < min_transaction_amount _get_default_config)%Q as Hmin
    by reflexivity.
  assert (5 # 1000 <= max_transaction_amount _get_default_config)%Q as Hmax
    by (apply Qle_bool_iff; vm_compute; reflexivity).
  split; [exact Hin|]. split; [exact Hq|]. split; [exact Hpos|].
  split; [exact Hmin|]. split; [exact Hmax|].
  split; [|exact Hsame].
  by apply (Hsurvives _ (5 # 1000)).
Defined.

(** * Further properties of the stages *)

(** ** Strings and sums *)

Lemma chars_inj (s t : string) : chars s = chars t → s = t.
Proof.
  intros E. rewrite <- (Stdlib.Strings.String.string_of_list_ascii_of_string s).
  rewrite <- (Stdlib.Strings.String.string_of_list_ascii_of_string t).
  unfold chars in E. by rewrite E.
Qed.

Lemma chars_rev_app (s t : string) :
  chars (String.rev_app s t) = List.rev (chars s) ++ chars t.
Proof.
  revert t. induction s as [|c s IH]; intros t; [done|].
  simpl. rewrite IH. simpl. by rewrite <- app_assoc.
Qed.

Lemma chars_rev (s : string) : chars (String.rev s) = List.rev (chars s).
Proof. unfold String.rev. rewrite chars_rev_app. simpl. apply app_nil_r. Qed.

Lemma chars_lstrip (s : string) : chars (lstrip s) = lstrip_chars (chars s).
Proof.
  induction s as [|c s IH]; [done|]. simpl. by destruct (isspace c).
Qed.

Lemma chars_strip (s : string) :
  chars (strip s) = List.rev (lstrip_chars (List.rev (lstrip_chars (chars s)))).
Proof. unfold strip. by rewrite chars_rev, chars_lstrip, chars_rev, chars_lstrip. Qed.

Lemma lstrip_chars_length (l : list ascii) :
  (length (lstrip_chars l) ≤ length l)%nat.
Proof. induction l as [|c l IH]; simpl; [lia|]. destruct (isspace c); simpl; lia. Qed.

Lemma lstrip_chars_split (l : list ascii) :
  ∃ ws, l = ws ++ lstrip_chars l.
Proof.
  induction l as [|c l [ws IH]]; [by exists []|]. simpl.
  destruct (isspace c).
  - exists (c :: ws). simpl. by rewrite <- IH.
  - by exists [].
Qed.

Lemma lstrip_chars_idem (l : list ascii) :
  lstrip_chars (lstrip_chars l) = lstrip_chars l.
Proof.
  induction l as [|c l IH]; [done|]. simpl.
  destruct (isspace c) eqn:E; [done|]. simpl. by rewrite E.
Qed.

Lemma lstrip_chars_fixed (c : ascii) (l : list ascii) :
  lstrip_chars (c :: l) = c :: l → isspace c = false.
Proof.
  simpl. destruct (isspace c); [|done]. intros E.
  pose proof (lstrip_chars_length l) as Hlen. rewrite E in Hlen. simpl in Hlen. lia.
Qed.

Lemma strip_chars_idem (l : list ascii) :
  let out := List.rev (lstrip_chars (List.rev (lstrip_chars l))) in
  List.rev (lstrip_chars (List.rev (lstrip_chars out))) = out.
Proof.
  cbv zeta. set (t := lstrip_chars l). set (u := lstrip_chars (List.rev t)).
  assert (lstrip_chars (List.rev u) = List.rev u) as ->.
  { destruct (lstrip_chars_split (List.rev t)) as [ws Hws]. fold u in Hws.
    assert (t = List.rev u ++ List.rev ws) as Ht.
    { rewrite <- (rev_involutive t), Hws. apply rev_app_distr. }
    destruct (List.rev u) as [|c r] eqn:Eu; [done|].
    simpl. assert (isspace c = false) as ->; [|done].
    apply (lstrip_chars_fixed c (r ++ List.rev ws)).
    change (c :: r ++ List.rev ws) with ((c :: r) ++ List.rev ws).
    rewrite <- Ht. apply lstrip_chars_idem. }
  rewrite rev_involutive. subst u. by rewrite lstrip_chars_idem.
Qed.

(** Stripping a stripped string changes nothing. *)
Lemma strip_idempotent (s : string) : strip (strip s) = strip s.
Proof.
  apply chars_inj. rewrite (chars_strip (strip s)), (chars_strip s).
  apply strip_chars_idem.
Qed.


Lemma Qsquare_nonneg (x : Q) : (0 <= x * x)%Q.
Proof. nra. Qed.

Lemma Qsum_app (l l' : list Q) : (Qsum (l ++ l') == Qsum l + Qsum l')%Q.
Proof.
  induction l as [|x l IH]; simpl; [ring|]. fold (Qsum (l ++ l')). fold (Qsum l).
  rewrite IH. ring.
Qed.

Lemma Qsum_squares_nonneg (l : list Q) : (0 <= Qsum (squares l))%Q.
Proof.
  induction l as [|x l IH]; simpl; [lra|]. fold (Qsum (squares l)).
  pose proof (Qsquare_nonneg x). lra.
Qed.

Lemma Qlen_cons {A : Type} (x : A) (l : list A) : (Qlen (x :: l) == Qlen l + 1)%Q.
Proof.
  unfold Qlen. simpl length. rewrite Nat2Z.inj_succ, <- Z.add_1_r, inject_Z_plus.
  reflexivity.
Qed.

Lemma Qlen_nonneg {A : Type} (l : list A) : (0 <= Qlen l)%Q.
Proof. unfold Qlen. change 0%Q with (inject_Z 0). rewrite <- Zle_Qle. lia. Qed.

Lemma cross_term (l : list Q) (c : Q) :
  (2 * c * Qsum l <= Qlen l * (c * c) + Qsum (squares l))%Q.
Proof.
  induction l as [|a l IH].
  - change (Qlen []) with 0%Q. simpl. nra.
  - rewrite Qlen_cons. simpl. fold (Qsum l). fold (Qsum (squares l)).
    pose proof (Qsquare_nonneg (c - a)) as Hsq.
    assert ((c - a) * (c - a) == c * c - 2 * c * a + a * a)%Q as E by ring.
    rewrite E in Hsq. 
    assert (2 * c * (a + Qsum l) == 2 * c * a + 2 * c * Qsum l)%Q as -> by ring.
    assert ((Qlen l + 1) * (c * c) == Qlen l * (c * c) + c * c)%Q as -> by ring.
    lra.
Qed.

(** Cauchy-Schwarz against the constant sequence. *)
Lemma Qsum_square (l : list Q) :
  (Qsum l * Qsum l <= Qlen l * Qsum (squares l))%Q.
Proof.
  induction l as [|a l IH].
  - change (Qlen []) with 0%Q. simpl. nra.
  - rewrite Qlen_cons. simpl. fold (Qsum l). fold (Qsum (squares l)).
    pose proof (cross_term l a) as Hc.
    assert ((a + Qsum l) * (a + Qsum l)
            == a * a + 2 * a * Qsum l + Qsum l * Qsum l)%Q as -> by ring.
    assert ((Qlen l + 1) * (a * a + Qsum (squares l))
            == Qlen l * (a * a) + a * a + Qlen l * Qsum (squares l)
               + Qsum (squares l))%Q as -> by ring.
    lra.
Qed.

(** Samuelson's inequality on deviations that sum to zero. *)
Lemma deviation_bound (ds : list Q) (dev : Q) :
  In dev ds → (Qsum ds == 0)%Q →
  (Qlen ds * (dev * dev) <= (Qlen ds - 1) * Qsum (squares ds))%Q.
Proof.
  intros Hin Hsum. apply in_split in Hin as (l1 & l2 & ->).
  set (rest := l1 ++ l2).
  assert (Qsum rest == - dev)%Q as Hrest.
  { rewrite Qsum_app in Hsum. simpl in Hsum. fold (Qsum l2) in Hsum.
    subst rest. rewrite Qsum_app. lra. }
  assert (Qlen (l1 ++ dev :: l2) == Qlen rest + 1)%Q as ->.
  { unfold Qlen, rest. rewrite !length_app. simpl length.
    rewrite Nat.add_succ_r, Nat2Z.inj_succ, <- Z.add_1_r, inject_Z_plus.
    reflexivity. }
  assert (Qsum (squares (l1 ++ dev :: l2)) == Qsum (squares rest) + dev * dev)%Q
    as ->.
  { unfold squares, rest. rewrite !map_app, !Qsum_app. simpl.
    fold (Qsum (map (λ x : Q, (x * x)%Q) l2)). ring. }
  pose proof (Qsum_square rest) as Hcs. rewrite Hrest in Hcs.
  assert (- dev * - dev == dev * dev)%Q as E by ring. rewrite E in Hcs.
  assert ((Qlen rest + 1) * (dev * dev) == Qlen rest * (dev * dev) + dev * dev)%Q
    as -> by ring.
  assert ((Qlen rest + 1 - 1) * (Qsum (squares rest) + dev * dev)
          == Qlen rest * Qsum (squares rest) + Qlen rest * (dev * dev))%Q
    as -> by ring.
  lra.
Qed.

Lemma square_le (u w : Q) :
  (0 <= w)%Q → (u * u <= w * w)%Q → (- w <= u ∧ u <= w)%Q.
Proof.
  intros Hw Hsq. split; apply Qnot_lt_le; intros Hlt.
  - assert (0 < (- u - w) * (- u + w))%Q as Hp
      by (apply Qmult_lt_0_compat; lra).
    assert ((- u - w) * (- u + w) == u * u - w * w)%Q as E by ring.
    rewrite E in Hp. lra.
  - assert (0 < (u - w) * (u + w))%Q as Hp
      by (apply Qmult_lt_0_compat; lra).
    assert ((u - w) * (u + w) == u * u - w * w)%Q as E by ring.
    rewrite E in Hp. lra.
Qed.

Lemma Qsum_deviations (xs : list Q) (m : Q) :
  (Qsum (map (λ x, x - m)%Q xs) == Qsum xs - Qlen xs * m)%Q.
Proof.
  induction xs as [|x xs IH].
  - change (Qlen []) with 0%Q. simpl. ring.
  - rewrite Qlen_cons. simpl. fold (Qsum xs). fold (Qsum (map (λ x, (x - m)%Q) xs)).
    rewrite IH. ring.
Qed.

Lemma Qlen_pos {A : Type} (x : A) (l : list A) : (0 < Qlen (x :: l))%Q.
Proof. rewrite Qlen_cons. pose proof (Qlen_nonneg l). lra. Qed.

Lemma mean_unfold (xs : list Q) (m : Q) :
  mean xs = Some m → m = (Qsum xs / Qlen xs)%Q.
Proof. destruct xs; [done|]. by intros [= <-]. Qed.

Lemma var_unfold (xs : list Q) (v : Q) :
  var xs = Some v →
  (2 ≤ length xs)%nat
  ∧ v = (Qsum (map (λ x, (x - Qsum xs / Qlen xs) * (x - Qsum xs / Qlen xs)) xs)
         / inject_Z (Z.of_nat (length xs - 1)))%Q.
Proof.
  destruct xs as [|x0 [|x1 xs]]; try done. intros [= <-].
  split; [simpl; lia|reflexivity].
Qed.

(** A value is at most (n - 1) / sqrt n sample deviations from the mean of
    the n values it is among. *)
Lemma var_mean_bound (xs : list Q) (a m v : Q) :
  In a xs → mean xs = Some m → var xs = Some v →
  (0 <= v)%Q
  ∧ (Qlen xs * ((a - m) * (a - m)) <= (Qlen xs - 1) * (Qlen xs - 1) * v)%Q.
Proof.
  intros Hin Hmean Hvar.
  apply mean_unfold in Hmean as ->. apply var_unfold in Hvar as [Hlen ->].
  set (m := (Qsum xs / Qlen xs)%Q).
  assert (inject_Z (Z.of_nat (length xs - 1)) == Qlen xs - 1)%Q as Hn1.
  { unfold Qlen. rewrite Nat2Z.inj_sub by lia. unfold Z.sub.
    rewrite inject_Z_plus. reflexivity. }
  assert (2 <= Qlen xs)%Q as Hn.
  { unfold Qlen. change 2%Q with (inject_Z 2). rewrite <- Zle_Qle. lia. }
  set (ds := map (λ x, x - m)%Q xs).
  assert (map (λ x, (x - m) * (x - m))%Q xs = squares ds) as Hsq.
  { unfold squares, ds. by rewrite map_map. }
  rewrite Hsq, Hn1.
  assert (Qsum ds == 0)%Q as Hzero.
  { unfold ds. rewrite Qsum_deviations. unfold m. field. lra. }
  assert (In (a - m)%Q ds) as Hdev.
  { unfold ds. apply in_map_iff. eauto. }
  pose proof (deviation_bound ds (a - m)%Q Hdev Hzero) as Hb.
  assert (Qlen ds = Qlen xs) as El by (unfold Qlen, ds; by rewrite length_map).
  rewrite El in Hb.
  pose proof (Qsum_squares_nonneg ds) as Hnn.
  split.
  - apply Qle_shift_div_l; [lra|]. lra.
  - assert ((Qlen xs - 1) * (Qlen xs - 1) * (Qsum (squares ds) / (Qlen xs - 1))
            == (Qlen xs - 1) * Qsum (squares ds))%Q as ->; [|done].
    field. lra.
Qed.

Lemma value_eqb_refl (v : value) : value_eqb v v = true.
Proof.
  destruct v; simpl; try done.
  - by apply Qeq_bool_iff.
  - by apply bool_decide_eq_true.
  - apply Z.eqb_refl.
  - apply Z.eqb_refl.
  - by apply bool_decide_eq_true.
Qed.

Lemma group_amounts_own (d : DataFrame) (x : row) (a : Q) :
  In x (rows d) → cell x "amount" = VNum a →
  In a (group_amounts d (cell x "bank_id")).
Proof.
  intros Hx Ha. unfold group_amounts. apply list_elem_of_In, list_elem_of_omap.
  exists x. split.
  - apply list_elem_of_In, filter_In. split; [done|apply value_eqb_refl].
  - by rewrite Ha.
Qed.


(** ** Groups, counts and paths *)

Lemma value_eqb_sym (v w : value) : value_eqb v w = value_eqb w v.
Proof.
  destruct v, w; simpl; try done.
  - apply eq_true_iff_eq. rewrite !Qeq_bool_iff. split; intros E; by symmetry.
  - apply bool_decide_ext. split; congruence.
  - apply Z.eqb_sym.
  - apply Z.eqb_sym.
  - apply bool_decide_ext. split; congruence.
Qed.

Lemma value_eqb_trans (u v w : value) :
  value_eqb u v = true → value_eqb v w = true → value_eqb u w = true.
Proof.
  destruct u, v, w; simpl; try done.
  - rewrite !Qeq_bool_iff. intros -> ->. reflexivity.
  - rewrite !bool_decide_eq_true. congruence.
  - rewrite !Z.eqb_eq. congruence.
  - rewrite !Z.eqb_eq. congruence.
  - rewrite !bool_decide_eq_true. congruence.
Qed.

Lemma value_eqb_isnull (v w : value) :
  value_eqb v w = true → isnull v = isnull w.
Proof. by destruct v, w. Qed.

Lemma same_group_sym (k k' : value * value) : same_group k k' = same_group k' k.
Proof. unfold same_group. by rewrite (value_eqb_sym k.1), (value_eqb_sym k.2). Qed.

Lemma same_group_trans (k1 k2 k3 : value * value) :
  same_group k1 k2 = true → same_group k2 k3 = true → same_group k1 k3 = true.
Proof.
  unfold same_group. rewrite !andb_true_iff. intros [H1 H2] [H3 H4].
  split; eapply value_eqb_trans; eauto.
Qed.

Lemma same_group_refl (k : value * value) : same_group k k = true.
Proof. unfold same_group. by rewrite !value_eqb_refl. Qed.

Lemma same_group_isnull (k k' : value * value) :
  same_group k k' = true →
  isnull k.1 = isnull k'.1 ∧ isnull k.2 = isnull k'.2.
Proof.
  unfold same_group. rewrite andb_true_iff. intros [H1 H2].
  split; by apply value_eqb_isnull.
Qed.

Lemma distinct_groups_In (seen l : list (value * value)) (k : value * value) :
  In k (distinct_groups seen l) →
  In k l ∧ isnull k.1 = false ∧ isnull k.2 = false
  ∧ existsb (same_group k) seen = false.
Proof.
  revert seen. induction l as [|g l IH]; intros seen; [done|]. simpl.
  destruct (isnull g.1 || isnull g.2 || existsb (same_group g) seen) eqn:E.
  - intros Hin. destruct (IH _ Hin) as (H1 & H2 & H3 & H4). auto.
  - apply orb_false_iff in E as [E E3]. apply orb_false_iff in E as [E1 E2].
    intros [<-|Hin]; [auto|].
    destruct (IH _ Hin) as (H1 & H2 & H3 & H4).
    rewrite existsb_app in H4. apply orb_false_iff in H4 as [H4 _]. auto.
Qed.

Lemma distinct_groups_apart (seen l : list (value * value)) :
  ForallOrdPairs apart (distinct_groups seen l).
Proof.
  revert seen. induction l as [|g l IH]; intros seen; [constructor|]. simpl.
  destruct (isnull g.1 || isnull g.2 || existsb (same_group g) seen); [apply IH|].
  constructor; [|apply IH].
  apply List.Forall_forall. intros k Hk.
  apply distinct_groups_In in Hk as (_ & _ & _ & Hex).
  rewrite existsb_app in Hex. apply orb_false_iff in Hex as [_ Hex].
  simpl in Hex. rewrite orb_false_r in Hex.
  unfold apart. by rewrite same_group_sym.
Qed.

Lemma distinct_groups_cover (seen l : list (value * value)) (g : value * value) :
  In g l → isnull g.1 = false → isnull g.2 = false →
  existsb (same_group g) (seen ++ distinct_groups seen l) = true.
Proof.
  revert seen. induction l as [|g0 l IH]; intros seen; [done|]. simpl.
  intros [->|Hin] H1 H2.
  - rewrite H1, H2. simpl.
    destruct (existsb (same_group g) seen) eqn:E.
    + rewrite existsb_app, E. done.
    + rewrite existsb_app. simpl. rewrite same_group_refl. by rewrite orb_true_r.
  - destruct (isnull g0.1 || isnull g0.2 || existsb (same_group g0) seen).
    + by apply IH.
    + specialize (IH (seen ++ [g0]) Hin H1 H2).
      by rewrite <- app_assoc in IH.
Qed.

Lemma In_insert_sorted {A : Type} (leb : A → A → bool) (x y : A) (l : list A) :
  In y (insert_sorted leb x l) ↔ y = x ∨ In y l.
Proof.
  induction l as [|z l IH]; simpl; [intuition|].
  destruct (leb x z); simpl; [intuition|]. rewrite IH. intuition.
Qed.

Lemma In_sort {A : Type} (leb : A → A → bool) (y : A) (l : list A) :
  In y (sort leb l) ↔ In y l.
Proof.
  unfold sort. induction l as [|x l IH]; simpl; [done|].
  rewrite In_insert_sorted, IH. intuition.
Qed.

Lemma apart_insert_sorted (leb : value * value → value * value → bool)
    (x : value * value) (l : list (value * value)) :
  Forall (apart x) l → ForallOrdPairs apart l →
  ForallOrdPairs apart (insert_sorted leb x l).
Proof.
  induction l as [|z l IH]; intros Hx Hl; simpl.
  - constructor; [constructor|constructor].
  - destruct (leb x z); [by constructor|].
    inversion Hx as [|? ? Hxz Hxl]; subst.
    inversion Hl as [|? ? Hzl Hl']; subst.
    constructor; [|by apply IH].
    apply List.Forall_forall. intros y Hy. apply In_insert_sorted in Hy as [->|Hy].
    + unfold apart in *. by rewrite same_group_sym.
    + rewrite List.Forall_forall in Hzl. by apply Hzl.
Qed.

Lemma apart_sort (leb : value * value → value * value → bool)
    (l : list (value * value)) :
  ForallOrdPairs apart l → ForallOrdPairs apart (sort leb l).
Proof.
  unfold sort. induction l as [|x l IH]; intros Hl; simpl; [constructor|].
  inversion Hl as [|? ? Hx Hl']; subst.
  apply apart_insert_sorted; [|by apply IH].
  apply List.Forall_forall. intros y Hy. apply In_sort in Hy.
  rewrite List.Forall_forall in Hx. by apply Hx.
Qed.

(** The groups of a batch are pairwise apart, have no absent component, and
    every record with a bank and a date is of one of them. *)
Lemma groups_apart (d : DataFrame) : ForallOrdPairs apart (groups d).
Proof. apply apart_sort, distinct_groups_apart. Qed.

Lemma groups_cover (d : DataFrame) (x : row) :
  In x (rows d) →
  existsb (same_group (group_of x)) (groups d)
  = negb (isnull (cell x "bank_id")) && negb (isnull (cell x "transaction_date")).
Proof.
  intros Hx. unfold groups.
  destruct (isnull (cell x "bank_id")) eqn:E1; simpl.
  - apply not_true_iff_false. intros Hex.
    apply existsb_exists in Hex as (k & Hk & Hs).
    apply In_sort, distinct_groups_In in Hk as (_ & H1 & _).
    apply same_group_isnull in Hs as [Hs _]. simpl in Hs. congruence.
  - destruct (isnull (cell x "transaction_date")) eqn:E2; simpl.
    + apply not_true_iff_false. intros Hex.
      apply existsb_exists in Hex as (k & Hk & Hs).
      apply In_sort, distinct_groups_In in Hk as (_ & _ & H2 & _).
      apply same_group_isnull in Hs as [_ Hs]. simpl in Hs. congruence.
    + pose proof (distinct_groups_cover [] (map group_of (rows d)) (group_of x))
        as Hc. simpl in Hc.
      apply existsb_exists in Hc as (k & Hk & Hs); [|by apply in_map|done|done].
      apply existsb_exists. exists k. split; [by apply In_sort|done].
Qed.

Lemma filter_or_length {A : Type} (a b : A → bool) (l : list A) :
  (∀ x, In x l → a x && b x = false) →
  (length (List.filter a l) + length (List.filter b l)
   = length (List.filter (λ x, a x || b x) l))%nat.
Proof.
  induction l as [|x l IH]; intros Hdis; [done|]. simpl.
  pose proof (Hdis x (or_introl eq_refl)) as Hx.
  assert (∀ y, In y l → a y && b y = false) as Hl by (intros y Hy; apply Hdis; by right).
  specialize (IH Hl).
  destruct (a x), (b x); simpl in *; try done; lia.
Qed.

Lemma length_omap_filter {A B : Type} (f : A → option B) (p : A → bool) (l : list A) :
  length (omap f (List.filter p l))
  = length (List.filter (λ x, p x && bool_decide (is_Some (f x))) l).
Proof.
  induction l as [|x l IH]; [done|]. simpl.
  destruct (p x); simpl; [|done].
  destruct (f x) as [y|] eqn:E; simpl; [|done].
  f_equal. exact IH.
Qed.

(** The groups split the keyed records: the sizes of the groups add up to
    their number. *)
Lemma group_partition (n : row → bool) (l : list row) (L : list (value * value)) :
  ForallOrdPairs apart L →
  list_sum
    (map (λ k, length (List.filter (λ x, same_group (group_of x) k && n x) l)) L)
  = length (List.filter (λ x, existsb (same_group (group_of x)) L && n x) l).
Proof.
  induction 1 as [|k L Hk HL IH]; simpl.
  - induction l as [|x l IHl]; [done|]. simpl. exact IHl.
  - rewrite IH, filter_or_length.
    + f_equal. apply filter_ext. intros x.
      by destruct (same_group (group_of x) k), (existsb _ L), (n x).
    + intros x _.
      destruct (same_group (group_of x) k) eqn:E1; [|done].
      destruct (existsb (same_group (group_of x)) L) eqn:E2;
        [|by destruct (n x)].
      exfalso. apply existsb_exists in E2 as (k' & Hk' & Hs).
      rewrite List.Forall_forall in Hk. specialize (Hk k' Hk'). unfold apart in Hk.
      rewrite same_group_sym in E1.
      by rewrite (same_group_trans _ _ _ E1 Hs) in Hk.
Qed.

Lemma rint_integer (z : Z) : rint (inject_Z z) = z.
Proof.
  unfold rint. cbv zeta. rewrite Qfloor_Z.
  assert ((inject_Z z - inject_Z z ?= 1 # 2)%Q = Lt) as ->; [|done].
  apply Qlt_alt. ring_simplify (inject_Z z - inject_Z z)%Q. reflexivity.
Qed.

(** Rounding an integer to two places gives the integer. *)
Lemma round_integer (z : Z) : (round (inject_Z z) 2 == inject_Z z)%Q.
Proof.
  unfold round. cbn [Z.leb Z.compare].
  change (inject_Z z * inject_Z (10 ^ 2))%Q with (inject_Z (z * 100)).
  rewrite rint_integer, inject_Z_mult.
  change (inject_Z (10 ^ 2)) with 100%Q. change (inject_Z 100) with 100%Q. field.
Qed.

Lemma Qsum_map_ext {A : Type} (f g : A → Q) (l : list A) :
  (∀ x, In x l → (f x == g x)%Q) → (Qsum (map f l) == Qsum (map g l))%Q.
Proof.
  induction l as [|x l IH]; intros Hext; simpl; [reflexivity|].
  fold (Qsum (map f l)). fold (Qsum (map g l)).
  rewrite (Hext x), IH; [reflexivity| |simpl; auto].
  intros y Hy. apply Hext. simpl. auto.
Qed.

Lemma Qsum_nat {A : Type} (n : A → nat) (l : list A) :
  (Qsum (map (λ x, inject_Z (Z.of_nat (n x))) l)
   == inject_Z (Z.of_nat (list_sum (map n l))))%Q.
Proof.
  induction l as [|x l IH]; simpl; [reflexivity|].
  fold (Qsum (map (λ x, inject_Z (Z.of_nat (n x))) l)).
  rewrite IH, Nat2Z.inj_add, inject_Z_plus. reflexivity.
Qed.

Lemma omap_map_Some {A B C : Type} (f : B → option C) (g : A → B) (h : A → C)
    (l : list A) :
  (∀ x, f (g x) = Some (h x)) → omap f (map g l) = map h l.
Proof.
  intros H. induction l as [|x l IH]; [done|].
  cbn. rewrite H. cbn. f_equal. exact IH.
Qed.

Lemma ForallOrdPairs_lookup {A : Type} (R : A → A → Prop) (l : list A)
    (i j : nat) (a b : A) :
  ForallOrdPairs R l → (i < j)%nat → l !! i = Some a → l !! j = Some b → R a b.
Proof.
  intros Hl. revert i j. induction Hl as [|x l Hx Hl IH]; intros i j Hij Hi Hj.
  - done.
  - destruct j as [|j]; [lia|]. destruct i as [|i].
    + injection Hi as ->. rewrite List.Forall_forall in Hx. apply Hx.
      simpl in Hj. apply list_elem_of_lookup_2 in Hj. by apply list_elem_of_In.
    + apply (IH i j); [lia|done|done].
Qed.

(** The keys of the groups are keys of records, without an absent
    component. *)
Lemma groups_In (d : DataFrame) (k : value * value) :
  In k (groups d) →
  ∃ x, In x (rows d) ∧ k = group_of x ∧ isnull k.1 = false ∧ isnull k.2 = false.
Proof.
  unfold groups. rewrite In_sort. intros Hk.
  apply distinct_groups_In in Hk as (Hin & H1 & H2 & _).
  apply in_map_iff in Hin as (x & <- & Hx). eauto.
Qed.

Lemma append_ne (p a b : string) : a ≠ b → p +:+ a ≠ p +:+ b.
Proof. intros Hne E. by apply String.app_inj in E. Qed.

Section Stages.
Context {pandas : Pandas} {wall_clock : Clock}.
Variable config : Config.

Lemma clean_null_values_cleaned (s : processor) (r : ref) (d : DataFrame) :
  heap s !! r = Some d →
  (∀ col, In col critical_fields → has_column col d = true) →
  clean_null_values r s
  = (Returned (length (heap s)),
     mkProcessor (heap s ++ [cleaned d]) (quality_report s) (clock s)
                 (entered s ++ [m_clean_null_values])).
Proof.
  intros Hd Hcols. apply find_missing_none in Hcols.
  unfold clean_null_values. do 2 step.
  rewrite bind_run, for_each_getitem, Hcols. reflexivity.
Qed.

Lemma columns_cleaned (d : DataFrame) : columns (cleaned d) = columns d.
Proof.
  unfold cleaned. cbv zeta.
  set (d0 := dropna critical_fields d).
  set (d1 := if has_column "transaction_type" d then _ else d0).
  assert (columns d1 = columns d) as Hc1.
  { subst d1. destruct (has_column "transaction_type" d) eqn:E; [|done].
    rewrite columns_assign; [done|]. by rewrite (has_column_ext _ d d0). }
  destruct (has_column "description" d) eqn:E; [|done].
  rewrite columns_assign; [done|]. by rewrite (has_column_ext _ d d1).
Qed.

Lemma len_assign (col : string) (f : row → value) (d : DataFrame) :
  len (assign col f d) = len d.
Proof. unfold len. simpl. apply length_map. Qed.

Lemma len_cleaned (d : DataFrame) :
  len (cleaned d)
  = count (λ x, forallb (λ col, negb (isnull (cell x col))) critical_fields) d.
Proof.
  unfold cleaned. cbv zeta.
  destruct (has_column "description" d), (has_column "transaction_type" d);
    rewrite ?len_assign; reflexivity.
Qed.

Lemma cell_fillna (x : row) (col : string) (v : value) :
  isnull v = false → isnull (fillna v (cell x col)) = false.
Proof. intros Hv. unfold fillna. by destruct (isnull (cell x col)) eqn:E. Qed.

Lemma rows_cleaned (d : DataFrame) (x : row) :
  In x (rows (cleaned d)) →
  (∀ col, In col critical_fields → isnull (cell x col) = false)
  ∧ (has_column "transaction_type" d = true →
     isnull (cell x "transaction_type") = false)
  ∧ (has_column "description" d = true → isnull (cell x "description") = false).
Proof.
  unfold cleaned. cbv zeta.
  set (d0 := dropna critical_fields d).
  assert (∀ x, In x (rows d0) →
            ∀ col, In col critical_fields → isnull (cell x col) = false) as H0.
  { intros y Hy col Hcol. apply In_select in Hy as [_ Hall].
    rewrite forallb_forall in Hall. by apply negb_true_iff, Hall. }
  destruct (has_column "transaction_type" d) eqn:Et,
           (has_column "description" d) eqn:Ed; intros Hx.
  - apply In_assign in Hx as (x1 & Hx1 & ->).
    apply In_assign in Hx1 as (x0 & Hx0 & ->).
    split; [|split].
    + intros col Hcol. rewrite !cell_insert_ne; [by apply H0|..];
        intros <-; simpl in Hcol; intuition discriminate.
    + intros _. rewrite cell_insert_ne by done. rewrite cell_insert.
      by apply cell_fillna.
    + intros _. rewrite cell_insert. by apply cell_fillna.
  - apply In_assign in Hx as (x0 & Hx0 & ->).
    split; [|split; [|done]].
    + intros col Hcol. rewrite !cell_insert_ne; [by apply H0|..];
        intros <-; simpl in Hcol; intuition discriminate.
    + intros _. rewrite cell_insert. by apply cell_fillna.
  - apply In_assign in Hx as (x0 & Hx0 & ->).
    split; [|split; [done|]].
    + intros col Hcol. rewrite !cell_insert_ne; [by apply H0|..];
        intros <-; simpl in Hcol; intuition discriminate.
    + intros _. rewrite cell_insert. by apply cell_fillna.
  - split; [by apply H0|]. done.
Qed.


Lemma rows_cleaned_lookup (d : DataFrame) (x : row) :
  In x (rows (cleaned d)) →
  (has_column "transaction_type" d = true → is_Some (x !! "transaction_type"))
  ∧ (has_column "description" d = true → is_Some (x !! "description")).
Proof.
  unfold cleaned. cbv zeta.
  destruct (has_column "transaction_type" d) eqn:Et,
           (has_column "description" d) eqn:Ed; intros Hx.
  - apply In_assign in Hx as (x1 & Hx1 & ->).
    apply In_assign in Hx1 as (x0 & Hx0 & ->).
    split; intros _.
    + rewrite lookup_insert_ne by done. rewrite lookup_insert_eq. eauto.
    + rewrite lookup_insert_eq. eauto.
  - apply In_assign in Hx as (x0 & Hx0 & ->).
    split; [|done]. intros _. rewrite lookup_insert_eq. eauto.
  - apply In_assign in Hx as (x0 & Hx0 & ->).
    split; [done|]. intros _. rewrite lookup_insert_eq. eauto.
  - done.
Qed.

Lemma filter_all {A : Type} (p : A → bool) (l : list A) :
  (∀ x, In x l → p x = true) → List.filter p l = l.
Proof.
  induction l as [|x l IH]; intros Hall; [done|]. simpl.
  rewrite (Hall x) by (simpl; auto). f_equal. apply IH.
  intros y Hy. apply Hall. simpl. auto.
Qed.

Lemma map_fixed {A : Type} (f : A → A) (l : list A) :
  (∀ x, In x l → f x = x) → map f l = l.
Proof.
  intros Hall. rewrite <- (map_id l) at 2. by apply map_ext_in.
Qed.

Lemma fill_present (x : row) (col : string) (v : value) :
  is_Some (x !! col) → isnull (cell x col) = false →
  <[col := fillna v (cell x col)]> x = x.
Proof.
  intros [w Hw] Hnn. unfold fillna. rewrite Hnn. apply insert_id.
  unfold cell. by rewrite Hw.
Qed.

Lemma DataFrame_eq (a b : DataFrame) :
  columns a = columns b → rows a = rows b → a = b.
Proof. destruct a, b. simpl. by intros -> ->. Qed.

Lemma cleaned_idempotent (d : DataFrame) : cleaned (cleaned d) = cleaned d.
Proof.
  set (d1 := cleaned d).
  assert (dropna critical_fields d1 = d1) as Hdrop.
  { apply DataFrame_eq; [done|]. unfold dropna, select. cbn [rows].
    apply filter_all. intros x Hx. apply forallb_forall. intros col Hcol.
    apply negb_true_iff. by apply (rows_cleaned d x Hx). }
  unfold cleaned at 1. cbv zeta. fold d1. rewrite Hdrop.
  rewrite !(has_column_ext _ d d1) by apply columns_cleaned.
  assert (∀ col v, has_column col d = true →
            (∀ x, In x (rows d1) →
               is_Some (x !! col) ∧ isnull (cell x col) = false) →
            assign col (λ r, fillna v (cell r col)) d1 = d1) as Hfill.
  { intros col v Hhas Hrows. apply DataFrame_eq.
    - apply columns_assign. by rewrite (has_column_ext _ d d1) by apply columns_cleaned.
    - unfold assign. cbn [rows].
      apply map_fixed. intros x Hx. destruct (Hrows x Hx). by apply fill_present. }
  assert ((if has_column "transaction_type" d
           then assign "transaction_type"
                  (λ r, fillna (VStr "UNKNOWN") (cell r "transaction_type")) d1
           else d1) = d1) as ->.
  { destruct (has_column "transaction_type" d) eqn:Et; [|done].
    apply Hfill; [done|]. intros x Hx. split.
    - by apply (rows_cleaned_lookup d x Hx).
    - by apply (rows_cleaned d x Hx). }
  destruct (has_column "description" d) eqn:Ed; [|done].
  apply Hfill; [done|]. intros x Hx. split.
  - by apply (rows_cleaned_lookup d x Hx).
  - by apply (rows_cleaned d x Hx).
Qed.


(** X2. On a batch that has the three critical columns, the null cleaner
    returns a new frame with the columns of the batch; its records are the
    records of the batch that have a bank_id, a customer_id and an amount,
    as many as the batch has of them; no record of it lacks a critical
    field, a transaction_type or a description (where the batch has these
    columns); outside these two optional fields a record is as it was. *)
Theorem X2_clean_null_values_complete (s : processor) (r : ref) (d : DataFrame) :
  heap s !! r = Some d →
  (∀ col, In col ["bank_id"; "customer_id"; "amount"] → has_column col d = true) →
  ∃ r1 s1 d1,
    clean_null_values r s = (Returned r1, s1)
    ∧ heap s1 !! r1 = Some d1
    ∧ columns d1 = columns d
    ∧ len d1
      = count (λ x, negb (isnull (cell x "bank_id"))
                    && negb (isnull (cell x "customer_id"))
                    && negb (isnull (cell x "amount"))) d
    ∧ ∀ x, In x (rows d1) →
        (∀ col, In col ["bank_id"; "customer_id"; "amount"] →
                isnull (cell x col) = false)
        ∧ (has_column "transaction_type" d = true →
           isnull (cell x "transaction_type") = false)
        ∧ (has_column "description" d = true →
           isnull (cell x "description") = false)
        ∧ ∃ x0, In x0 (rows d)
                ∧ agree_off ["transaction_type"; "description"] x0 x.
Proof.
  intros Hd Hcols.
  pose proof (clean_null_values_run s r d Hd) as Hrun.
  rewrite (proj2 (find_missing_none d critical_fields) Hcols) in Hrun.
  destruct Hrun as (d1 & Hrun & _ & Hrows).
  rewrite (clean_null_values_cleaned s r d Hd Hcols) in Hrun.
  injection Hrun as Hrun. apply app_inj_tail in Hrun as [_ <-].
  do 3 eexists. split; [by apply clean_null_values_cleaned|].
  simpl heap. split; [apply lookup_alloc|].
  split; [apply columns_cleaned|]. split.
  - rewrite len_cleaned. unfold count. f_equal. apply filter_ext. intros x.
    simpl. by rewrite andb_true_r, andb_assoc.
  - intros x Hx. destruct (rows_cleaned d x Hx) as (H1 & H2 & H3).
    split; [exact H1|]. split; [exact H2|]. split; [exact H3|].
    destruct (Hrows x Hx) as (x0 & Hx0 & Hagree & _). eauto.
Qed.

(** X3. The null cleaner is idempotent: applied to its own result, it
    returns a frame equal to that result. *)
Theorem X3_clean_null_values_idempotent (s : processor) (r : ref) (d : DataFrame) :
  heap s !! r = Some d →
  (∀ col, In col ["bank_id"; "customer_id"; "amount"] → has_column col d = true) →
  ∃ r1 s1 d1 r2 s2,
    clean_null_values r s = (Returned r1, s1)
    ∧ heap s1 !! r1 = Some d1
    ∧ clean_null_values r1 s1 = (Returned r2, s2)
    ∧ heap s2 !! r2 = Some d1.
Proof.
  intros Hd Hcols.
  rewrite (clean_null_values_cleaned s r d Hd Hcols).
  do 5 eexists. split; [reflexivity|]. simpl heap.
  split; [apply lookup_alloc|].
  rewrite (clean_null_values_cleaned _ _ (cleaned d)).
  - split; [reflexivity|]. simpl heap. rewrite cleaned_idempotent.
    apply lookup_alloc.
  - simpl. apply lookup_alloc.
  - intros col Hcol. rewrite (has_column_ext _ d) by apply columns_cleaned.
    by apply Hcols.
Qed.


Lemma len_select (p : row → bool) (d : DataFrame) : (len (select p d) ≤ len d)%nat.
Proof. unfold len. simpl. apply filter_length_le. Qed.

Lemma len_convert_amounts (d : DataFrame) : (len (convert_amounts d) ≤ len d)%nat.
Proof.
  unfold convert_amounts. cbv zeta. destruct (0 <? _)%nat.
  - unfold dropna. etransitivity; [apply len_select|]. by rewrite len_assign.
  - by rewrite len_assign.
Qed.

Lemma len_validate_amount_ranges (d : DataFrame) :
  (len (validate_amount_ranges config d) ≤ len d)%nat.
Proof.
  unfold validate_amount_ranges. cbv zeta. destruct (0 <? _)%nat; [|done].
  apply len_select.
Qed.

Lemma validate_dates_shape (d : DataFrame) (s : processor) :
  has_column "transaction_date" d && negb (naive_dates d) = false →
  ∃ d' k,
    validate_dates d s
    = (Returned d',
       mkProcessor (heap s) (quality_report s) (clock s + k) (entered s))
    ∧ columns d' = columns d ∧ (len d' ≤ len d)%nat.
Proof.
  unfold validate_dates.
  destruct (has_column "transaction_date" d) eqn:Ehas; cbn [andb]; intros Hnaive.
  - set (d1 := assign "transaction_date" _ d).
    assert (columns d1 = columns d) as Hcols by by apply columns_assign.
    assert (len d1 = len d) as Hlen by apply len_assign.
    cbv zeta. rewrite Hnaive. step. simpl clock. step.
    destruct (0 <? count _ d1)%nat eqn:Eg.
    + step. unfold mret, M_ret. simpl.
      eexists _, 2%nat.
      split; [by rewrite <- Nat.add_succ_comm, Nat.add_1_r|].
      split; [done|]. rewrite <- Hlen. apply len_select.
    + unfold mret, M_ret. simpl.
      exists d1, 1%nat. split; [by rewrite Nat.add_1_r|]. split; [done|]. lia.
  - exists d, 0%nat. unfold mret, M_ret. rewrite Nat.add_0_r.
    split; [by destruct s|]. done.
Qed.

Lemma len_validate_string_field (d : DataFrame) (field : string) :
  (len (validate_string_field d field) ≤ len d)%nat.
Proof.
  unfold validate_string_field. destruct (has_column field d); [|done].
  etransitivity; [apply len_select|]. by rewrite len_assign.
Qed.

Lemma len_validate_strings (d : DataFrame) : (len (validate_strings d) ≤ len d)%nat.
Proof.
  unfold validate_strings. simpl.
  etransitivity; [apply len_validate_string_field|].
  etransitivity; [apply len_validate_string_field|].
  apply len_validate_string_field.
Qed.

Lemma len_validate_transaction_types (d : DataFrame) :
  len (validate_transaction_types d) = len d.
Proof.
  unfold validate_transaction_types. cbv zeta.
  destruct (has_column "transaction_type" d); [|done].
  destruct (existsb _ _); [|done]. apply len_assign.
Qed.

Lemma validate_string_field_stripped (d : DataFrame) (field : string) (r' : row) :
  has_column field d = true →
  In r' (rows (validate_string_field d field)) → stripped (cell r' field).
Proof.
  intros Hhas. unfold validate_string_field. rewrite Hhas.
  intros Hin. apply In_select in Hin as [Hin Hne].
  apply In_assign in Hin as (r & Hr & ->). rewrite cell_insert in *.
  eexists. split; [reflexivity|]. split; [|apply strip_idempotent].
  simpl in Hne. apply negb_true_iff, bool_decide_eq_false in Hne. exact Hne.
Qed.

Lemma validate_strings_stripped (d : DataFrame) (r' : row) (field : string) :
  In field string_fields → has_column field d = true →
  In r' (rows (validate_strings d)) → stripped (cell r' field).
Proof.
  unfold validate_strings. simpl. intros Hfield Hhas Hin.
  set (d1 := validate_string_field d "bank_id") in *.
  set (d2 := validate_string_field d1 "customer_id") in *.
  assert (columns d1 = columns d) as Hc1 by apply validate_string_field_columns.
  assert (columns d2 = columns d) as Hc2
    by (by unfold d2; rewrite validate_string_field_columns).
  pose proof Hin as Hin3.
  apply validate_string_field_rows in Hin as (r2 & Hin2 & Ha3 & _).
  pose proof Hin2 as Hin2'.
  apply validate_string_field_rows in Hin2 as (r1 & Hin1 & Ha2 & _).
  destruct Hfield as [<-|[<-|[<-|[]]]].
  - rewrite (agree_off_cell _ _ _ _ Ha3), (agree_off_cell _ _ _ _ Ha2);
      [|simpl; intuition discriminate..].
    by apply (validate_string_field_stripped d).
  - rewrite (agree_off_cell _ _ _ _ Ha3); [|simpl; intuition discriminate].
    apply (validate_string_field_stripped d1); [|done].
    by rewrite (has_column_ext _ d d1).
  - apply (validate_string_field_stripped d2); [|done].
    by rewrite (has_column_ext _ d d2).
Qed.

Lemma validate_transaction_types_values (d : DataFrame) (r' : row) :
  has_column "transaction_type" d = true →
  In r' (rows (validate_transaction_types d)) →
  ∃ t, In t transaction_types ∧ cell r' "transaction_type" = VStr t.
Proof.
  intros Hhas. unfold validate_transaction_types. cbv zeta. rewrite Hhas.
  assert (∀ v, isin v transaction_types = true →
               ∃ t, In t transaction_types ∧ v = VStr t) as Hisin.
  { intros v Hv. destruct v; try done. simpl in Hv.
    apply bool_decide_eq_true, list_elem_of_In in Hv. eauto. }
  destruct (existsb _ _) eqn:Eex.
  - intros Hin. apply In_assign in Hin as (r & Hr & ->). rewrite cell_insert.
    destruct (negb _) eqn:E.
    + exists "UNKNOWN". split; [simpl; tauto|done].
    + apply negb_false_iff in E. by apply Hisin.
  - intros Hin. apply Hisin.
    destruct (isin (cell r' "transaction_type") transaction_types) eqn:E; [done|].
    apply not_true_iff_false in Eex. exfalso. apply Eex.
    apply existsb_exists. exists r'. split; [done|].
    apply negb_true_iff. exact E.
Qed.


(** The normalizer's result on a batch with amounts: the columns are those
    of the input, there are no more rows, the identifiers are stripped and
    not empty, and the transaction types are the known ones. *)
Lemma validate_column_types_fields (s : processor) (r : ref) (d : DataFrame) :
  heap s !! r = Some d → has_column "amount" d = true →
  aware_dates config d = false →
  ∃ d2 k,
    validate_column_types config r s
    = (Returned (length (heap s)),
       mkProcessor (heap s ++ [d2]) (quality_report s) (clock s + k)
                   (entered s ++ [m_validate_column_types]))
    ∧ columns d2 = columns d
    ∧ (len d2 ≤ len d)%nat
    ∧ (∀ x field, In x (rows d2) → In field string_fields →
         has_column field d = true → stripped (cell x field))
    ∧ (∀ x, In x (rows d2) → has_column "transaction_type" d = true →
         ∃ t, In t transaction_types ∧ cell x "transaction_type" = VStr t).
Proof.
  intros Hd Ha Hnaive. unfold validate_column_types.
  do 2 step. rewrite bind_run. unfold getitem. rewrite Ha.
  unfold mret at 1, M_ret at 1. cbv beta iota.
  set (da := round_amounts config _).
  set (s0 := mkProcessor _ _ _ _).
  assert (columns da = columns d) as Hca by by apply amounts_columns.
  destruct (validate_dates_shape da s0) as (dd & k & Hrun & Hcd & Hld).
  { by rewrite (has_column_ext _ d da). }
  rewrite bind_run, Hrun. cbv beta iota. unfold alloc. simpl.
  exists (validate_transaction_types (validate_strings dd)), k.
  split; [done|].
  assert (columns (validate_strings dd) = columns d) as Hcs
    by (by rewrite validate_strings_columns, Hcd, Hca).
  split; [by rewrite validate_transaction_types_columns|].
  split; [|split].
  - rewrite len_validate_transaction_types.
    etransitivity; [apply len_validate_strings|].
    etransitivity; [exact Hld|]. subst da. unfold round_amounts.
    rewrite len_assign.
    etransitivity; [apply len_validate_amount_ranges|apply len_convert_amounts].
  - intros x field Hx Hfield Hhas.
    apply validate_transaction_types_rows in Hx as (x1 & Hx1 & Ht).
    rewrite (agree_off_cell _ _ _ _ Ht).
    + apply (validate_strings_stripped dd); [done| |done].
      by rewrite (has_column_ext _ d dd) by (by rewrite Hcd, Hca).
    + simpl in *. intuition (subst; discriminate).
  - intros x Hx Hhas.
    apply (validate_transaction_types_values (validate_strings dd)); [|done].
    by rewrite (has_column_ext _ d).
Qed.

(** X4. The normalizer raises a KeyError exactly on a batch without an
    amount column, whatever the other columns.  On a batch with amounts it
    raises a TypeError exactly when the batch has dates and some record
    that passes the amount checks has a date with a time zone, which does
    not compare with the clock; no batch whose dates are without a time
    zone is such a batch.  On any other batch it returns a new frame with
    the columns of the batch and no more records than the batch.  It
    leaves the frames it finds as they were. *)
Theorem X4_validate_column_types_shape (s : processor) (r : ref) (d : DataFrame) :
  heap s !! r = Some d →
  (naive_dates d = true → aware_dates config d = false)
  ∧ if has_column "amount" d then
      if aware_dates config d then
        ∃ msg s',
          validate_column_types config r s = (Raised (TypeError msg), s')
          ∧ heap s' = heap s
      else
        ∃ r2 s2 d2,
          validate_column_types config r s = (Returned r2, s2)
          ∧ heap s2 !! r2 = Some d2
          ∧ columns d2 = columns d
          ∧ (len d2 ≤ len d)%nat
          ∧ heap s2 !! r = Some d
    else
      ∃ s', validate_column_types config r s = (Raised (KeyError "amount"), s')
            ∧ heap s' = heap s.
Proof.
  intros Hd. split; [apply naive_dates_aware|].
  pose proof (validate_column_types_run config s r d Hd) as Hrun.
  destruct (has_column "amount" d) eqn:Ha;
    [destruct (aware_dates config d) eqn:Eaware|].
  - destruct Hrun as [msg Hrun]. do 2 eexists. split; [exact Hrun|]. done.
  - destruct (validate_column_types_fields s r d Hd Ha Eaware)
      as (d2 & k & Hrun2 & Hcols & Hlen & _).
    do 3 eexists. split; [exact Hrun2|]. simpl heap.
    split; [apply lookup_alloc|]. split; [done|]. split; [done|].
    by apply lookup_alloc_old.
  - eexists. split; [exact Hrun|]. done.
Qed.

(** X5. After the normalizer every identifier (bank_id, customer_id,
    transaction_id, where the batch has the column) is a string that is
    not empty and has no white space around it. *)
Theorem X5_validate_column_types_identifiers (s : processor) (r r2 : ref)
    (d : DataFrame) :
  heap s !! r = Some d →
  (validate_column_types config r s).1 = Returned r2 →
  ∃ d2,
    heap (validate_column_types config r s).2 !! r2 = Some d2
    ∧ ∀ x field,
        In x (rows d2) →
        In field ["bank_id"; "customer_id"; "transaction_id"] →
        has_column field d = true →
        ∃ id, cell x field = VStr id ∧ id ≠ EmptyString ∧ strip id = id.
Proof.
  intros Hd Hrun.
  pose proof (validate_column_types_run config s r d Hd) as Hrun'.
  destruct (has_column "amount" d) eqn:Ha;
    [destruct (aware_dates config d) eqn:Eaware|].
  - destruct Hrun' as [msg Hrun']. by rewrite Hrun' in Hrun.
  - destruct (validate_column_types_fields s r d Hd Ha Eaware)
      as (d2 & k & Hrun2 & _ & _ & Hids & _).
    rewrite Hrun2 in *. simpl in Hrun. injection Hrun as <-.
    exists d2. simpl. split; [apply lookup_alloc|].
    intros x field Hx Hfield Hhas. by apply Hids.
  - by rewrite Hrun' in Hrun.
Qed.

(** X6. After the normalizer, on a batch with a transaction_type column,
    every transaction_type is one of TRANSFER, DEPOSIT, WITHDRAWAL, PAYMENT
    and UNKNOWN. *)
Theorem X6_validate_column_types_transaction_type (s : processor) (r r2 : ref)
    (d : DataFrame) :
  heap s !! r = Some d →
  has_column "transaction_type" d = true →
  (validate_column_types config r s).1 = Returned r2 →
  ∃ d2,
    heap (validate_column_types config r s).2 !! r2 = Some d2
    ∧ ∀ x, In x (rows d2) →
        ∃ t, In t ["TRANSFER"; "DEPOSIT"; "WITHDRAWAL"; "PAYMENT"; "UNKNOWN"]
             ∧ cell x "transaction_type" = VStr t.
Proof.
  intros Hd Htt Hrun.
  pose proof (validate_column_types_run config s r d Hd) as Hrun'.
  destruct (has_column "amount" d) eqn:Ha;
    [destruct (aware_dates config d) eqn:Eaware|].
  - destruct Hrun' as [msg Hrun']. by rewrite Hrun' in Hrun.
  - destruct (validate_column_types_fields s r d Hd Ha Eaware)
      as (d2 & k & Hrun2 & _ & _ & _ & Htypes).
    rewrite Hrun2 in *. simpl in Hrun. injection Hrun as <-.
    exists d2. simpl. split; [apply lookup_alloc|].
    intros x Hx. by apply Htypes.
  - by rewrite Hrun' in Hrun.
Qed.


Lemma filter_id_nil (mask : list bool) (i : nat) (b : bool) :
  List.filter id mask = [] → mask !! i = Some b → b = false.
Proof.
  revert i. induction mask as [|c mask IH]; intros i Hnone Hi; [done|].
  simpl in Hnone. destruct c; [done|].
  destruct i as [|i]; simpl in Hi; [congruence|]. by apply (IH i).
Qed.

Lemma pick_count {A : Type} (mask : list bool) (l : list A) :
  length mask = length l → length (pick mask l) = count_true mask.
Proof.
  unfold count_true. revert l.
  induction mask as [|b mask IH]; intros [|x l] Hlen; simpl in *; try done.
  destruct b; simpl; rewrite IH; lia.
Qed.

Lemma len_deduplicated (d : DataFrame) :
  (len (deduplicated d) + count_true (duplicated (available d) d) = len d)%nat.
Proof.
  unfold len, deduplicated. simpl.
  assert (length (duplicated (available d) d) = length (rows d)) as Hlen
    by apply duplicated_after_length.
  rewrite <- (pick_count _ (rows d) Hlen), Nat.add_comm.
  by apply pick_lengths.
Qed.

(** The fields of the report that count cells and records of the original
    batch. *)
Lemma generate_quality_report_counts (s : processor) (ro rc ra : ref)
    (o c a : DataFrame) :
  heap s !! ro = Some o → heap s !! rc = Some c → heap s !! ra = Some a →
  ∃ report s',
    generate_quality_report config ro rc ra s = (Returned report, s')
    ∧ heap s' = heap s
    ∧ null_records report
      = fold_left
          (λ n col, if has_column col o
                    then add_int64 n (count (λ x, isnull (cell x col)) o) else n)
          (required_columns config) (Int 0)
    ∧ invalid_amounts report
      = (if has_column "amount" o
         then Int64 (count (λ x, isnull (to_numeric (cell x "amount"))) o)
         else Int 0)
    ∧ duplicate_records report = Int64 (count_true (duplicated (available o) o)).
Proof.
  intros Ho Hc Ha. unfold generate_quality_report.
  do 6 step.
  unfold mret, M_ret. simpl heap. simpl clock. simpl entered.
  do 2 eexists. split; [reflexivity|]. simpl. done.
Qed.

(** X7. With [remove_duplicates] set, no two records of the batch the
    duplicate detector returns carry the same identity key. *)
Theorem X7_detect_duplicates_distinct_keys (s : processor) (r : ref) (d : DataFrame) :
  heap s !! r = Some d → remove_duplicates config = true →
  ∃ r' s' d',
    detect_duplicates config r s = (Returned r', s')
    ∧ heap s' !! r' = Some d'
    ∧ ∀ i j x y,
        (i < j)%nat → rows d' !! i = Some x → rows d' !! j = Some y →
        same_key (available d) x y = false.
Proof.
  intros Hd Hrd.
  destruct (detect_duplicates_spec config s r d Hd) as (r' & s' & Hrun & Hr' & _).
  rewrite Hrd in Hr'. exists r', s', (deduplicated d).
  split; [exact Hrun|]. split; [exact Hr'|].
  intros i j x y Hij Hx Hy.
  pose proof (deduplicated_idempotent d) as Hnone.
  pose proof (duplicated_after_lookup (available d) (rows (deduplicated d)) [] j y Hy)
    as Hj.
  apply (filter_id_nil _ _ _ Hnone) in Hj. simpl in Hj.
  destruct (same_key (available d) x y) eqn:E; [|done].
  apply not_true_iff_false in Hj. exfalso. apply Hj.
  apply existsb_exists. exists x. split; [|done].
  apply list_elem_of_In, elem_of_take. eauto.
Qed.

(** X8. With [remove_duplicates] set, the duplicate detector removes from
    a batch as many records as the quality reporter counts as
    [duplicate_records] on that batch; with the option unset it returns the
    batch as it is, whatever the reporter counts. *)
Theorem X8_duplicates_removed_as_reported (s : processor) (r rc ra : ref)
    (d c a : DataFrame) :
  heap s !! r = Some d → heap s !! rc = Some c → heap s !! ra = Some a →
  ∃ r' s' d' report s'',
    detect_duplicates config r s = (Returned r', s')
    ∧ heap s' !! r' = Some d'
    ∧ generate_quality_report config r rc ra s = (Returned report, s'')
    ∧ if remove_duplicates config
      then (len d' + int_value (duplicate_records report) = len d)%nat
      else d' = d.
Proof.
  intros Hd Hc Ha.
  destruct (detect_duplicates_spec config s r d Hd) as (r' & s' & Hrun & Hr' & _).
  destruct (generate_quality_report_counts s r rc ra d c a Hd Hc Ha)
    as (report & s'' & Hreport & _ & _ & _ & Hdup).
  exists r', s', (if remove_duplicates config then deduplicated d else d), report, s''.
  split; [exact Hrun|]. split; [exact Hr'|]. split; [exact Hreport|].
  destruct (remove_duplicates config); [|done].
  rewrite Hdup. apply len_deduplicated.
Qed.

(** X9. With [handle_outliers] set, the anomaly detector raises a KeyError
    on a batch without a bank_id or without an amount column, before it
    writes anything. *)
Theorem X9_detect_anomalies_missing_column (s : processor) (r : ref) (d : DataFrame) :
  heap s !! r = Some d → handle_outliers config = true →
  has_column "bank_id" d = false ∨ has_column "amount" d = false →
  ∃ col s',
    detect_anomalies config r s = (Raised (KeyError col), s')
    ∧ In col ["bank_id"; "amount"]
    ∧ has_column col d = false
    ∧ heap s' = heap s.
Proof.
  intros Hd Hho Hmiss.
  rewrite (detect_anomalies_run config s r d Hd), Hho. cbn [negb]. cbv zeta.
  destruct (has_column "bank_id" d) eqn:Eb; cbn [negb].
  - destruct Hmiss as [|Ea]; [done|]. rewrite Ea. cbn [negb].
    do 2 eexists. split; [reflexivity|]. simpl. auto.
  - do 2 eexists. split; [reflexivity|]. simpl. auto.
Qed.

Lemma score_bounds (valid total : nat) :
  (valid ≤ total)%nat → (0 <= score valid total ∧ score valid total <= 100)%Q.
Proof.
  intros Hle. unfold score. destruct (0 <? total)%nat eqn:E; [|split; lra].
  apply Nat.ltb_lt in E.
  assert (0 < inject_Z (Z.of_nat total))%Q as Hpos.
  { change 0%Q with (inject_Z 0). rewrite <- Zlt_Qlt. lia. }
  assert (0 <= inject_Z (Z.of_nat valid))%Q as Hv.
  { change 0%Q with (inject_Z 0). rewrite <- Zle_Qle. lia. }
  assert (inject_Z (Z.of_nat valid) <= inject_Z (Z.of_nat total))%Q as Hvt.
  { rewrite <- Zle_Qle. lia. }
  assert (0 <= inject_Z (Z.of_nat valid) / inject_Z (Z.of_nat total))%Q as H0.
  { apply Qle_shift_div_l; [done|]. lra. }
  assert (inject_Z (Z.of_nat valid) / inject_Z (Z.of_nat total) <= 1)%Q as H1.
  { apply Qle_shift_div_r; [done|]. lra. }
  split; lra.
Qed.

(** X12. When the cleaned batch has no more records than the original,
    the report's [quality_score] is between 0 and 100. *)
Theorem X12_quality_score_bounds (s : processor) (ro rc ra : ref)
    (o c a : DataFrame) :
  heap s !! ro = Some o → heap s !! rc = Some c → heap s !! ra = Some a →
  (len c ≤ len o)%nat →
  ∃ report s',
    generate_quality_report config ro rc ra s = (Returned report, s')
    ∧ (0 <= quality_score report)%Q ∧ (quality_score report <= 100)%Q.
Proof.
  intros Ho Hc Ha Hle.
  destruct (generate_quality_report_run config s ro rc ra o c a Ho Hc Ha)
    as (report & Hrun & _ & _ & _ & Hq & _).
  exists report. eexists. split; [exact Hrun|]. rewrite Hq.
  destruct (score_bounds (len c) (len o) Hle) as [H0 H100].
  split; [by apply round_nonneg|].
  assert (round 100 2 == 100)%Q as <- by reflexivity.
  by apply round_mono.
Qed.


Lemma has_column_drop (col : string) (d : DataFrame) :
  has_column col (drop col d) = false.
Proof.
  unfold has_column, drop. simpl. apply bool_decide_eq_false.
  rewrite list_elem_of_In, filter_In, negb_true_iff, bool_decide_eq_false. tauto.
Qed.

Lemma anomaly_set_scores (d : DataFrame) (a : row) :
  In a (rows (anomaly_set config d)) →
  ∃ x z, In x (rows d) ∧ a = <["amount_zscore" := VNum z]> x
         ∧ amount_zscore d x = VNum z
         ∧ (anomaly_threshold_std config < z)%Q.
Proof.
  rewrite rows_anomaly_set. intros Hin.
  apply in_map_iff in Hin as (x & <- & Hx). apply filter_In in Hx as [Hx Hgt].
  unfold series_gt in Hgt. destruct (amount_zscore d x) as [|z| | | |] eqn:E; try done.
  exists x, z. split; [done|]. split; [done|]. split; [done|].
  by apply Qltb_lt.
Qed.

(** X10. With [handle_outliers] set, every record of the anomaly set
    carries a z-score above the threshold, the type "statistical_outlier"
    and the time of the detector's reading of the clock; the normal set has
    no amount_zscore column; and when no anomaly is found the anomaly set
    gets no anomaly_type and detected_at columns. *)
Theorem X10_detect_anomalies_tags (s : processor) (r normal anomalies : ref)
    (d : DataFrame) :
  heap s !! r = Some d → handle_outliers config = true →
  (detect_anomalies config r s).1 = Returned (normal, anomalies) →
  let s' := (detect_anomalies config r s).2 in
  ∃ dn da,
    heap s' !! normal = Some dn
    ∧ heap s' !! anomalies = Some da
    ∧ has_column "amount_zscore" dn = false
    ∧ (∀ a, In a (rows da) →
         cell a "anomaly_type" = VStr "statistical_outlier"
         ∧ cell a "detected_at" = VTime (time_at (clock s))
         ∧ ∃ z, cell a "amount_zscore" = VNum z
                ∧ (anomaly_threshold_std config < z)%Q)
    ∧ (len da = 0%nat →
       has_column "anomaly_type" da = has_column "anomaly_type" d
       ∧ has_column "detected_at" da = has_column "detected_at" d).
Proof.
  intros Hd Hho Hrun s'. subst s'. revert Hrun.
  rewrite (detect_anomalies_run config s r d Hd), Hho. cbn [negb]. cbv zeta.
  destruct (has_column "bank_id" d); cbn [negb]; [|done].
  destruct (has_column "amount" d); cbn [negb]; [|done].
  assert (has_column "amount_zscore" (normal_set config d) = false) as Hn
    by apply has_column_drop.
  destruct (0 <? len (anomaly_set config d))%nat eqn:Eg;
    cbn [fst snd]; intros [= <- <-]; do 2 eexists; simpl heap;
    (split; [apply lookup_app_l_Some, lookup_alloc|]);
    (split; [apply lookup_alloc|]); (split; [exact Hn|]).
  - split.
    + intros a Hin. unfold tagged in Hin.
      apply In_assign in Hin as (a1 & Hin & ->).
      apply In_assign in Hin as (a0 & Hin & ->).
      apply anomaly_set_scores in Hin as (x & z & _ & -> & _ & Hz).
      rewrite cell_insert, cell_insert_ne, cell_insert by done.
      split; [done|]. split; [done|]. exists z.
      by rewrite !cell_insert_ne, cell_insert by done.
    + rewrite len_tagged. apply Nat.ltb_lt in Eg. lia.
  - split.
    + intros a Hin. apply Nat.ltb_ge in Eg. unfold len in Eg.
      destruct (rows (anomaly_set config d)); [done|simpl in Eg; lia].
    + intros _. unfold anomaly_set, scored, select, assign, has_column. simpl.
      split; apply bool_decide_ext; destruct (bool_decide _);
        rewrite ?elem_of_app, ?list_elem_of_singleton; intuition discriminate.
Qed.


(** In a partition of at most ten amounts no z-score exceeds 3, for a mean
    that is exact and a standard deviation that is accurate to 5 percent. *)
Lemma amount_zscore_small_partition (d : DataFrame) (x : row) (z : Q) :
  In x (rows d) →
  (length (group_amounts d (cell x "bank_id")) ≤ 10)%nat →
  (∀ m v, mean (group_amounts d (cell x "bank_id")) = Some m →
          var (group_amounts d (cell x "bank_id")) = Some v →
          (series_mean (group_amounts d (cell x "bank_id")) == m)%Q
          ∧ (9 * v <= 10 * (series_std (group_amounts d (cell x "bank_id"))
                           * series_std (group_amounts d (cell x "bank_id"))))%Q) →
  amount_zscore d x = VNum z → (z <= 3)%Q.
Proof.
  intros Hx Hlen Hlib. unfold amount_zscore. cbv zeta.
  destruct (isnull (cell x "bank_id")); [done|].
  set (g := group_amounts d (cell x "bank_id")) in *.
  destruct (Series_std g) as [s0|] eqn:Estd; [|intros [= <-]; lra].
  destruct (Qltb 0 s0) eqn:Es; [|intros [= <-]; lra].
  apply Qltb_lt in Es.
  destruct (cell x "amount") as [|a| | | |] eqn:Ea; cbn [numeric]; try done.
  destruct (Series_mean g) as [c|] eqn:Emean; [|done]. intros Hz.
  apply (f_equal (λ w, match w with VNum q => q | _ => 0%Q end)) in Hz.
  cbv beta iota in Hz. subst z.
  pose proof (group_amounts_own d x a Hx Ea) as Hin. fold g in Hin.
  assert (∃ m v, mean g = Some m ∧ var g = Some v
                 ∧ c = series_mean g ∧ s0 = series_std g)
    as (m & v & Em & Ev & -> & ->).
  { unfold Series_std, Series_mean, mean, var in *.
    destruct g as [|y [|y' g']]; try done.
    injection Estd as <-. injection Emean as <-. eauto 10. }
  destruct (Hlib m v Em Ev) as [Hc Hs].
  destruct (var_mean_bound g a m v Hin Em Ev) as [Hv Hb].
  assert (Qlen g <= 10)%Q as Hn10.
  { unfold Qlen. change 10%Q with (inject_Z 10). rewrite <- Zle_Qle. lia. }
  assert (1 <= Qlen g)%Q as Hn1.
  { destruct g as [|y g']; [done|]. rewrite Qlen_cons.
    pose proof (Qlen_nonneg g'). lra. }
  set (n := Qlen g) in *. set (s0 := series_std g) in *.
  set (dev := (a - series_mean g)%Q).
  assert (dev * dev == (a - m) * (a - m))%Q as Hdev.
  { unfold dev. rewrite Hc. reflexivity. }
  assert (10 * (dev * dev) <= 81 * v)%Q as H1.
  { rewrite Hdev.
    assert (0 <= v * ((10 * n - 1) * (10 - n)))%Q as Hprod.
    { apply Qmult_le_0_compat; [done|]. apply Qmult_le_0_compat; lra. }
    assert (n * (10 * ((a - m) * (a - m))) <= n * (81 * v))%Q as Hn; [nra|].
    apply Qmult_lt_0_le_reg_r with (z := n); [lra|].
    rewrite !(Qmult_comm _ n). exact Hn. }
  assert (dev * dev <= 9 * (s0 * s0))%Q as H2 by lra.
  destruct (square_le dev (3 * s0)) as [Hlo Hhi]; [lra| |].
  { assert (3 * s0 * (3 * s0) == 9 * (s0 * s0))%Q as -> by ring. exact H2. }
  apply Qabs_Qle_condition. split.
  - apply Qle_shift_div_l; [done|]. lra.
  - apply Qle_shift_div_r; [done|]. lra.
Qed.

Lemma square_le_sum (ds : list Q) (dev : Q) :
  In dev ds → (dev * dev <= Qsum (squares ds))%Q.
Proof.
  induction ds as [|y ds IH]; [done|]. simpl. fold (Qsum (squares ds)).
  pose proof (Qsum_squares_nonneg ds) as Hnn. intros [->|Hin].
  - lra.
  - pose proof (IH Hin). pose proof (Qsquare_nonneg y). lra.
Qed.

(** In a partition of at most nine amounts no z-score exceeds 3, whatever
    the mean the library returns, for a standard deviation that is accurate
    to 5 percent about that mean. *)
Lemma amount_zscore_nine (d : DataFrame) (x : row) (z : Q) :
  In x (rows d) →
  (length (group_amounts d (cell x "bank_id")) ≤ 9)%nat →
  deviation_accurate (group_amounts d (cell x "bank_id")) →
  amount_zscore d x = VNum z → (z <= 3)%Q.
Proof.
  intros Hx Hlen Hlib. unfold amount_zscore. cbv zeta.
  destruct (isnull (cell x "bank_id")); [done|].
  set (g := group_amounts d (cell x "bank_id")) in *.
  destruct (Series_std g) as [s0|] eqn:Estd; [|intros [= <-]; lra].
  destruct (Qltb 0 s0) eqn:Es; [|intros [= <-]; lra].
  apply Qltb_lt in Es.
  destruct (cell x "amount") as [|a| | | |] eqn:Ea; cbn [numeric]; try done.
  destruct (Series_mean g) as [c|] eqn:Emean; [|done]. intros Hz.
  apply (f_equal (λ w, match w with VNum q => q | _ => 0%Q end)) in Hz.
  cbv beta iota in Hz. subst z.
  pose proof (group_amounts_own d x a Hx Ea) as Hin. fold g in Hin.
  assert (c = series_mean g ∧ s0 = series_std g) as [-> ->].
  { unfold Series_std, Series_mean in *.
    destruct g as [|y [|y' g']]; try done.
    injection Estd as <-. by injection Emean as <-. }
  unfold deviation_accurate in Hlib.
  set (ds := map (λ y, y - series_mean g)%Q g) in *.
  assert (In (a - series_mean g)%Q ds) as Hdev
    by (unfold ds; apply in_map_iff; eauto).
  apply square_le_sum in Hdev.
  assert (Qlen g <= 9)%Q as Hn9.
  { unfold Qlen. change 9%Q with (inject_Z 9). rewrite <- Zle_Qle. lia. }
  set (n := Qlen g) in *. set (s0 := series_std g) in *.
  set (dev := (a - series_mean g)%Q) in *.
  pose proof (Qsquare_nonneg s0) as Hs0.
  assert ((n - 1) * (s0 * s0) <= 8 * (s0 * s0))%Q as Hn by nra.
  assert (dev * dev <= 9 * (s0 * s0))%Q as H2 by lra.
  destruct (square_le dev (3 * s0)) as [Hlo Hhi]; [lra| |].
  { assert (3 * s0 * (3 * s0) == 9 * (s0 * s0))%Q as -> by ring. exact H2. }
  apply Qabs_Qle_condition. split.
  - apply Qle_shift_div_l; [done|]. lra.
  - apply Qle_shift_div_r; [done|]. lra.
Qed.

(** X11. With a threshold of 3 or more, a mean that is computed exactly
    and a standard deviation that is within 5 percent, every anomaly
    belongs to a bank with more than ten amounts in the batch: among n
    values none is further than (n - 1) / sqrt n sample deviations from
    their mean, which is below 3 up to n = 10. *)
Theorem X11_small_partition_no_anomaly (s : processor) (r : ref) (d : DataFrame) :
  heap s !! r = Some d →
  has_column "bank_id" d = true → has_column "amount" d = true →
  handle_outliers config = true →
  (3 <= anomaly_threshold_std config)%Q →
  (∀ x m v, In x (rows d) →
            mean (group_amounts d (cell x "bank_id")) = Some m →
            var (group_amounts d (cell x "bank_id")) = Some v →
            (series_mean (group_amounts d (cell x "bank_id")) == m)%Q
            ∧ (9 * v <= 10 * (series_std (group_amounts d (cell x "bank_id"))
                             * series_std (group_amounts d (cell x "bank_id"))))%Q) →
  ∃ normal anomalies s' da,
    detect_anomalies config r s = (Returned (normal, anomalies), s')
    ∧ heap s' !! anomalies = Some da
    ∧ ∀ a, In a (rows da) →
        (10 < length (group_amounts d (cell a "bank_id")))%nat.
Proof.
  intros Hd Hb Ha Hho Hthr Hsqrt.
  rewrite (detect_anomalies_run config s r d Hd), Hho, Hb, Ha. cbn [negb]. cbv zeta.
  assert (∀ a, In a (rows (anomaly_set config d)) →
               (10 < length (group_amounts d (cell a "bank_id")))%nat) as Hset.
  { intros a Hin. apply anomaly_set_scores in Hin as (x & z & Hx & -> & Hz & Hgt).
    rewrite cell_insert_ne by done.
    apply Nat.lt_nge. intros Hle.
    pose proof (amount_zscore_small_partition d x z Hx Hle
                  (λ m v, Hsqrt x m v Hx) Hz).
    lra. }
  destruct (0 <? len (anomaly_set config d))%nat;
    do 4 eexists; (split; [reflexivity|]); simpl heap;
    (split; [apply lookup_alloc|]); [|exact Hset].
  intros a Hin. unfold tagged in Hin.
  apply In_assign in Hin as (a1 & Hin & ->).
  apply In_assign in Hin as (a0 & Hin & ->).
  rewrite !cell_insert_ne by done. by apply Hset.
Qed.

(** X25. With a threshold of 3 or more, and a standard deviation that the
    library computes to within 5 percent about the mean it computes (the
    square of the one is at least 0.9 of the sum of the squared distances
    to the other, over n - 1), every anomaly belongs to a bank with more
    than nine amounts in the batch, however the mean is rounded: no value
    among n is further from any point than the square root of the sum of
    the squared distances to it. *)
Theorem X25_nine_records_no_anomaly (s : processor) (r : ref) (d : DataFrame) :
  heap s !! r = Some d →
  has_column "bank_id" d = true → has_column "amount" d = true →
  handle_outliers config = true →
  (3 <= anomaly_threshold_std config)%Q →
  (∀ x, In x (rows d) → deviation_accurate (group_amounts d (cell x "bank_id"))) →
  ∃ normal anomalies s' da,
    detect_anomalies config r s = (Returned (normal, anomalies), s')
    ∧ heap s' !! anomalies = Some da
    ∧ ∀ a, In a (rows da) →
        (9 < length (group_amounts d (cell a "bank_id")))%nat.
Proof.
  intros Hd Hb Ha Hho Hthr Hlib.
  rewrite (detect_anomalies_run config s r d Hd), Hho, Hb, Ha. cbn [negb]. cbv zeta.
  assert (∀ a, In a (rows (anomaly_set config d)) →
               (9 < length (group_amounts d (cell a "bank_id")))%nat) as Hset.
  { intros a Hin. apply anomaly_set_scores in Hin as (x & z & Hx & -> & Hz & Hgt).
    rewrite cell_insert_ne by done.
    apply Nat.lt_nge. intros Hle.
    pose proof (amount_zscore_nine d x z Hx Hle (Hlib x Hx) Hz).
    lra. }
  destruct (0 <? len (anomaly_set config d))%nat;
    do 4 eexists; (split; [reflexivity|]); simpl heap;
    (split; [apply lookup_alloc|]); [|exact Hset].
  intros a Hin. unfold tagged in Hin.
  apply In_assign in Hin as (a1 & Hin & ->).
  apply In_assign in Hin as (a0 & Hin & ->).
  rewrite !cell_insert_ne by done. by apply Hset.
Qed.

(** ** Aggregator *)

Lemma columns_dated (d : DataFrame) :
  has_column "transaction_date" d = true → columns (dated d) = columns d.
Proof. apply columns_assign. Qed.

(** The run of the aggregator on a batch that has the columns it reads, no
    transaction_type column, and dates that convert. *)
Lemma aggregate_daily_transactions_run (s : processor) (r : ref) (d : DataFrame) :
  heap s !! r = Some d →
  (∀ col, In col pipeline_columns → has_column col d = true) →
  has_column "transaction_type" d = false →
  (∀ x, In x (rows d) → is_Some (to_datetime_raise (cell x "transaction_date"))) →
  aggregate_daily_transactions r s
  = (Returned (length (heap s)),
     mkProcessor
       (<[r := dated d]> (heap s)
        ++ [daily_agg (dated d) (time_at (clock s))
              (from_option quality_score 100%Q (quality_report s))])
       (quality_report s) (S (clock s))
       (entered s ++ [m_aggregate_daily_transactions])).
Proof.
  intros Hd Hcols Htt Hdates. unfold aggregate_daily_transactions.
  do 2 step.
  rewrite (Hcols "transaction_date") by (simpl; auto).
  rewrite bind_assoc_run, bind_run, for_each_dates by done. cbv beta iota.
  step. rewrite bind_run. unfold load at 1. simpl heap.
  rewrite list_lookup_insert_eq by (by eapply lookup_lt_Some).
  cbv beta iota. fold (dated d).
  set (d' := dated d).
  assert (columns d' = columns d) as Hc.
  { apply columns_assign, Hcols. simpl. auto. }
  set (s1 := mkProcessor _ _ _ _).
  assert (∀ col, has_column col d' = has_column col d) as Hhas.
  { intros col. by apply has_column_ext. }
  rewrite bind_run, for_each_getitem.
  assert (List.find (λ col, negb (has_column col d'))
            ["bank_id"; "transaction_date"] = None) as ->.
  { apply find_missing_none. intros col Hin. rewrite Hhas. apply Hcols.
    simpl in *. tauto. }
  cbv beta iota. unfold agg_funcs. rewrite Hhas, Htt.
  rewrite bind_run, for_each_getitem.
  assert (List.find (λ col, negb (has_column col d'))
            (map fst
               ([("amount", ["sum"; "count"; "mean"; "std"; "median"; "min"; "max"]);
                 ("customer_id", ["nunique"]); ("transaction_id", ["nunique"])]
                ++ [])) = None) as ->.
  { apply find_missing_none. intros col Hin. rewrite Hhas. apply Hcols.
    simpl in *. tauto. }
  cbv beta iota. rewrite bind_run.
  lazymatch goal with
  | |- context [if ?c then raise _ else _] => replace c with false by reflexivity
  end.
  unfold mret at 1, M_ret at 1. cbv beta iota.
  do 2 step. unfold alloc. cbn [heap quality_report clock entered s1].
  rewrite length_insert. reflexivity.
Qed.


Lemma rows_daily_agg (d : DataFrame) (t : Z) (q : Q) :
  rows (daily_agg d t q) = map (aggregated_row d t q) (groups d).
Proof. unfold daily_agg. cbn [rows assign]. by rewrite !map_map. Qed.

Lemma columns_daily_agg (d : DataFrame) (t : Z) (q : Q) :
  columns (daily_agg d t q) = aggregated_columns.
Proof. reflexivity. Qed.

Lemma len_daily_agg (d : DataFrame) (t : Z) (q : Q) :
  len (daily_agg d t q) = length (groups d).
Proof. unfold len. by rewrite rows_daily_agg, length_map. Qed.


Lemma cell_fmap (f : value → value) (a : row) (col : string) :
  cell (f <$> a) col = from_option f VNull (a !! col).
Proof. unfold cell. rewrite lookup_fmap. by destruct (a !! col). Qed.


(** The loop over the dates of a batch raises at the first date that does
    not convert, and changes nothing. *)
Lemma for_each_dates_run (l : list row) (s : processor) :
  for_each l
    (λ x, match to_datetime_raise (cell x "transaction_date") with
          | Some _ => mret ()
          | None => raise (ValueError "Unknown datetime string format")
          end) s
  = if forallb (λ x, bool_decide (is_Some (to_datetime_raise (cell x "transaction_date")))) l
    then (Returned (), s)
    else (Raised (ValueError "Unknown datetime string format"), s).
Proof.
  induction l as [|x l IH]; [done|].
  cbn [for_each forallb]. rewrite bind_run.
  destruct (to_datetime_raise (cell x "transaction_date")) as [v|] eqn:E.
  - unfold mret at 1, M_ret at 1. rewrite IH.
    by rewrite bool_decide_eq_true_2 by eauto.
  - rewrite bool_decide_eq_false_2; [done|]. by intros [v Hv].
Qed.

(** X15. On a batch with a transaction_date column in which some date
    does not convert, the aggregator raises the [ValueError] of the
    conversion and leaves every frame as it was: no date is written. *)
Theorem X15_aggregate_unparsable_date (s : processor) (r : ref) (d : DataFrame)
    (x : row) :
  heap s !! r = Some d →
  has_column "transaction_date" d = true →
  In x (rows d) → to_datetime_raise (cell x "transaction_date") = None →
  ∃ s',
    aggregate_daily_transactions r s
    = (Raised (ValueError "Unknown datetime string format"), s')
    ∧ heap s' = heap s.
Proof.
  intros Hd Hhas Hx Hnone. unfold aggregate_daily_transactions.
  do 2 step. rewrite Hhas.
  rewrite bind_assoc_run, bind_run, for_each_dates_run.
  assert (forallb (λ x, bool_decide (is_Some (to_datetime_raise (cell x "transaction_date"))))
            (rows d) = false) as ->.
  { apply not_true_iff_false. intros Hall. rewrite forallb_forall in Hall.
    specialize (Hall x Hx). apply bool_decide_eq_true in Hall as [v Hv]. congruence. }
  eexists. split; [reflexivity|]. done.
Qed.

(** X14. On a batch that lacks one of the columns bank_id,
    transaction_date, amount, customer_id and transaction_id, and whose
    dates convert, the aggregator raises a [KeyError] for a column the
    batch lacks. *)
Theorem X14_aggregate_missing_column (s : processor) (r : ref) (d : DataFrame)
    (col : string) :
  heap s !! r = Some d →
  In col ["bank_id"; "transaction_date"; "amount"; "customer_id"; "transaction_id"] →
  has_column col d = false →
  (∀ x, In x (rows d) → is_Some (to_datetime_raise (cell x "transaction_date"))) →
  ∃ missing s',
    aggregate_daily_transactions r s = (Raised (KeyError missing), s')
    ∧ In missing ["bank_id"; "transaction_date"; "amount"; "customer_id";
                  "transaction_id"]
    ∧ has_column missing d = false.
Proof.
  intros Hd Hcol Hmiss Hdates. unfold aggregate_daily_transactions. do 2 step.
  set (s0 := mkProcessor _ _ _ _).
  lazymatch goal with
  | |- context [(_ ≫= ?k) s0] => set (rest := k)
  end.
  assert (∀ d' s1, heap s1 !! r = Some d' → columns d' = columns d →
            ∃ missing s',
              rest () s1 = (Raised (KeyError missing), s')
              ∧ In missing ["bank_id"; "transaction_date"; "amount";
                            "customer_id"; "transaction_id"]
              ∧ has_column missing d = false) as Hrest.
  { intros d' s1 Hd' Hc. subst rest. cbv beta. step.
    assert (∀ c, has_column c d' = has_column c d) as Hhas
      by (intros c; by apply has_column_ext).
    rewrite bind_run, for_each_getitem.
    destruct (List.find _ ["bank_id"; "transaction_date"]) as [c|] eqn:E1.
    { apply find_some in E1 as [Hin Hneg]. rewrite Hhas in Hneg.
      apply negb_true_iff in Hneg.
      do 2 eexists. split; [reflexivity|]. split; [|done]. simpl in *. tauto. }
    cbv beta iota.
    rewrite bind_run, for_each_getitem.
    destruct (List.find _ (map fst _)) as [c|] eqn:E2.
    { apply find_some in E2 as [Hin Hneg]. rewrite Hhas in Hneg.
      apply negb_true_iff in Hneg.
      do 2 eexists. split; [reflexivity|]. split; [|done].
      unfold agg_funcs in Hin. rewrite map_app in Hin.
      apply in_app_iff in Hin as [Hin|Hin]; [simpl in *; tauto|].
      destruct (has_column "transaction_type" d') eqn:Ett; [|done].
      simpl in Hin. destruct Hin as [<-|[]]. rewrite Hhas in Ett. congruence. }
    exfalso.
    pose proof (proj1 (find_missing_none d' _) E1) as H1.
    pose proof (proj1 (find_missing_none d' _) E2) as H2.
    assert (has_column col d' = true) as Hc'.
    { simpl in Hcol. destruct Hcol as [<-|[<-|[<-|[<-|[<-|[]]]]]];
        first [apply H1; simpl; tauto
              |apply H2; unfold agg_funcs; rewrite map_app; apply in_app_iff;
               left; simpl; tauto]. }
    rewrite Hhas in Hc'. congruence. }
  rewrite bind_run.
  destruct (has_column "transaction_date" d) eqn:Etd.
  - rewrite bind_run, for_each_dates_run.
    assert (forallb (λ x, bool_decide (is_Some (to_datetime_raise (cell x "transaction_date"))))
              (rows d) = true) as ->.
    { apply forallb_forall. intros x Hx. apply bool_decide_eq_true. by apply Hdates. }
    cbv beta iota. unfold store at 1. cbv beta iota.
    apply (Hrest (dated d)).
    + simpl. apply list_lookup_insert_eq. by eapply lookup_lt_Some.
    + by apply columns_dated.
  - unfold mret at 1, M_ret at 1. cbv beta iota. by apply (Hrest d).
Qed.


Lemma cell_finished (a : row) (col : string) (v : value) :
  a !! col = Some v →
  cell (series_round 2 <$> (fillna (VNum 0) <$> a)) col
  = series_round 2 (fillna (VNum 0) v).
Proof. intros E. unfold cell. by rewrite !lookup_fmap, E. Qed.

Lemma aggregated_row_metadata (d : DataFrame) (t : Z) (q : Q) (k : value * value) :
  cell (aggregated_row d t q k) "processed_at" = VTime t
  ∧ cell (aggregated_row d t q k) "data_quality_score" = VNum (round q 2).
Proof.
  unfold aggregated_row. cbv zeta. split.
  - rewrite (cell_finished _ _ (VTime t)); [reflexivity|].
    rewrite lookup_insert_ne by discriminate. apply lookup_insert_eq.
  - rewrite (cell_finished _ _ (VNum q)); [reflexivity|]. apply lookup_insert_eq.
Qed.


Lemma aggregated_row_count (d : DataFrame) (t : Z) (q : Q) (k : value * value) :
  numeric (cell (aggregated_row d t q k) "transaction_count")
  = Some (round (inject_Z (Z.of_nat (length (amounts_of d k)))) 2).
Proof.
  unfold aggregated_row. cbv zeta.
  rewrite (cell_finished _ _ (of_nat (length (amounts_of d k)))); [reflexivity|].
  rewrite !lookup_insert_ne by discriminate.
  unfold aggregate_group. cbv zeta. unfold list_to_map. cbn [fold_right fst snd].
  rewrite !lookup_insert_ne by discriminate. apply lookup_insert_eq.
Qed.

(** The transaction counts of the aggregated frame add up to the number of
    keyed records of the batch. *)
Lemma daily_agg_counts (d : DataFrame) (t : Z) (q : Q) :
  (column_sum "transaction_count" (daily_agg d t q)
   == inject_Z (Z.of_nat (count keyed d)))%Q.
Proof.
  unfold column_sum. rewrite rows_daily_agg.
  assert (omap (λ a, numeric (cell a "transaction_count"))
               (map (aggregated_row d t q) (groups d))
          = map (λ k, round (inject_Z (Z.of_nat (length (amounts_of d k)))) 2)
                (groups d)) as ->.
  { apply omap_map_Some. intros k. apply aggregated_row_count. }
  rewrite (Qsum_map_ext _ (λ k, inject_Z (Z.of_nat (length (amounts_of d k))))).
  2: { intros k _. apply round_integer. }
  rewrite Qsum_nat.
  assert (list_sum (map (λ k, length (amounts_of d k)) (groups d)) = count keyed d)
    as ->; [|reflexivity].
  unfold amounts_of, count.
  rewrite (map_ext _ (λ k, length (List.filter
                                     (λ x, same_group (group_of x) k
                                           && bool_decide (is_Some (numeric (cell x "amount"))))
                                     (rows d)))).
  2: { intros k. apply length_omap_filter. }
  rewrite group_partition by apply groups_apart.
  f_equal. apply filter_ext_in. intros x Hx.
  unfold keyed. by rewrite (groups_cover d x Hx).
Qed.

Lemma count_keyed_dated (d : DataFrame) :
  count keyed (dated d)
  = count (λ x, negb (isnull (cell x "bank_id"))
                && negb (isnull (to_datetime (cell x "transaction_date")))
                && bool_decide (is_Some (numeric (cell x "amount")))) d.
Proof.
  unfold count, dated. cbn [rows assign].
  rewrite filter_map_commute, length_map. f_equal. apply filter_ext. intros x.
  unfold keyed. rewrite cell_insert, !cell_insert_ne by discriminate.
  do 2 f_equal.
  by destruct (to_datetime_cases (cell x "transaction_date")) as [->|[t ->]].
Qed.

(** X17. The transaction counts of the aggregated frame add up to the
    number of records of the batch that have a bank, a date and a numeric
    amount: each of them is counted in exactly one group, and the records
    without a bank or a date, or without an amount, are in none. *)
Theorem X17_aggregate_counts (s : processor) (r : ref) (d : DataFrame) :
  heap s !! r = Some d →
  (∀ col, In col ["bank_id"; "customer_id"; "amount"; "transaction_date";
                  "transaction_id"] → has_column col d = true) →
  has_column "transaction_type" d = false →
  (∀ x, In x (rows d) → is_Some (to_datetime_raise (cell x "transaction_date"))) →
  ∃ aggregated s' da,
    aggregate_daily_transactions r s = (Returned aggregated, s')
    ∧ heap s' !! aggregated = Some da
    ∧ (column_sum "transaction_count" da
       == inject_Z (Z.of_nat
            (count (λ x, negb (isnull (cell x "bank_id"))
                         && negb (isnull (to_datetime (cell x "transaction_date")))
                         && bool_decide (is_Some (numeric (cell x "amount")))) d)))%Q.
Proof.
  intros Hd Hcols Htt Hdates.
  rewrite (aggregate_daily_transactions_run s r d Hd Hcols Htt Hdates).
  do 3 eexists. split; [reflexivity|]. simpl heap.
  split; [rewrite <- (length_insert (heap s) r (dated d)); apply lookup_alloc|].
  rewrite daily_agg_counts. by rewrite count_keyed_dated.
Qed.

(** ** Orchestrator *)

(** The run of the aggregator, case by case. *)
Lemma aggregate_daily_transactions_cases (s : processor) (r : ref) (d : DataFrame) :
  heap s !! r = Some d →
  aggregate_daily_transactions r s
  = let s0 := mkProcessor (heap s) (quality_report s) (clock s)
                          (entered s ++ [m_aggregate_daily_transactions]) in
    if has_column "transaction_date" d && negb (dates_convert d) then
      (Raised (ValueError "Unknown datetime string format"), s0)
    else
      let d' := if has_column "transaction_date" d then dated d else d in
      let s1 := mkProcessor
                  (if has_column "transaction_date" d
                   then <[r := dated d]> (heap s) else heap s)
                  (quality_report s) (clock s) (entered s0) in
      match List.find (λ col, negb (has_column col d))
                      ["bank_id"; "transaction_date"; "amount"; "customer_id";
                       "transaction_id"] with
      | Some col => (Raised (KeyError col), s1)
      | None =>
          if has_column "transaction_type" d
          then (Raised (ValueError "Length mismatch"), s1)
          else
            (Returned (length (heap s)),
             mkProcessor
               (heap s1
                ++ [daily_agg d' (time_at (clock s))
                      (from_option quality_score 100%Q (quality_report s))])
               (quality_report s) (S (clock s)) (entered s0))
      end.
Proof.
  intros Hd. unfold aggregate_daily_transactions. do 2 step. cbv zeta.
  set (s0 := mkProcessor _ _ _ _).
  lazymatch goal with
  | |- context [(_ ≫= ?k) s0] => set (rest := k)
  end.
  assert (∀ d' h, h !! r = Some d' → columns d' = columns d → length h = length (heap s) →
            rest () (mkProcessor h (quality_report s) (clock s) (entered s0))
            = match List.find (λ col, negb (has_column col d))
                      ["bank_id"; "transaction_date"; "amount"; "customer_id";
                       "transaction_id"] with
              | Some col =>
                  (Raised (KeyError col),
                   mkProcessor h (quality_report s) (clock s) (entered s0))
              | None =>
                  if has_column "transaction_type" d
                  then (Raised (ValueError "Length mismatch"),
                        mkProcessor h (quality_report s) (clock s) (entered s0))
                  else
                    (Returned (length (heap s)),
                     mkProcessor
                       (h ++ [daily_agg d' (time_at (clock s))
                                (from_option quality_score 100%Q (quality_report s))])
                       (quality_report s) (S (clock s)) (entered s0))
              end) as Hrest.
  { intros d' h Hd' Hc Hlen. subst rest. cbv beta.
    rewrite bind_run. unfold load at 1. cbn [heap]. rewrite Hd'. cbv beta iota.
    assert (∀ col, has_column col d' = has_column col d) as Hhas
      by (intros col; by apply has_column_ext).
    rewrite bind_run, for_each_getitem. unfold agg_funcs.
    cbn [List.find]. rewrite !Hhas.
    destruct (has_column "bank_id" d); cbn [negb]; [|done].
    destruct (has_column "transaction_date" d); cbn [negb]; [|done].
    cbv beta iota. rewrite bind_run, for_each_getitem.
    cbn [map fst app List.find]. rewrite !Hhas.
    destruct (has_column "amount" d); cbn [negb]; [|done].
    destruct (has_column "customer_id" d); cbn [negb]; [|done].
    destruct (has_column "transaction_id" d); cbn [negb]; [|done].
    destruct (has_column "transaction_type" d) eqn:Ett.
    - cbn [map fst app List.find]. rewrite Hhas, Ett. cbn [negb].
      cbv beta iota. rewrite bind_run. reflexivity.
    - cbn [map fst app List.find]. cbv beta iota. rewrite bind_run.
      lazymatch goal with
      | |- context [if ?c then raise _ else _] => replace c with false by reflexivity
      end.
      unfold mret at 1, M_ret at 1. cbv beta iota.
      do 2 step. unfold alloc. cbn [heap quality_report clock entered].
      by rewrite Hlen. }
  rewrite bind_run. unfold dates_convert.
  destruct (has_column "transaction_date" d) eqn:Etd; cbn [andb].
  - rewrite bind_run, for_each_dates_run.
    destruct (forallb _ (rows d)) eqn:Eall; cbn [negb]; [|done].
    cbv beta iota. unfold store at 1. cbv beta iota.
    cbn [heap quality_report clock entered s0].
    rewrite (Hrest (dated d)); [done| | |].
    + apply list_lookup_insert_eq. by eapply lookup_lt_Some.
    + by apply columns_dated.
    + apply length_insert.
  - unfold mret at 1, M_ret at 1. cbv beta iota. unfold s0 at 1.
    by rewrite (Hrest d).
Qed.


Lemma count_le (p : row → bool) (d : DataFrame) : (count p d ≤ len d)%nat.
Proof. apply filter_length_le. Qed.

Lemma series_le_gt (v : value) (x : Q) : series_le v x && series_gt v x = false.
Proof.
  unfold series_le, series_gt, Qltb. destruct (numeric v); [|done].
  by destruct (Qle_bool q x).
Qed.

(** The two sets of the detector hold no more records than its input. *)
Lemma len_normal_anomaly (d : DataFrame) :
  (len (normal_set config d) + len (anomaly_set config d) ≤ len d)%nat.
Proof.
  unfold len. rewrite rows_normal_set, rows_anomaly_set, !length_map.
  rewrite filter_or_length by (intros x _; apply series_le_gt).
  apply filter_length_le.
Qed.

(** A frame with a column is empty when it has no row. *)
Lemma empty_len (d : DataFrame) :
  columns d ≠ [] → empty d = (len d =? 0)%nat.
Proof. unfold empty, len. by destruct (rows d), (columns d). Qed.

Lemma columns_assign_ne (col : string) (f : row → value) (d : DataFrame) :
  columns d ≠ [] → columns (assign col f d) ≠ [].
Proof.
  intros Hne. unfold assign. simpl. destruct (has_column col d); [done|].
  by destruct (columns d).
Qed.

Lemma empty_anomaly_set (d : DataFrame) :
  columns d ≠ [] →
  empty (anomaly_set config d) = (len (anomaly_set config d) =? 0)%nat.
Proof. intros Hne. apply empty_len. by apply columns_assign_ne. Qed.

Lemma empty_tagged (t : Z) (d : DataFrame) :
  columns d ≠ [] →
  empty (tagged t (anomaly_set config d))
  = (len (tagged t (anomaly_set config d)) =? 0)%nat.
Proof. intros Hne. apply empty_len. by do 3 apply columns_assign_ne. Qed.

(** Steps 2 to 5 on a batch that has the critical columns, when they do
    not raise on dates with a time zone: the sizes of the two sets they
    return, and where the sets are. *)
Lemma steps_2_to_5_sizes (s : processor) (r : ref) (d0 : DataFrame) :
  heap s !! r = Some d0 →
  (∀ col, In col critical_fields → has_column col d0 = true) →
  (∃ msg s', steps_2_to_5 config r s = (Raised (TypeError msg), s'))
  ∨ ∃ normal anomalies s' dn da,
      steps_2_to_5 config r s = (Returned (normal, anomalies), s')
      ∧ heap s' !! normal = Some dn
      ∧ heap s' !! anomalies = Some da
      ∧ (len dn + len da ≤ len d0)%nat
      ∧ (length (heap s) ≤ normal)%nat
      ∧ (length (heap s) ≤ anomalies)%nat
      ∧ normal ≠ anomalies
      ∧ empty da = (len da =? 0)%nat.
Proof.
  intros Hd0 Hcrit. unfold steps_2_to_5, steps_2_to_4.
  rewrite !bind_run, (clean_null_values_cleaned s r d0 Hd0 Hcrit).
  cbv beta iota. rewrite bind_run.
  set (s1 := mkProcessor (heap s ++ [cleaned d0]) _ _ _).
  assert (heap s1 !! length (heap s) = Some (cleaned d0)) as Hd1 by apply lookup_alloc.
  assert (has_column "amount" (cleaned d0) = true) as Ha.
  { rewrite (has_column_ext _ d0) by apply columns_cleaned. apply Hcrit. simpl. auto. }
  destruct (aware_dates config (cleaned d0)) eqn:Eaware.
  { left. pose proof (validate_column_types_run config s1 _ (cleaned d0) Hd1) as Hrun.
    rewrite Ha, Eaware in Hrun. destruct Hrun as [msg ->]. eauto. }
  right.
  destruct (validate_column_types_fields s1 _ (cleaned d0) Hd1 Ha Eaware)
    as (d2 & k & Hrun2 & Hcols2 & Hlen2 & _).
  rewrite Hrun2. cbv beta iota.
  set (s2 := mkProcessor (heap s1 ++ [d2]) _ _ _).
  assert (heap s2 !! length (heap s1) = Some d2) as Hd2 by apply lookup_alloc.
  assert (len d2 ≤ len d0)%nat as Hle2.
  { etransitivity; [exact Hlen2|]. rewrite len_cleaned. apply count_le. }
  destruct (detect_duplicates_spec config s2 _ d2 Hd2)
    as (r3 & s3 & Hrun3 & Hd3 & _ & Hr3 & _).
  rewrite Hrun3. cbv beta iota.
  set (d3 := if remove_duplicates config then deduplicated d2 else d2) in *.
  assert (len d3 ≤ len d0)%nat as Hle3.
  { subst d3. destruct (remove_duplicates config); [|done].
    pose proof (len_deduplicated d2). lia. }
  assert (columns d3 = columns d0) as Hcols3.
  { subst d3. destruct (remove_duplicates config);
      rewrite ?deduplicated_columns, Hcols2; apply columns_cleaned. }
  assert (length (heap s) < r3 ∧ r3 < length (heap s3))%nat as [Hr3lo Hr3hi].
  { pose proof (lookup_lt_Some _ _ _ Hd3) as Hlt. split; [|done].
    subst s2 s1. simpl in Hr3. rewrite !length_app in Hr3. simpl in Hr3.
    destruct Hr3 as [->| ->]; lia. }
  rewrite (detect_anomalies_run config s3 r3 d3 Hd3). cbv zeta.
  destruct (handle_outliers config); cbn [negb].
  - rewrite !(has_column_ext _ d0 d3) by done.
    rewrite !Hcrit by (simpl; auto). cbn [negb].
    pose proof (len_normal_anomaly d3) as Hsum.
    assert (columns d3 ≠ []) as Hne.
    { rewrite Hcols3. pose proof (Hcrit "bank_id" ltac:(simpl; auto)) as Hb.
      unfold has_column in Hb. by destruct (columns d0). }
    destruct (0 <? len (anomaly_set config d3))%nat;
      do 5 eexists; (split; [reflexivity|]); simpl heap;
      (split; [apply lookup_app_l_Some, lookup_alloc|]);
      (split; [apply lookup_alloc|]);
      (split; [rewrite ?len_tagged; lia|]);
      (split; [rewrite ?length_app, ?length_insert; simpl; lia|]);
      (split; [rewrite ?length_app, ?length_insert; simpl; lia|]);
      (split; [rewrite ?length_app, ?length_insert; simpl; lia|]);
      by rewrite ?empty_tagged, ?empty_anomaly_set.
  - do 5 eexists. split; [reflexivity|]. simpl heap.
    split; [by apply lookup_alloc_old|]. split; [apply lookup_alloc|].
    change (len DataFrame_new) with 0%nat. repeat split; lia.
Qed.


(** A run of the orchestrator that returns: what it went through and what
    it leaves. *)
Lemma process_returned (s : processor) (r : ref) (d : DataFrame)
    (aggregated anomalies : ref) (report : DataQualityReport) (s' : processor) :
  heap s !! r = Some d →
  process_banking_data config r s = (Returned (aggregated, report, anomalies), s') →
  ∃ normal s5 dn da,
    steps_2_to_5 config r
      (mkProcessor (heap s ++ [d]) (quality_report s) (clock s)
                   (entered s ++ [m_validate_schema]))
    = (Returned (normal, anomalies), s5)
    ∧ heap s5 !! normal = Some dn
    ∧ (len dn + len da ≤ len d)%nat
    ∧ (∀ x, In x (rows dn) →
         ∃ x0, In x0 (rows d) ∧ normalized config d (time_at (clock s5)) x0 x)
    ∧ total_records report = len d
    ∧ valid_records report = len dn
    ∧ anomaly_count report = len da
    ∧ quality_score report = round (score (len dn) (len d)) 2
    ∧ processing_timestamp report = time_at (clock s5)
    ∧ quality_report s' = Some report
    ∧ heap s' !! anomalies = Some da
    ∧ heap s' !! r = Some d
    ∧ heap s' !! aggregated
      = Some (daily_agg (dated dn) (time_at (S (clock s5))) (quality_score report))
    ∧ (∀ col, In col pipeline_columns → has_column col d = true)
    ∧ has_column "transaction_type" d = false
    ∧ empty da = (len da =? 0)%nat.
Proof.
  intros Hd Hrun.
  destruct (schema_errors config d) as [|e l] eqn:Herr.
  2: { rewrite (process_rejected config s r d Hd) in Hrun by (by rewrite Herr). done. }
  rewrite (process_accepted config s r d Hd Herr), bind_run in Hrun.
  set (s1 := mkProcessor (heap s ++ [d]) _ _ _) in *.
  assert (heap s1 !! r = Some d) as Hd1 by (by apply lookup_alloc_old).
  destruct (List.find (λ col, negb (has_column col d)) critical_fields)
    as [col|] eqn:Hfind.
  { destruct (steps_2_to_5_missing config s1 r d col Hd1 Hfind) as [s2 E].
    by rewrite E in Hrun. }
  pose proof (proj1 (find_missing_none d critical_fields) Hfind) as Hcrit.
  destruct (steps_2_to_5_sizes s1 r d Hd1 Hcrit)
    as [(msg & s2 & E)
       |(normal & anomalies' & s5 & dn & da & Hsteps & Hdn & Hda & Hsum & Hn & Ha
         & Hne & Hempty)];
    [by rewrite E in Hrun|].
  destruct (steps_2_to_5_cases config s1 r d Hd1 Hfind)
    as [(msg & s2 & E & _)
       |(normal' & anomalies'' & s5' & dn' & da' & Hsteps' & Hdn' & _ & Hhas & Hrows
         & Hold & _)];
    [by rewrite E in Hsteps|].
  rewrite Hsteps in Hsteps'. injection Hsteps' as <- <- <-.
  rewrite Hdn in Hdn'. injection Hdn' as <-.
  rewrite Hsteps in Hrun. unfold steps_6_to_7 in Hrun.
  assert (heap s5 !! length (heap s) = Some d) as Ho.
  { apply Hold. subst s1. simpl. apply lookup_alloc. }
  destruct (generate_quality_report_run config s5 _ normal anomalies' d dn da Ho Hdn Hda)
    as (report' & Hreport & Ht & Hv & Hac & Hq & _ & Hts).
  rewrite bind_run, Hreport, bind_run in Hrun.
  set (s6 := mkProcessor (heap s5) (Some report') _ _) in *.
  rewrite (aggregate_daily_transactions_cases s6 normal dn Hdn) in Hrun.
  cbv zeta in Hrun.
  destruct (has_column "transaction_date" dn && negb (dates_convert dn)) eqn:Edates;
    [done|].
  destruct (List.find _ ["bank_id"; "transaction_date"; "amount"; "customer_id";
                         "transaction_id"]) as [col|] eqn:Ecols; [done|].
  destruct (has_column "transaction_type" dn) eqn:Ett; [done|].
  injection Hrun as <- <- <- <-.
  pose proof (proj1 (find_missing_none dn _) Ecols) as Hcols.
  rewrite (Hcols "transaction_date") by (simpl; tauto).
  assert (r < length (heap s))%nat as Hr by (by eapply lookup_lt_Some).
  assert (anomalies' < length (heap s5))%nat as Halt by (by eapply lookup_lt_Some).
  assert (length (heap s1) = S (length (heap s))) as Hlen1.
  { subst s1. simpl. rewrite length_app. simpl. lia. }
  exists normal, s5, dn, da.
  split; [done|]. split; [done|]. split; [done|]. split; [done|].
  split; [done|]. split; [done|]. split; [done|]. split; [done|].
  split; [done|]. split; [done|]. cbn [heap s6].
  split.
  { apply lookup_app_l_Some. rewrite list_lookup_insert_ne by done. exact Hda. }
  split.
  { apply lookup_app_l_Some. rewrite list_lookup_insert_ne by lia.
    apply Hold. exact Hd1. }
  split.
  { rewrite <- (length_insert (heap s5) normal (dated dn)).
    rewrite lookup_alloc. cbn [quality_report clock s6 from_option]. done. }
  split.
  - intros col Hcol. rewrite <- Hhas.
    + apply Hcols. unfold pipeline_columns in Hcol. simpl in *. tauto.
    + intros ->. unfold pipeline_columns in Hcol. simpl in Hcol.
      intuition discriminate.
  - split; [by rewrite <- Hhas|exact Hempty].
Qed.


Lemma rint_comp (a b : Q) : (a == b)%Q → rint a = rint b.
Proof.
  intros E. unfold rint. cbv zeta. rewrite (Qfloor_comp a b E).
  assert (a - inject_Z (Qfloor b) == b - inject_Z (Qfloor b))%Q as E'
    by (by rewrite E).
  by rewrite (Qcompare_comp _ _ E' (1 # 2)%Q (1 # 2)%Q (Qeq_refl _)).
Qed.

(** Rounding to two places a second time changes nothing. *)
Lemma round_round (q : Q) : (round (round q 2) 2 == round q 2)%Q.
Proof.
  unfold round. cbn [Z.leb Z.compare].
  set (z := rint (q * inject_Z (10 ^ 2))).
  rewrite (rint_comp (inject_Z z / inject_Z (10 ^ 2) * inject_Z (10 ^ 2)) (inject_Z z)).
  - by rewrite rint_integer.
  - change (inject_Z (10 ^ 2)) with 100%Q. field.
Qed.

Lemma count_all (p : row → bool) (d : DataFrame) :
  (∀ x, In x (rows d) → p x = true) → count p d = len d.
Proof. intros Hall. unfold count, len. by rewrite filter_all. Qed.

(** X18. When the pipeline returns, the report it returns is the one the
    processor stores; its total is the size of the batch received, its
    anomaly count the size of the anomaly frame returned, valid records and
    anomalies together are no more than the total, and its score is between
    0 and 100. *)
Theorem X18_process_report (s : processor) (r : ref) (d : DataFrame)
    (aggregated anomalies : ref) (report : DataQualityReport) :
  heap s !! r = Some d →
  (process_banking_data config r s).1 = Returned (aggregated, report, anomalies) →
  let s' := (process_banking_data config r s).2 in
  ∃ da,
    heap s' !! anomalies = Some da
    ∧ quality_report s' = Some report
    ∧ total_records report = len d
    ∧ anomaly_count report = len da
    ∧ (valid_records report + anomaly_count report ≤ total_records report)%nat
    ∧ (0 <= quality_score report)%Q
    ∧ (quality_score report <= 100)%Q.
Proof.
  intros Hd Hrun s'.
  assert (process_banking_data config r s
          = (Returned (aggregated, report, anomalies), s')) as Hrun'.
  { subst s'. by destruct (process_banking_data config r s) as [o s1];
      simpl in *; subst. }
  destruct (process_returned s r d aggregated anomalies report s' Hd Hrun')
    as (normal & s5 & dn & da & _ & _ & Hsum & _ & Ht & Hv & Hac & Hq & _ & Hqr
        & Hda & _).
  exists da. split; [exact Hda|]. split; [exact Hqr|]. split; [exact Ht|].
  split; [exact Hac|]. split; [lia|]. rewrite Hq.
  destruct (score_bounds (len dn) (len d)) as [H0 H100]; [lia|].
  split; [by apply round_nonneg|].
  assert (round 100 2 == 100)%Q as <- by reflexivity.
  by apply round_mono.
Qed.

(** X19. When the pipeline returns, every row of the aggregated frame
    carries the report's quality score and a processing time not before the
    report's; the transaction counts add up to at most the report's valid
    records, and to exactly that number when every date of the batch
    converts to a date. *)
Theorem X19_process_aggregates (s : processor) (r : ref) (d : DataFrame)
    (aggregated anomalies : ref) (report : DataQualityReport) :
  heap s !! r = Some d →
  (process_banking_data config r s).1 = Returned (aggregated, report, anomalies) →
  let s' := (process_banking_data config r s).2 in
  ∃ dagg,
    heap s' !! aggregated = Some dagg
    ∧ (∀ a, In a (rows dagg) →
         ∃ q t, cell a "data_quality_score" = VNum q
                ∧ (q == quality_score report)%Q
                ∧ cell a "processed_at" = VTime t
                ∧ (processing_timestamp report ≤ t)%Z)
    ∧ (column_sum "transaction_count" dagg
       <= inject_Z (Z.of_nat (valid_records report)))%Q
    ∧ ((∀ x, In x (rows d) → to_datetime (cell x "transaction_date") ≠ VNull) →
       (column_sum "transaction_count" dagg
        == inject_Z (Z.of_nat (valid_records report)))%Q).
Proof.
  intros Hd Hrun s'.
  assert (process_banking_data config r s
          = (Returned (aggregated, report, anomalies), s')) as Hrun'.
  { subst s'. by destruct (process_banking_data config r s) as [o s1];
      simpl in *; subst. }
  destruct (process_returned s r d aggregated anomalies report s' Hd Hrun')
    as (normal & s5 & dn & da & _ & _ & _ & Hrows & _ & Hv & _ & Hq & Hts & _
        & _ & _ & Hagg & Hcols & _).
  eexists. split; [exact Hagg|]. split; [|split].
  - intros a Ha. rewrite rows_daily_agg in Ha.
    apply in_map_iff in Ha as (k & <- & _).
    destruct (aggregated_row_metadata (dated dn) (time_at (S (clock s5)))
                (quality_score report) k) as [Hp Hs].
    do 2 eexists. split; [exact Hs|]. split.
    + rewrite Hq. apply round_round.
    + split; [exact Hp|]. rewrite Hts. apply time_mono. lia.
  - rewrite daily_agg_counts, Hv, <- Zle_Qle. apply inj_le.
    etransitivity; [apply count_le|]. unfold len, dated. simpl.
    by rewrite length_map.
  - intros Hparse. rewrite daily_agg_counts, Hv.
    rewrite count_all; [unfold len, dated; simpl; by rewrite length_map|].
    intros x' Hx'. unfold dated in Hx'.
    apply In_assign in Hx' as (x & Hx & ->).
    destruct (Hrows x Hx) as (x0 & Hx0 & _ & (q & _ & _ & _ & Ham) & Hdate & Hstr).
    destruct (Hstr "bank_id") as [b Hb];
      [simpl; auto|apply Hcols; simpl; auto|].
    destruct Hdate as [Hdt _]; [apply Hcols; simpl; auto|].
    unfold keyed. rewrite cell_insert, !cell_insert_ne by discriminate.
    rewrite Hb, Ham, Hdt. cbn [isnull negb andb numeric].
    specialize (Hparse x0 Hx0).
    destruct (to_datetime_cases (cell x0 "transaction_date")) as [E|[t E]];
      [done|]. rewrite E. reflexivity.
Qed.

(** X20. The pipeline leaves the batch it received as it was, whether it
    returns or raises: the stages that write into their input are given
    frames made along the way. *)
Theorem X20_process_preserves_batch (s : processor) (r : ref) (d : DataFrame) :
  heap s !! r = Some d →
  heap (process_banking_data config r s).2 !! r = Some d.
Proof.
  intros Hd.
  destruct (process_banking_data config r s) as [[[[agg rep] an]|e] s'] eqn:Hrun.
  { destruct (process_returned s r d agg an rep s' Hd Hrun)
      as (normal & s5 & dn & da & H). simpl. apply H. }
  simpl.
  destruct (schema_errors config d) as [|e0 l] eqn:Herr.
  2: { rewrite (process_rejected config s r d Hd) in Hrun by (by rewrite Herr).
       injection Hrun as <- <-. simpl. by apply lookup_alloc_old. }
  rewrite (process_accepted config s r d Hd Herr), bind_run in Hrun.
  set (s1 := mkProcessor (heap s ++ [d]) _ _ _) in *.
  assert (heap s1 !! r = Some d) as Hd1 by (by apply lookup_alloc_old).
  destruct (List.find (λ col, negb (has_column col d)) critical_fields)
    as [col|] eqn:Hfind.
  { unfold steps_2_to_5 in Hrun.
    rewrite bind_run, (steps_2_to_4_raises config s1 r d col Hd1 Hfind) in Hrun.
    by injection Hrun as <- <-. }
  pose proof (proj1 (find_missing_none d critical_fields) Hfind) as Hcrit.
  destruct (steps_2_to_5_cases config s1 r d Hd1 Hfind)
    as [(msg & s2 & E & _ & Hkept & _)
       |(normal' & anomalies' & s5' & dn' & da' & Hsteps' & _ & _ & _ & _ & Hold & _)].
  { rewrite E in Hrun. injection Hrun as <- <-. by apply Hkept. }
  destruct (steps_2_to_5_sizes s1 r d Hd1 Hcrit)
    as [(msg & s2 & E)
       |(normal & anomalies & s5 & dn & da & Hsteps & Hdn & Hda & _ & Hn & _)];
    [by rewrite E in Hsteps'|].
  rewrite Hsteps in Hsteps'. injection Hsteps' as <- <- <-.
  rewrite Hsteps in Hrun. unfold steps_6_to_7 in Hrun.
  assert (heap s5 !! length (heap s) = Some d) as Ho.
  { apply Hold. subst s1. simpl. apply lookup_alloc. }
  destruct (generate_quality_report_run config s5 _ normal anomalies d dn da Ho Hdn Hda)
    as (report' & Hreport & _).
  rewrite bind_run, Hreport, bind_run in Hrun.
  set (s6 := mkProcessor (heap s5) (Some report') _ _) in *.
  rewrite (aggregate_daily_transactions_cases s6 normal dn Hdn) in Hrun.
  cbv zeta in Hrun.
  assert (r < length (heap s))%nat as Hr by (by eapply lookup_lt_Some).
  assert (length (heap s1) = S (length (heap s))) as Hlen1.
  { subst s1. simpl. rewrite length_app. simpl. lia. }
  assert (heap s5 !! r = Some d) as H5 by (by apply Hold).
  destruct (has_column "transaction_date" dn && negb (dates_convert dn)).
  { by injection Hrun as <- <-. }
  assert ((if has_column "transaction_date" dn
           then <[normal := dated dn]> (heap s6) else heap s6) !! r = Some d) as Hkeep.
  { destruct (has_column "transaction_date" dn); [|done].
    by rewrite list_lookup_insert_ne by lia. }
  destruct (List.find _ _); [by injection Hrun as <- <-|].
  destruct (has_column "transaction_type" dn); [by injection Hrun as <- <-|].
  done.
Qed.


Lemma aggregated_row_key (d : DataFrame) (t : Z) (q : Q) (k : value * value) :
  cell (aggregated_row d t q k) "bank_id" = series_round 2 (fillna (VNum 0) k.1)
  ∧ cell (aggregated_row d t q k) "transaction_date"
    = series_round 2 (fillna (VNum 0) k.2).
Proof.
  unfold aggregated_row. cbv zeta. split.
  - rewrite (cell_finished _ _ k.1); [reflexivity|].
    rewrite !lookup_insert_ne by discriminate.
    unfold aggregate_group. cbv zeta. unfold list_to_map. cbn [fold_right fst snd].
    apply lookup_insert_eq.
  - rewrite (cell_finished _ _ k.2); [reflexivity|].
    rewrite !lookup_insert_ne by discriminate.
    unfold aggregate_group. cbv zeta. unfold list_to_map. cbn [fold_right fst snd].
    rewrite lookup_insert_ne by discriminate. apply lookup_insert_eq.
Qed.

(** A group of the dated batch whose records have string banks and numeric
    amounts: its key is a string and a date, and it has an amount. *)
Lemma groups_dated (d : DataFrame) (k : value * value) :
  (∀ x, In x (rows d) →
        (∃ b, cell x "bank_id" = VStr b) ∧ is_Some (numeric (cell x "amount"))) →
  In k (groups (dated d)) →
  (∃ b z, k = (VStr b, VDate z)) ∧ (0 < length (amounts_of (dated d) k))%nat.
Proof.
  intros Hrows Hk. apply groups_In in Hk as (x' & Hx' & -> & H1 & H2).
  unfold dated in Hx'. apply In_assign in Hx' as (x & Hx & Ex).
  destruct (Hrows x Hx) as [[b Hb] [a Ha]].
  assert (cell x' "bank_id" = VStr b) as Hb'
    by (rewrite Ex, cell_insert_ne by discriminate; exact Hb).
  assert (cell x' "amount" = cell x "amount") as Ha'
    by (by rewrite Ex, cell_insert_ne by discriminate).
  split.
  - unfold group_of in *. cbn [fst snd] in *. rewrite Hb'.
    rewrite Ex, cell_insert in *.
    destruct (to_datetime (cell x "transaction_date")); try done.
    simpl. eauto.
  - unfold amounts_of.
    assert (In x' (List.filter (λ r, same_group (group_of r) (group_of x'))
                               (rows (dated d)))) as Hin.
    { apply filter_In. split; [|apply same_group_refl].
      unfold dated. apply In_assign. eauto. }
    revert Hin. generalize (List.filter (λ r, same_group (group_of r) (group_of x'))
                                        (rows (dated d))).
    intros l Hin. induction l as [|y l IH]; [done|].
    simpl. destruct Hin as [->|Hin].
    + rewrite Ha', Ha. simpl. lia.
    + destruct (numeric (cell y "amount")); simpl; [lia|by apply IH].
Qed.

(** X23. When the pipeline returns, the aggregated frame has one row for a
    bank and a day: no two of its rows carry the same bank_id and
    transaction_date.  Every row has a string for its bank and a calendar
    date, and counts at least one transaction. *)
Theorem X23_one_row_per_bank_and_day (s : processor) (r : ref) (d : DataFrame)
    (aggregated anomalies : ref) (report : DataQualityReport) :
  heap s !! r = Some d →
  (process_banking_data config r s).1 = Returned (aggregated, report, anomalies) →
  let s' := (process_banking_data config r s).2 in
  ∃ dagg,
    heap s' !! aggregated = Some dagg
    ∧ (∀ a, In a (rows dagg) →
         ∃ b z n,
           cell a "bank_id" = VStr b
           ∧ cell a "transaction_date" = VDate z
           ∧ cell a "transaction_count" = VNum n ∧ (1 <= n)%Q)
    ∧ ∀ i j a a',
        rows dagg !! i = Some a → rows dagg !! j = Some a' →
        cell a "bank_id" = cell a' "bank_id" →
        cell a "transaction_date" = cell a' "transaction_date" →
        i = j.
Proof.
  intros Hd Hrun s'.
  assert (process_banking_data config r s
          = (Returned (aggregated, report, anomalies), s')) as Hrun'.
  { subst s'. by destruct (process_banking_data config r s) as [o s1];
      simpl in *; subst. }
  destruct (process_returned s r d aggregated anomalies report s' Hd Hrun')
    as (normal & s5 & dn & da & _ & _ & _ & Hrows & _ & _ & _ & _ & _ & _
        & _ & _ & Hagg & Hcols & _).
  assert (∀ x, In x (rows dn) →
            (∃ b, cell x "bank_id" = VStr b) ∧ is_Some (numeric (cell x "amount")))
    as Hdn.
  { intros x Hx.
    destruct (Hrows x Hx) as (x0 & Hx0 & _ & (q & _ & _ & _ & Ham) & _ & Hstr).
    split; [|rewrite Ham; simpl; eauto].
    apply Hstr; [simpl; auto|apply Hcols; simpl; auto]. }
  set (t := time_at (S (clock s5))) in *. set (q := quality_score report) in *.
  assert (∀ k, In k (groups (dated dn)) →
            ∃ b z, k = (VStr b, VDate z)
                   ∧ cell (aggregated_row (dated dn) t q k) "bank_id" = VStr b
                   ∧ cell (aggregated_row (dated dn) t q k) "transaction_date"
                     = VDate z) as Hkey.
  { intros k Hk. destruct (groups_dated dn k Hdn Hk) as [(b & z & ->) _].
    exists b, z. split; [done|]. apply aggregated_row_key. }
  eexists. split; [exact Hagg|]. rewrite rows_daily_agg. split.
  - intros a Ha. apply in_map_iff in Ha as (k & <- & Hk).
    destruct (Hkey k Hk) as (b & z & _ & Hb & Hz).
    destruct (groups_dated dn k Hdn Hk) as [_ Hlen].
    pose proof (aggregated_row_count (dated dn) t q k) as Hcount.
    destruct (cell (aggregated_row (dated dn) t q k) "transaction_count")
      as [|n| | | |] eqn:Ec; try done.
    injection Hcount as ->.
    exists b, z. eexists. split; [exact Hb|]. split; [exact Hz|].
    split; [reflexivity|]. rewrite round_integer.
    change 1%Q with (inject_Z 1). rewrite <- Zle_Qle. lia.
  - intros i j a a' Hi Hj Hb Hz.
    rewrite list_lookup_fmap in Hi, Hj.
    destruct (groups (dated dn) !! i) as [k|] eqn:Eki; [|done].
    destruct (groups (dated dn) !! j) as [k'|] eqn:Ekj; [|done].
    injection Hi as <-. injection Hj as <-.
    assert (In k (groups (dated dn))) as Hk
      by (apply list_elem_of_In; by eapply list_elem_of_lookup_2).
    assert (In k' (groups (dated dn))) as Hk'
      by (apply list_elem_of_In; by eapply list_elem_of_lookup_2).
    destruct (Hkey k Hk) as (b & z & -> & Hb1 & Hz1).
    destruct (Hkey k' Hk') as (b' & z' & -> & Hb2 & Hz2).
    rewrite Hb1, Hb2 in Hb. rewrite Hz1, Hz2 in Hz.
    injection Hb as ->. injection Hz as ->.
    pose proof (groups_apart (dated dn)) as Hap.
    destruct (Nat.lt_total i j) as [Hlt|[->|Hlt]]; [|done|].
    + pose proof (ForallOrdPairs_lookup _ _ _ _ _ _ Hap Hlt Eki Ekj) as Hne.
      unfold apart in Hne. by rewrite same_group_refl in Hne.
    + pose proof (ForallOrdPairs_lookup _ _ _ _ _ _ Hap Hlt Ekj Eki) as Hne.
      unfold apart in Hne. by rewrite same_group_refl in Hne.
Qed.

(** ** Saving the results *)

(** Saving a report one of whose counts is a [numpy.int64]. *)
Lemma save_numpy_counts (aggregated_data anomalies_df : DataFrame)
    (quality_report : DataQualityReport) (output_path : string) (fs : filesystem) :
  output_path ≠ EmptyString → numpy_counts quality_report = true →
  ∃ written key,
    save_processing_results aggregated_data quality_report anomalies_df
      output_path fs
    = Failed (TypeError "Object of type int64 is not JSON serializable")
        (mkFilesystem ({[output_path]} ∪ directories fs)
           (<[output_path +:+ "data_quality_report.json" := JsonCutOff written key]>
              (<[output_path +:+ "daily_bank_aggregates.csv" := Csv aggregated_data]>
                 (files fs))))
    ∧ In key ["null_records"; "invalid_amounts"; "duplicate_records"]
    ∧ map fst written
      = take_until key
          ["total_records"; "valid_records"; "null_records"; "invalid_amounts";
           "duplicate_records"].
Proof.
  intros Hne Hnumpy. unfold save_processing_results. cbv zeta.
  rewrite bool_decide_eq_false_2 by done.
  destruct quality_report as [t v [n|n] [i|i] [u|u] q l a ts];
    cbn in Hnumpy; try discriminate Hnumpy;
    do 2 eexists; (split; [reflexivity|]); split;
    try reflexivity; simpl; tauto.
Qed.

(** Saving a report whose counts are all Python integers. *)
Lemma save_plain_counts (aggregated_data anomalies_df : DataFrame)
    (quality_report : DataQualityReport) (output_path : string) (fs : filesystem) :
  output_path ≠ EmptyString → numpy_counts quality_report = false →
  ∃ fields,
    save_processing_results aggregated_data quality_report anomalies_df
      output_path fs
    = Saved
        (mkFilesystem ({[output_path]} ∪ directories fs)
           (let written :=
              <[output_path +:+ "data_quality_report.json" := Json fields]>
                (<[output_path +:+ "daily_bank_aggregates.csv" := Csv aggregated_data]>
                   (files fs)) in
            if empty anomalies_df then written
            else <[output_path +:+ "detected_anomalies.csv" := Csv anomalies_df]>
                   written))
    ∧ map fst fields
      = ["total_records"; "valid_records"; "null_records"; "invalid_amounts";
         "duplicate_records"; "quality_score"; "quality_level";
         "anomaly_count"; "processing_timestamp"].
Proof.
  intros Hne Hplain. unfold save_processing_results. cbv zeta.
  rewrite bool_decide_eq_false_2 by done.
  destruct quality_report as [t v [n|n] [i|i] [u|u] q l a ts];
    cbn in Hplain; try discriminate Hplain.
  eexists.
  split;
    [cbn [cut_off serializable json_of_integer json_of_nat null_records
          invalid_amounts duplicate_records];
     by destruct (empty anomalies_df)
    |reflexivity].
Qed.

(** The report of a run that returns counts the duplicates in a
    [numpy.int64]. *)
Lemma process_report_numpy (s : processor) (r : ref) (d : DataFrame)
    (aggregated anomalies : ref) (report : DataQualityReport) (s' : processor) :
  heap s !! r = Some d →
  process_banking_data config r s = (Returned (aggregated, report, anomalies), s') →
  ∃ n, duplicate_records report = Int64 n.
Proof.
  intros Hd Hrun.
  destruct (schema_errors config d) as [|e l] eqn:Herr.
  2: { rewrite (process_rejected config s r d Hd) in Hrun by (by rewrite Herr). done. }
  rewrite (process_accepted config s r d Hd Herr), bind_run in Hrun.
  set (s1 := mkProcessor (heap s ++ [d]) _ _ _) in *.
  assert (heap s1 !! r = Some d) as Hd1 by (by apply lookup_alloc_old).
  destruct (List.find (λ col, negb (has_column col d)) critical_fields)
    as [col|] eqn:Hfind.
  { destruct (steps_2_to_5_missing config s1 r d col Hd1 Hfind) as [s2 E].
    by rewrite E in Hrun. }
  destruct (steps_2_to_5_cases config s1 r d Hd1 Hfind)
    as [(msg & s2 & E & _)
       |(normal & anomalies' & s5 & dn & da & Hsteps & Hdn & Hda & _ & _ & Hold & _)];
    [by rewrite E in Hrun|].
  rewrite Hsteps in Hrun. unfold steps_6_to_7 in Hrun.
  assert (heap s5 !! length (heap s) = Some d) as Ho.
  { apply Hold. subst s1. simpl. apply lookup_alloc. }
  destruct (generate_quality_report_counts s5 _ normal anomalies' d dn da Ho Hdn Hda)
    as (report' & s6 & Hreport & _ & _ & _ & Hdup).
  rewrite bind_run, Hreport, bind_run in Hrun.
  destruct (aggregate_daily_transactions normal _) as [[agg|e] s7]; [|done].
  injection Hrun as <- <- <- <-.
  eexists. exact Hdup.
Qed.

(** X21. With a directory name that is not empty, saving writes the
    aggregated frame under daily_bank_aggregates.csv, the name appended to
    the directory name as it is, and changes no file other than the three it
    names.  When none of the report's counts [null_records],
    [invalid_amounts] and [duplicate_records] is a [numpy.int64], it returns
    with the nine fields of the report written under
    data_quality_report.json, and with detected_anomalies.csv written only
    when the anomaly frame is not empty and otherwise left as it was.  When
    one of them is a [numpy.int64], [json.dump] raises a TypeError:
    data_quality_report.json is left cut off at the first such count, and
    detected_anomalies.csv is left as it was. *)
Theorem X21_save_processing_results (aggregated_data anomalies_df : DataFrame)
    (quality_report : DataQualityReport) (output_path : string) (fs : filesystem) :
  output_path ≠ EmptyString →
  ∃ fs',
    files fs' !! (output_path +:+ "daily_bank_aggregates.csv")
    = Some (Csv aggregated_data)
    ∧ (∀ path,
         path ≠ output_path +:+ "daily_bank_aggregates.csv" →
         path ≠ output_path +:+ "data_quality_report.json" →
         path ≠ output_path +:+ "detected_anomalies.csv" →
         files fs' !! path = files fs !! path)
    ∧ if numpy_counts quality_report
      then
        save_processing_results aggregated_data quality_report anomalies_df
          output_path fs
        = Failed (TypeError "Object of type int64 is not JSON serializable") fs'
        ∧ (∃ written key,
             files fs' !! (output_path +:+ "data_quality_report.json")
             = Some (JsonCutOff written key)
             ∧ In key ["null_records"; "invalid_amounts"; "duplicate_records"]
             ∧ map fst written
               = take_until key
                   ["total_records"; "valid_records"; "null_records";
                    "invalid_amounts"; "duplicate_records"])
        ∧ files fs' !! (output_path +:+ "detected_anomalies.csv")
          = files fs !! (output_path +:+ "detected_anomalies.csv")
      else
        save_processing_results aggregated_data quality_report anomalies_df
          output_path fs
        = Saved fs'
        ∧ (∃ fields,
             files fs' !! (output_path +:+ "data_quality_report.json")
             = Some (Json fields)
             ∧ map fst fields
               = ["total_records"; "valid_records"; "null_records";
                  "invalid_amounts"; "duplicate_records"; "quality_score";
                  "quality_level"; "anomaly_count"; "processing_timestamp"])
        ∧ files fs' !! (output_path +:+ "detected_anomalies.csv")
          = (if empty anomalies_df
             then files fs !! (output_path +:+ "detected_anomalies.csv")
             else Some (Csv anomalies_df)).
Proof.
  intros Hne.
  assert (output_path +:+ "data_quality_report.json"
          ≠ output_path +:+ "daily_bank_aggregates.csv") as H1
    by (by apply append_ne).
  assert (output_path +:+ "detected_anomalies.csv"
          ≠ output_path +:+ "daily_bank_aggregates.csv") as H2
    by (by apply append_ne).
  assert (output_path +:+ "detected_anomalies.csv"
          ≠ output_path +:+ "data_quality_report.json") as H3
    by (by apply append_ne).
  destruct (numpy_counts quality_report) eqn:Hcounts.
  - destruct (save_numpy_counts aggregated_data anomalies_df quality_report
                output_path fs Hne Hcounts) as (written & key & Hsave & Hkey & Hwritten).
    eexists. split; [|split; [|split; [exact Hsave|]]]; cbn [files].
    + rewrite lookup_insert_ne by done. apply lookup_insert_eq.
    + intros path Hp1 Hp2 _. by do 2 (rewrite lookup_insert_ne by done).
    + split; [exists written, key; split; [apply lookup_insert_eq|done]|].
      by do 2 (rewrite lookup_insert_ne by done).
  - destruct (save_plain_counts aggregated_data anomalies_df quality_report
                output_path fs Hne Hcounts) as (fields & Hsave & Hfields).
    eexists. split; [|split; [|split; [exact Hsave|]]]; cbn [files]; cbv zeta;
      destruct (empty anomalies_df).
    + rewrite lookup_insert_ne by done. apply lookup_insert_eq.
    + do 2 (rewrite lookup_insert_ne by done). apply lookup_insert_eq.
    + intros path Hp1 Hp2 _. by do 2 (rewrite lookup_insert_ne by done).
    + intros path Hp1 Hp2 Hp3. by do 3 (rewrite lookup_insert_ne by done).
    + split; [exists fields; split; [apply lookup_insert_eq|done]|].
      by do 2 (rewrite lookup_insert_ne by done).
    + split; [exists fields; split;
              [rewrite lookup_insert_ne by done; apply lookup_insert_eq|done]|].
      apply lookup_insert_eq.
Qed.

(** X22. Saving what the pipeline returned, under a directory name that is
    not empty, raises a TypeError in [json.dump], the report's
    [duplicate_records] being a [numpy.int64]: the aggregates are written by
    then, data_quality_report.json is left cut off, and
    detected_anomalies.csv is not written, whether or not the run found
    anomalies. *)
Theorem X22_anomalies_file (s : processor) (r : ref) (d : DataFrame)
    (aggregated anomalies : ref) (report : DataQualityReport)
    (output_path : string) (fs : filesystem) :
  heap s !! r = Some d →
  (process_banking_data config r s).1 = Returned (aggregated, report, anomalies) →
  output_path ≠ EmptyString →
  let s' := (process_banking_data config r s).2 in
  ∃ dagg da fs',
    heap s' !! aggregated = Some dagg
    ∧ heap s' !! anomalies = Some da
    ∧ save_processing_results dagg report da output_path fs
      = Failed (TypeError "Object of type int64 is not JSON serializable") fs'
    ∧ files fs' !! (output_path +:+ "daily_bank_aggregates.csv") = Some (Csv dagg)
    ∧ (∃ written key,
         files fs' !! (output_path +:+ "data_quality_report.json")
         = Some (JsonCutOff written key))
    ∧ files fs' !! (output_path +:+ "detected_anomalies.csv")
      = files fs !! (output_path +:+ "detected_anomalies.csv").
Proof.
  intros Hd Hrun Hpath s'.
  assert (process_banking_data config r s
          = (Returned (aggregated, report, anomalies), s')) as Hrun'.
  { subst s'. by destruct (process_banking_data config r s) as [o s1];
      simpl in *; subst. }
  destruct (process_returned s r d aggregated anomalies report s' Hd Hrun')
    as (normal & s5 & dn & da & _ & _ & _ & _ & _ & _ & _ & _ & _ & _
        & Hda & _ & Hagg & _).
  destruct (process_report_numpy s r d aggregated anomalies report s' Hd Hrun')
    as [n Hdup].
  assert (numpy_counts report = true) as Hcounts.
  { unfold numpy_counts. rewrite Hdup. cbn [numpy_count]. apply orb_true_r. }
  set (dagg := daily_agg (dated dn) (time_at (S (clock s5))) (quality_score report))
    in *.
  destruct (save_numpy_counts dagg da report output_path fs Hpath Hcounts)
    as (written & key & Hsave & _).
  exists dagg, da. eexists.
  split; [exact Hagg|]. split; [exact Hda|]. split; [exact Hsave|]. cbn [files].
  split.
  { rewrite lookup_insert_ne by (by apply append_ne). apply lookup_insert_eq. }
  split; [exists written, key; apply lookup_insert_eq|].
  by do 2 (rewrite lookup_insert_ne by (by apply append_ne)).
Qed.

End Stages.

(** * The further statements on concrete runs *)


Lemma critical_columns_batch_small (col : string) :
  In col ["bank_id"; "customer_id"; "amount"] → has_column col batch_small = true.
Proof. intros [<-|[<-|[<-|[]]]]; vm_compute; reflexivity. Qed.

(** X2 on a batch of four complete records. *)
Lemma X2_clean_null_values_complete_witness :
  let s := fresh [batch_small] in
  let d := batch_small in
  heap s !! 0%nat = Some d
  ∧ (∀ col, In col ["bank_id"; "customer_id"; "amount"] → has_column col d = true)
  ∧ ∃ r1 s1 d1,
      clean_null_values 0%nat s = (Returned r1, s1)
      ∧ heap s1 !! r1 = Some d1
      ∧ columns d1 = columns d
      ∧ len d1
        = count (λ x, negb (isnull (cell x "bank_id"))
                      && negb (isnull (cell x "customer_id"))
                      && negb (isnull (cell x "amount"))) d
      ∧ ∀ x, In x (rows d1) →
          (∀ col, In col ["bank_id"; "customer_id"; "amount"] →
                  isnull (cell x col) = false)
          ∧ (has_column "transaction_type" d = true →
             isnull (cell x "transaction_type") = false)
          ∧ (has_column "description" d = true →
             isnull (cell x "description") = false)
          ∧ ∃ x0, In x0 (rows d)
                  ∧ agree_off ["transaction_type"; "description"] x0 x.
Proof.
  cbv zeta. split; [reflexivity|]. split; [exact critical_columns_batch_small|].
  apply (X2_clean_null_values_complete (fresh [batch_small]) 0%nat batch_small).
  - reflexivity.
  - exact critical_columns_batch_small.
Defined.

(** X3 on that batch. *)
Lemma X3_clean_null_values_idempotent_witness :
  let s := fresh [batch_small] in
  let d := batch_small in
  heap s !! 0%nat = Some d
  ∧ (∀ col, In col ["bank_id"; "customer_id"; "amount"] → has_column col d = true)
  ∧ ∃ r1 s1 d1 r2 s2,
      clean_null_values 0%nat s = (Returned r1, s1)
      ∧ heap s1 !! r1 = Some d1
      ∧ clean_null_values r1 s1 = (Returned r2, s2)
      ∧ heap s2 !! r2 = Some d1.
Proof.
  cbv zeta. split; [reflexivity|]. split; [exact critical_columns_batch_small|].
  apply (X3_clean_null_values_idempotent (fresh [batch_small]) 0%nat batch_small).
  - reflexivity.
  - exact critical_columns_batch_small.
Defined.

(** X4 on that batch. *)
Lemma X4_validate_column_types_shape_witness :
  let s := fresh [batch_small] in
  let d := batch_small in
  let config := _get_default_config in
  heap s !! 0%nat = Some d
  ∧ (@naive_dates reference_pandas d = true
     → @aware_dates reference_pandas config d = false)
  ∧ if has_column "amount" d then
      if @aware_dates reference_pandas config d then
        ∃ msg s',
          @validate_column_types reference_pandas reference_clock config 0%nat s
          = (Raised (TypeError msg), s')
          ∧ heap s' = heap s
      else
        ∃ r2 s2 d2,
          @validate_column_types reference_pandas reference_clock config 0%nat s
          = (Returned r2, s2)
          ∧ heap s2 !! r2 = Some d2
          ∧ columns d2 = columns d
          ∧ (len d2 ≤ len d)%nat
          ∧ heap s2 !! 0%nat = Some d
    else
      ∃ s',
        @validate_column_types reference_pandas reference_clock config 0%nat s
        = (Raised (KeyError "amount"), s')
        ∧ heap s' = heap s.
Proof.
  cbv zeta. split; [reflexivity|].
  exact (@X4_validate_column_types_shape reference_pandas reference_clock
           _get_default_config (fresh [batch_small]) 0%nat batch_small eq_refl).
Defined.

(** X5 on that batch. *)
Lemma X5_validate_column_types_identifiers_witness :
  let s := fresh [batch_small] in
  let d := batch_small in
  let run :=
    @validate_column_types reference_pandas reference_clock
      _get_default_config 0%nat s in
  heap s !! 0%nat = Some d
  ∧ run.1 = Returned 1%nat
  ∧ ∃ d2,
      heap run.2 !! 1%nat = Some d2
      ∧ ∀ x field,
          In x (rows d2) →
          In field ["bank_id"; "customer_id"; "transaction_id"] →
          has_column field d = true →
          ∃ id, cell x field = VStr id ∧ id ≠ EmptyString ∧ strip id = id.
Proof.
  cbv zeta. split; [reflexivity|]. split; [vm_compute; reflexivity|].
  apply (@X5_validate_column_types_identifiers reference_pandas reference_clock
           _get_default_config (fresh [batch_small]) 0%nat 1%nat batch_small).
  - reflexivity.
  - vm_compute. reflexivity.
Defined.

(** X6 on a batch with a transaction_type column. *)
Lemma X6_validate_column_types_transaction_type_witness :
  let s := fresh [batch_with_type] in
  let d := batch_with_type in
  let run :=
    @validate_column_types reference_pandas reference_clock
      _get_default_config 0%nat s in
  heap s !! 0%nat = Some d
  ∧ has_column "transaction_type" d = true
  ∧ run.1 = Returned 1%nat
  ∧ ∃ d2,
      heap run.2 !! 1%nat = Some d2
      ∧ ∀ x, In x (rows d2) →
          ∃ t, In t ["TRANSFER"; "DEPOSIT"; "WITHDRAWAL"; "PAYMENT"; "UNKNOWN"]
               ∧ cell x "transaction_type" = VStr t.
Proof.
  cbv zeta. split; [reflexivity|]. split; [vm_compute; reflexivity|].
  split; [vm_compute; reflexivity|].
  apply (@X6_validate_column_types_transaction_type reference_pandas
           reference_clock _get_default_config (fresh [batch_with_type])
           0%nat 1%nat batch_with_type).
  - reflexivity.
  - vm_compute. reflexivity.
  - vm_compute. reflexivity.
Defined.

(** X7 on a batch with a duplicate. *)
Lemma X7_detect_duplicates_distinct_keys_witness :
  let s := fresh [batch_small] in
  let d := batch_small in
  let config := _get_default_config in
  heap s !! 0%nat = Some d
  ∧ remove_duplicates config = true
  ∧ ∃ r' s' d',
      detect_duplicates config 0%nat s = (Returned r', s')
      ∧ heap s' !! r' = Some d'
      ∧ ∀ i j x y,
          (i < j)%nat → rows d' !! i = Some x → rows d' !! j = Some y →
          same_key (available d) x y = false.
Proof.
  cbv zeta. split; [reflexivity|]. split; [reflexivity|].
  apply (X7_detect_duplicates_distinct_keys _get_default_config
           (fresh [batch_small]) 0%nat batch_small); reflexivity.
Defined.

(** X8 on a batch with a duplicate. *)
Lemma X8_duplicates_removed_as_reported_witness :
  let s := fresh [batch_small; batch_one; DataFrame_new] in
  let d := batch_small in
  let config := _get_default_config in
  heap s !! 0%nat = Some d
  ∧ heap s !! 1%nat = Some batch_one
  ∧ heap s !! 2%nat = Some DataFrame_new
  ∧ ∃ r' s' d' report s'',
      detect_duplicates config 0%nat s = (Returned r', s')
      ∧ heap s' !! r' = Some d'
      ∧ @generate_quality_report reference_pandas reference_clock config
          0%nat 1%nat 2%nat s = (Returned report, s'')
      ∧ (len d' + int_value (duplicate_records report) = len d)%nat.
Proof.
  cbv zeta. split; [reflexivity|]. split; [reflexivity|]. split; [reflexivity|].
  exact (@X8_duplicates_removed_as_reported reference_pandas reference_clock
           _get_default_config (fresh [batch_small; batch_one; DataFrame_new])
           0%nat 1%nat 2%nat batch_small batch_one DataFrame_new
           eq_refl eq_refl eq_refl).
Defined.

(** X9 on a batch without a bank_id column. *)
Lemma X9_detect_anomalies_missing_column_witness :
  let s := fresh [batch_without_bank] in
  let d := batch_without_bank in
  let config := _get_default_config in
  heap s !! 0%nat = Some d
  ∧ handle_outliers config = true
  ∧ (has_column "bank_id" d = false ∨ has_column "amount" d = false)
  ∧ ∃ col s',
      @detect_anomalies reference_pandas reference_clock config 0%nat s
      = (Raised (KeyError col), s')
      ∧ In col ["bank_id"; "amount"]
      ∧ has_column col d = false
      ∧ heap s' = heap s.
Proof.
  cbv zeta. split; [reflexivity|]. split; [reflexivity|].
  split; [left; vm_compute; reflexivity|].
  apply (@X9_detect_anomalies_missing_column reference_pandas reference_clock
           _get_default_config (fresh [batch_without_bank]) 0%nat
           batch_without_bank).
  - reflexivity.
  - reflexivity.
  - left. vm_compute. reflexivity.
Defined.

(** X10 on ten records of 100 and one of 10000: the eleventh is the
    anomaly. *)
Lemma X10_detect_anomalies_tags_witness :
  let s := fresh [batch_outlier] in
  let d := batch_outlier in
  let config := _get_default_config in
  let run := @detect_anomalies reference_pandas reference_clock config 0%nat s in
  heap s !! 0%nat = Some d
  ∧ handle_outliers config = true
  ∧ run.1 = Returned (1%nat, 2%nat)
  ∧ ∃ dn da,
      heap run.2 !! 1%nat = Some dn
      ∧ heap run.2 !! 2%nat = Some da
      ∧ has_column "amount_zscore" dn = false
      ∧ (∀ a, In a (rows da) →
           cell a "anomaly_type" = VStr "statistical_outlier"
           ∧ cell a "detected_at" = VTime (@time_at reference_clock (clock s))
           ∧ ∃ z, cell a "amount_zscore" = VNum z
                  ∧ (anomaly_threshold_std config < z)%Q)
      ∧ (len da = 0%nat →
         has_column "anomaly_type" da = has_column "anomaly_type" d
         ∧ has_column "detected_at" da = has_column "detected_at" d).
Proof.
  cbv zeta. split; [reflexivity|]. split; [reflexivity|].
  split; [vm_compute; reflexivity|].
  apply (@X10_detect_anomalies_tags reference_pandas reference_clock
           _get_default_config (fresh [batch_outlier]) 0%nat 1%nat 2%nat
           batch_outlier).
  - reflexivity.
  - reflexivity.
  - vm_compute. reflexivity.
Defined.

(** The detector on that batch: one anomaly, the record of 10000, at
    10 / sqrt 11 deviations from the mean. *)
Example detect_anomalies_batch_outlier :
  let run :=
    @detect_anomalies reference_pandas reference_clock _get_default_config
      0%nat (fresh [batch_outlier]) in
  column "transaction_id" <$> heap run.2 !! 2%nat = Some [VStr "T11"]
  ∧ len <$> heap run.2 !! 1%nat = Some 10%nat.
Proof. split; vm_compute; reflexivity. Qed.

Lemma statistics_batch_small (x : row) (m v : Q) :
  In x (rows batch_small) →
  mean (group_amounts batch_small (cell x "bank_id")) = Some m →
  var (group_amounts batch_small (cell x "bank_id")) = Some v →
  (@series_mean reference_pandas (group_amounts batch_small (cell x "bank_id"))
   == m)%Q
  ∧ (9 * v
     <= 10 * (@series_std reference_pandas
                (group_amounts batch_small (cell x "bank_id"))
              * @series_std reference_pandas
                  (group_amounts batch_small (cell x "bank_id"))))%Q.
Proof.
  intros [<-|[<-|[<-|[<-|[]]]]] Hm Hv;
    vm_compute in Hm; vm_compute in Hv; try discriminate Hv;
    injection Hm as <-; injection Hv as <-;
    (split; [apply Qeq_bool_iff|apply Qle_bool_iff]); vm_compute; reflexivity.
Qed.

(** X11 on a batch whose banks have three records and one record. *)
Lemma X11_small_partition_no_anomaly_witness :
  let s := fresh [batch_small] in
  let d := batch_small in
  let config := _get_default_config in
  heap s !! 0%nat = Some d
  ∧ has_column "bank_id" d = true
  ∧ has_column "amount" d = true
  ∧ handle_outliers config = true
  ∧ (3 <= anomaly_threshold_std config)%Q
  ∧ (∀ x m v, In x (rows d) →
              mean (group_amounts d (cell x "bank_id")) = Some m →
              var (group_amounts d (cell x "bank_id")) = Some v →
              (@series_mean reference_pandas (group_amounts d (cell x "bank_id"))
               == m)%Q
              ∧ (9 * v
                 <= 10 * (@series_std reference_pandas
                            (group_amounts d (cell x "bank_id"))
                          * @series_std reference_pandas
                              (group_amounts d (cell x "bank_id"))))%Q)
  ∧ ∃ normal anomalies s' da,
      @detect_anomalies reference_pandas reference_clock config 0%nat s
      = (Returned (normal, anomalies), s')
      ∧ heap s' !! anomalies = Some da
      ∧ ∀ a, In a (rows da) →
          (10 < length (group_amounts d (cell a "bank_id")))%nat.
Proof.
  cbv zeta.
  assert (3 <= anomaly_threshold_std _get_default_config)%Q as Hthr
    by (apply Qle_bool_iff; vm_compute; reflexivity).
  split; [reflexivity|]. split; [vm_compute; reflexivity|].
  split; [vm_compute; reflexivity|]. split; [reflexivity|].
  split; [exact Hthr|]. split; [exact statistics_batch_small|].
  apply (@X11_small_partition_no_anomaly reference_pandas reference_clock
           _get_default_config (fresh [batch_small]) 0%nat batch_small).
  - reflexivity.
  - vm_compute. reflexivity.
  - vm_compute. reflexivity.
  - reflexivity.
  - exact Hthr.
  - exact statistics_batch_small.
Defined.

(** X12 on a batch of four records of which one is in the final normal
    set. *)
Lemma X12_quality_score_bounds_witness :
  let s := fresh [batch_small; batch_one; DataFrame_new] in
  heap s !! 0%nat = Some batch_small
  ∧ heap s !! 1%nat = Some batch_one
  ∧ heap s !! 2%nat = Some DataFrame_new
  ∧ (len batch_one ≤ len batch_small)%nat
  ∧ ∃ report s',
      @generate_quality_report reference_pandas reference_clock
        _get_default_config 0%nat 1%nat 2%nat s = (Returned report, s')
      ∧ (0 <= quality_score report)%Q ∧ (quality_score report <= 100)%Q.
Proof.
  cbv zeta. split; [reflexivity|]. split; [reflexivity|]. split; [reflexivity|].
  assert (len batch_one ≤ len batch_small)%nat as Hle by (vm_compute; lia).
  split; [exact Hle|].
  apply (@X12_quality_score_bounds reference_pandas reference_clock
           _get_default_config (fresh [batch_small; batch_one; DataFrame_new])
           0%nat 1%nat 2%nat batch_small batch_one DataFrame_new);
    [reflexivity..|exact Hle].
Defined.

Lemma pipeline_columns_batch_small (col : string) :
  In col ["bank_id"; "customer_id"; "amount"; "transaction_date"; "transaction_id"] →
  has_column col batch_small = true.
Proof. intros [<-|[<-|[<-|[<-|[<-|[]]]]]]; vm_compute; reflexivity. Qed.

Lemma dates_batch_small (x : row) :
  In x (rows batch_small) →
  is_Some (@to_datetime_raise reference_pandas (cell x "transaction_date")).
Proof. intros [<-|[<-|[<-|[<-|[]]]]]; vm_compute; eauto. Qed.



Lemma dates_batch_without_bank (x : row) :
  In x (rows batch_without_bank) →
  is_Some (@to_datetime_raise reference_pandas (cell x "transaction_date")).
Proof. intros [<-|[]]; vm_compute; eauto. Qed.

Lemma dates_parse_batch_small (x : row) :
  In x (rows batch_small) →
  @to_datetime reference_pandas (cell x "transaction_date") ≠ VNull.
Proof. intros [<-|[<-|[<-|[<-|[]]]]]; vm_compute; discriminate. Qed.


(** X14 on a batch without a bank_id column. *)
Lemma X14_aggregate_missing_column_witness :
  let s := fresh [batch_without_bank] in
  let d := batch_without_bank in
  heap s !! 0%nat = Some d
  ∧ In "bank_id" ["bank_id"; "transaction_date"; "amount"; "customer_id";
                  "transaction_id"]
  ∧ has_column "bank_id" d = false
  ∧ (∀ x, In x (rows d) →
          is_Some (@to_datetime_raise reference_pandas (cell x "transaction_date")))
  ∧ ∃ missing s',
      @aggregate_daily_transactions reference_pandas reference_clock 0%nat s
      = (Raised (KeyError missing), s')
      ∧ In missing ["bank_id"; "transaction_date"; "amount"; "customer_id";
                    "transaction_id"]
      ∧ has_column missing d = false.
Proof.
  cbv zeta. split; [reflexivity|]. split; [simpl; auto|].
  split; [vm_compute; reflexivity|]. split; [exact dates_batch_without_bank|].
  apply (@X14_aggregate_missing_column reference_pandas reference_clock
           (fresh [batch_without_bank]) 0%nat batch_without_bank "bank_id").
  - reflexivity.
  - simpl. auto.
  - vm_compute. reflexivity.
  - exact dates_batch_without_bank.
Defined.

(** X15 on a batch whose second record has a date that is not a date. *)
Lemma X15_aggregate_unparsable_date_witness :
  let s := fresh [batch_tiny_amount] in
  let d := batch_tiny_amount in
  let x := transaction "T2" "BNK002" "C2" (VNum 50) (VStr "not a date") in
  heap s !! 0%nat = Some d
  ∧ has_column "transaction_date" d = true
  ∧ In x (rows d)
  ∧ @to_datetime_raise reference_pandas (cell x "transaction_date") = None
  ∧ ∃ s',
      @aggregate_daily_transactions reference_pandas reference_clock 0%nat s
      = (Raised (ValueError "Unknown datetime string format"), s')
      ∧ heap s' = heap s.
Proof.
  cbv zeta. split; [reflexivity|]. split; [vm_compute; reflexivity|].
  split; [simpl; auto|]. split; [vm_compute; reflexivity|].
  apply (@X15_aggregate_unparsable_date reference_pandas reference_clock
           (fresh [batch_tiny_amount]) 0%nat batch_tiny_amount
           (transaction "T2" "BNK002" "C2" (VNum 50) (VStr "not a date"))).
  - reflexivity.
  - vm_compute. reflexivity.
  - simpl. auto.
  - vm_compute. reflexivity.
Defined.


(** X17 on that batch. *)
Lemma X17_aggregate_counts_witness :
  let s := fresh [batch_small] in
  let d := batch_small in
  heap s !! 0%nat = Some d
  ∧ (∀ col, In col ["bank_id"; "customer_id"; "amount"; "transaction_date";
                    "transaction_id"] → has_column col d = true)
  ∧ has_column "transaction_type" d = false
  ∧ (∀ x, In x (rows d) →
          is_Some (@to_datetime_raise reference_pandas (cell x "transaction_date")))
  ∧ ∃ aggregated s' da,
      @aggregate_daily_transactions reference_pandas reference_clock 0%nat s
      = (Returned aggregated, s')
      ∧ heap s' !! aggregated = Some da
      ∧ (column_sum "transaction_count" da
         == inject_Z (Z.of_nat
              (count (λ x, negb (isnull (cell x "bank_id"))
                           && negb (isnull (@to_datetime reference_pandas
                                              (cell x "transaction_date")))
                           && bool_decide (is_Some (numeric (cell x "amount")))) d)))%Q.
Proof.
  cbv zeta. split; [reflexivity|]. split; [exact pipeline_columns_batch_small|].
  split; [vm_compute; reflexivity|]. split; [exact dates_batch_small|].
  apply (@X17_aggregate_counts reference_pandas reference_clock
           (fresh [batch_small]) 0%nat batch_small).
  - reflexivity.
  - exact pipeline_columns_batch_small.
  - vm_compute. reflexivity.
  - exact dates_batch_small.
Defined.

(** X18 on the run of the pipeline on that batch. *)
Lemma X18_process_report_witness :
  let s := fresh [batch_small] in
  let d := batch_small in
  let config := _get_default_config in
  let report := report_batch_small in
  let run := @process_banking_data reference_pandas reference_clock config 0%nat s in
  heap s !! 0%nat = Some d
  ∧ run.1 = Returned (7%nat, report, 6%nat)
  ∧ ∃ da,
      heap run.2 !! 6%nat = Some da
      ∧ quality_report run.2 = Some report
      ∧ total_records report = len d
      ∧ anomaly_count report = len da
      ∧ (valid_records report + anomaly_count report ≤ total_records report)%nat
      ∧ (0 <= quality_score report)%Q
      ∧ (quality_score report <= 100)%Q.
Proof.
  cbv zeta. split; [reflexivity|]. split; [vm_compute; reflexivity|].
  apply (@X18_process_report reference_pandas reference_clock _get_default_config
           (fresh [batch_small]) 0%nat batch_small 7%nat 6%nat report_batch_small).
  - reflexivity.
  - vm_compute. reflexivity.
Defined.

(** X19 on that run. *)
Lemma X19_process_aggregates_witness :
  let s := fresh [batch_small] in
  let d := batch_small in
  let config := _get_default_config in
  let report := report_batch_small in
  let run := @process_banking_data reference_pandas reference_clock config 0%nat s in
  heap s !! 0%nat = Some d
  ∧ run.1 = Returned (7%nat, report, 6%nat)
  ∧ (∀ x, In x (rows d) →
          @to_datetime reference_pandas (cell x "transaction_date") ≠ VNull)
  ∧ ∃ dagg,
      heap run.2 !! 7%nat = Some dagg
      ∧ (∀ a, In a (rows dagg) →
           ∃ q t, cell a "data_quality_score" = VNum q
                  ∧ (q == quality_score report)%Q
                  ∧ cell a "processed_at" = VTime t
                  ∧ (processing_timestamp report ≤ t)%Z)
      ∧ (column_sum "transaction_count" dagg
         <= inject_Z (Z.of_nat (valid_records report)))%Q
      ∧ (column_sum "transaction_count" dagg
         == inject_Z (Z.of_nat (valid_records report)))%Q.
Proof.
  cbv zeta. split; [reflexivity|]. split; [vm_compute; reflexivity|].
  split; [exact dates_parse_batch_small|].
  destruct (@X19_process_aggregates reference_pandas reference_clock
              _get_default_config (fresh [batch_small]) 0%nat batch_small
              7%nat 6%nat report_batch_small)
    as (dagg & Hagg & Hmeta & Hle & Heq).
  - reflexivity.
  - vm_compute. reflexivity.
  - exists dagg. split; [exact Hagg|]. split; [exact Hmeta|]. split; [exact Hle|].
    exact (Heq dates_parse_batch_small).
Defined.

(** X20 on that run. *)
Lemma X20_process_preserves_batch_witness :
  let s := fresh [batch_small] in
  heap s !! 0%nat = Some batch_small
  ∧ heap (@process_banking_data reference_pandas reference_clock
            _get_default_config 0%nat s).2 !! 0%nat
    = Some batch_small.
Proof.
  cbv zeta. split; [reflexivity|].
  apply (@X20_process_preserves_batch reference_pandas reference_clock
           _get_default_config (fresh [batch_small]) 0%nat batch_small).
  reflexivity.
Defined.

(** X21 on the default directory name, with no anomaly: the file of
    anomalies that is there stays. *)
Lemma X21_save_processing_results_witness :
  let output_path := "./output/" in
  let fs :=
    mkFilesystem ∅ {["./output/detected_anomalies.csv" := Csv batch_one]} in
  output_path ≠ EmptyString
  ∧ (∃ fs',
       save_processing_results batch_small report_batch_small batch_small
         output_path fs
       = Failed (TypeError "Object of type int64 is not JSON serializable") fs'
       ∧ files fs' !! "./output/daily_bank_aggregates.csv" = Some (Csv batch_small)
       ∧ (∃ written,
            files fs' !! "./output/data_quality_report.json"
            = Some (JsonCutOff written "null_records")
            ∧ map fst written = ["total_records"; "valid_records"])
       ∧ files fs' !! "./output/detected_anomalies.csv" = Some (Csv batch_one))
  ∧ ∃ fs',
      save_processing_results batch_small report_plain DataFrame_new
        output_path fs = Saved fs'
      ∧ files fs' !! "./output/daily_bank_aggregates.csv" = Some (Csv batch_small)
      ∧ (∃ fields,
           files fs' !! "./output/data_quality_report.json" = Some (Json fields)
           ∧ map fst fields
             = ["total_records"; "valid_records"; "null_records"; "invalid_amounts";
                "duplicate_records"; "quality_score"; "quality_level";
                "anomaly_count"; "processing_timestamp"])
      ∧ files fs' !! "./output/detected_anomalies.csv" = Some (Csv batch_one).
Proof.
  cbv zeta. split; [discriminate|]. split.
  - destruct (X21_save_processing_results batch_small batch_small report_batch_small
                "./output/"
                (mkFilesystem ∅ {["./output/detected_anomalies.csv" := Csv batch_one]}))
      as (fs' & Hagg & _ & Hcase); [discriminate|].
    change (numpy_counts report_batch_small) with true in Hcase. cbv iota in Hcase.
    destruct Hcase as (Hsave & (written & key & Hfile & _ & Hwritten) & Hanomalies).
    assert (key = "null_records") as ->.
    { pose proof Hsave as Hfs. vm_compute in Hfs. injection Hfs as Hfs.
      pose proof Hfile as Hkey. rewrite <- Hfs in Hkey. vm_compute in Hkey.
      by injection Hkey as _ <-. }
    exists fs'. split; [exact Hsave|]. split; [exact Hagg|].
    split; [exists written; split; [exact Hfile|exact Hwritten]|].
    etransitivity; [exact Hanomalies|]. vm_compute. reflexivity.
  - destruct (X21_save_processing_results batch_small DataFrame_new report_plain
                "./output/"
                (mkFilesystem ∅ {["./output/detected_anomalies.csv" := Csv batch_one]}))
      as (fs' & Hagg & _ & Hcase); [discriminate|].
    change (numpy_counts report_plain) with false in Hcase. cbv iota in Hcase.
    destruct Hcase as (Hsave & Hfields & Hanomalies).
    exists fs'. split; [exact Hsave|]. split; [exact Hagg|].
    split; [exact Hfields|].
    etransitivity; [exact Hanomalies|]. vm_compute. reflexivity.
Defined.

(** X22 on the run of the pipeline on the batch of four records, which
    has no anomaly. *)
Lemma X22_anomalies_file_witness :
  let s := fresh [batch_small] in
  let config := _get_default_config in
  let report := report_batch_small in
  let run := @process_banking_data reference_pandas reference_clock config 0%nat s in
  let fs :=
    mkFilesystem ∅ {["./output/detected_anomalies.csv" := Csv batch_one]} in
  heap s !! 0%nat = Some batch_small
  ∧ run.1 = Returned (7%nat, report, 6%nat)
  ∧ "./output/" ≠ EmptyString
  ∧ ∃ dagg da fs',
      heap run.2 !! 7%nat = Some dagg
      ∧ heap run.2 !! 6%nat = Some da
      ∧ save_processing_results dagg report da "./output/" fs
        = Failed (TypeError "Object of type int64 is not JSON serializable") fs'
      ∧ files fs' !! "./output/daily_bank_aggregates.csv" = Some (Csv dagg)
      ∧ (∃ written key,
           files fs' !! "./output/data_quality_report.json"
           = Some (JsonCutOff written key))
      ∧ files fs' !! "./output/detected_anomalies.csv" = Some (Csv batch_one).
Proof.
  cbv zeta. split; [reflexivity|]. split; [vm_compute; reflexivity|].
  split; [discriminate|].
  destruct (@X22_anomalies_file reference_pandas reference_clock
              _get_default_config (fresh [batch_small]) 0%nat batch_small
              7%nat 6%nat report_batch_small "./output/"
              (mkFilesystem ∅ {["./output/detected_anomalies.csv" := Csv batch_one]}))
    as (dagg & da & fs' & Hagg & Hda & Hsaved & Hfile & Hreport & Hanomalies).
  - reflexivity.
  - vm_compute. reflexivity.
  - discriminate.
  - exists dagg, da, fs'. split; [exact Hagg|]. split; [exact Hda|].
    split; [exact Hsaved|]. split; [exact Hfile|]. split; [exact Hreport|].
    etransitivity; [exact Hanomalies|]. vm_compute. reflexivity.
Defined.

(** X23 on that run. *)
Lemma X23_one_row_per_bank_and_day_witness :
  let s := fresh [batch_small] in
  let config := _get_default_config in
  let report := report_batch_small in
  let run := @process_banking_data reference_pandas reference_clock config 0%nat s in
  heap s !! 0%nat = Some batch_small
  ∧ run.1 = Returned (7%nat, report, 6%nat)
  ∧ ∃ dagg,
      heap run.2 !! 7%nat = Some dagg
      ∧ (∀ a, In a (rows dagg) →
           ∃ b z n,
             cell a "bank_id" = VStr b
             ∧ cell a "transaction_date" = VDate z
             ∧ cell a "transaction_count" = VNum n ∧ (1 <= n)%Q)
      ∧ ∀ i j a a',
          rows dagg !! i = Some a → rows dagg !! j = Some a' →
          cell a "bank_id" = cell a' "bank_id" →
          cell a "transaction_date" = cell a' "transaction_date" →
          i = j.
Proof.
  cbv zeta. split; [reflexivity|]. split; [vm_compute; reflexivity|].
  apply (@X23_one_row_per_bank_and_day reference_pandas reference_clock
           _get_default_config (fresh [batch_small]) 0%nat batch_small
           7%nat 6%nat report_batch_small).
  - reflexivity.
  - vm_compute. reflexivity.
Defined.

(** X24 on the batch of four records. *)
Lemma X24_process_banking_data_returns_witness :
  let s := fresh [batch_small] in
  let config := _get_default_config in
  heap s !! 0%nat = Some batch_small
  ∧ schema_errors config batch_small = []
  ∧ (∀ col, In col pipeline_columns → has_column col batch_small = true)
  ∧ has_column "transaction_type" batch_small = false
  ∧ @naive_dates reference_pandas batch_small = true
  ∧ ∃ aggregated report anomalies s',
      @process_banking_data reference_pandas reference_clock config 0%nat s
      = (Returned (aggregated, report, anomalies), s')
      ∧ is_Some (heap s' !! aggregated)
      ∧ is_Some (heap s' !! anomalies)
      ∧ quality_report s' = Some report.
Proof.
  cbv zeta.
  assert (∀ col, In col pipeline_columns → has_column col batch_small = true)
    as Hcols.
  { intros col [<-|[<-|[<-|[<-|[<-|[]]]]]]; vm_compute; reflexivity. }
  split; [reflexivity|]. split; [vm_compute; reflexivity|].
  split; [exact Hcols|]. split; [vm_compute; reflexivity|].
  split; [reflexivity|].
  apply (@X24_process_banking_data_returns reference_pandas reference_clock
           _get_default_config (fresh [batch_small]) 0%nat batch_small).
  - reflexivity.
  - vm_compute. reflexivity.
  - exact Hcols.
  - vm_compute. reflexivity.
  - reflexivity.
Defined.

(** X25 on the three amounts 0.1 of one bank, in binary64. *)
Lemma X25_nine_records_no_anomaly_witness :
  let s := fresh [batch_tenths] in
  let d := batch_tenths in
  let config := _get_default_config in
  heap s !! 0%nat = Some d
  ∧ has_column "bank_id" d = true
  ∧ has_column "amount" d = true
  ∧ handle_outliers config = true
  ∧ (3 <= anomaly_threshold_std config)%Q
  ∧ (∀ x, In x (rows d) →
          @deviation_accurate binary64_pandas (group_amounts d (cell x "bank_id")))
  ∧ ∃ normal anomalies s' da,
      @detect_anomalies binary64_pandas reference_clock config 0%nat s
      = (Returned (normal, anomalies), s')
      ∧ heap s' !! anomalies = Some da
      ∧ ∀ a, In a (rows da) →
          (9 < length (group_amounts d (cell a "bank_id")))%nat.
Proof.
  cbv zeta.
  assert (3 <= anomaly_threshold_std _get_default_config)%Q as Hthr
    by (apply Qle_bool_iff; vm_compute; reflexivity).
  assert (∀ x, In x (rows batch_tenths) →
               @deviation_accurate binary64_pandas
                 (group_amounts batch_tenths (cell x "bank_id"))) as Hlib.
  { intros x [<-|[<-|[<-|[]]]]; apply Qle_bool_iff; vm_compute; reflexivity. }
  split; [reflexivity|]. split; [vm_compute; reflexivity|].
  split; [vm_compute; reflexivity|]. split; [reflexivity|].
  split; [exact Hthr|]. split; [exact Hlib|].
  apply (@X25_nine_records_no_anomaly binary64_pandas reference_clock
           _get_default_config (fresh [batch_tenths]) 0%nat batch_tenths).
  - reflexivity.
  - vm_compute. reflexivity.
  - vm_compute. reflexivity.
  - reflexivity.
  - exact Hthr.
  - exact Hlib.
Defined.
